(** * MediaLive / MediaPackage provider resources and the EKS token ARN helper

    A shallow embedding of the Go sources of the provider: the ARN
    canonicaliser of [aws/internal/service/eks/token/arn.go], the
    expand/flatten structure helpers of the MediaLive channel and input
    resources, and their create/read/delete operations with the
    poll-until-stable waiters.

    Several files of the repository are present in more than one revision.
    Where two revisions of one function differ in what the properties are
    about, both are embedded: the modules [input_rev1] and [input_rev2] hold
    the two revisions of the input resource, [channel_structure] and
    [channel_structure_rev2] those of the structure helpers, in the order
    of the file, and each definition names the lines it embeds. *)

From Stdlib Require Import ZArith String Ascii List Lia Bool.
From Stdlib Require Import Floats.SpecFloat.
From stdpp Require Import base strings gmap list.

Set Warnings "-register-all".
Open Scope string_scope.

(** ** Go strings

    A Go string is a sequence of bytes; [string] is a list of [ascii]. The
    functions below are the ones of package [strings] the sources call, each
    for a one-byte separator, which is all the callers use. *)

Module strings.

(** [strings.HasPrefix]. *)
Definition HasPrefix (s pre : string) : bool := String.prefix pre s.

(** [strings.Split(s, sep)] for a one-byte [sep]: the substrings between
    the separators; never empty ([Split "" sep] is one empty string). *)
Fixpoint Split (s : string) (sep : ascii) : list string :=
  match s with
  | EmptyString => [EmptyString]
  | String c rest =>
      if Ascii.eqb c sep then EmptyString :: Split rest sep
      else match Split rest sep with
           | hd :: tl => String c hd :: tl
           | [] => [String c EmptyString]
           end
  end.

(** The text before and after the first [sep] of [s], if there is one. *)
Fixpoint Cut (s : string) (sep : ascii) : option (string * string) :=
  match s with
  | EmptyString => None
  | String c rest =>
      if Ascii.eqb c sep then Some (EmptyString, rest)
      else match Cut rest sep with
           | Some (before, after) => Some (String c before, after)
           | None => None
           end
  end.

(** [strings.SplitN(s, sep, n)] for a one-byte [sep] and [n >= 0]: at most
    [n] substrings, the last one being the unsplit remainder. *)
Fixpoint SplitN (s : string) (sep : ascii) (n : nat) : list string :=
  match n with
  | O => []
  | S O => [s]
  | S n' =>
      match Cut s sep with
      | Some (before, after) => before :: SplitN after sep n'
      | None => [s]
      end
  end.

(** [strings.Join(elems, sep)]. *)
Fixpoint Join (elems : list string) (sep : string) : string :=
  match elems with
  | [] => EmptyString
  | [e] => e
  | e :: rest => e ++ sep ++ Join rest sep
  end.

End strings.

(** A Go slice expression [l[lo:hi]] on a list, for [lo <= hi <= len(l)]. *)
Definition slice {A} (l : list A) (lo hi : nat) : list A :=
  take (hi - lo) (drop lo l).

(** ** [aws/internal/service/eks/token/arn.go] *)

Module token.

(** The result of a Go function returning [(string, error)]. *)
Inductive result : Type :=
| Ok (s : string)
| Err (msg : string).

(** [arn.ARN] of the AWS SDK. *)
Record ARN : Type := mkARN {
  Partition : string;
  Service : string;
  Region : string;
  AccountID : string;
  Resource : string
}.

(** [arn.Parse] of the AWS SDK ([aws/arn/arn.go]), which the repository
    imports: the text must start with [arn:] and have six sections
    separated by colons, the sixth taking the rest of the text. *)
Definition Parse (arn : string) : ARN + string :=
  if negb (strings.HasPrefix arn "arn:") then inr "arn: invalid prefix"
  else
    match strings.SplitN arn ":" 6 with
    | [_; partition; service; region; account; resource] =>
        inl (mkARN partition service region account resource)
    | _ => inr "arn: not enough sections"
    end.

(** The partition identifiers of [aws/endpoints]. *)
Definition AwsPartitionID : string := "aws".
Definition AwsCnPartitionID : string := "aws-cn".
Definition AwsUsGovPartitionID : string := "aws-us-gov".

(** [checkPartition], lines 69-78: [None] is the nil error. *)
Definition checkPartition (partition : string) : option string :=
  if String.eqb partition AwsPartitionID then None
  else if String.eqb partition AwsCnPartitionID then None
  else if String.eqb partition AwsUsGovPartitionID then None
  else Some ("partion " ++ partition ++ " is not recognized").

(** [Canonicalize], lines 29-67. [parts[0]] cannot fail: [Split] never
    returns an empty slice. *)
Definition Canonicalize (arn : string) : result :=
  match Parse arn with
  | inr err => Err ("arn '" ++ arn ++ "' is invalid: '" ++ err ++ "'")
  | inl parsed =>
      match checkPartition (Partition parsed) with
      | Some _ => Err ("arn '" ++ arn ++ "' does not have a recognized partition")
      | None =>
          let parts := strings.Split (Resource parsed) "/" in
          let resource := hd EmptyString parts in
          if String.eqb (Service parsed) "sts" then
            if String.eqb resource "federated-user" then Ok arn
            else if String.eqb resource "assumed-role" then
              if (length parts <? 3)%nat then
                Err ("assumed-role arn '" ++ arn ++ "' does not have a role")
              else
                let role :=
                  strings.Join (slice parts 1 (length parts - 1)) "/" in
                Ok ("arn:" ++ Partition parsed ++ ":iam::"
                      ++ AccountID parsed ++ ":role/" ++ role)
            else
              Err ("unrecognized resource " ++ Resource parsed
                     ++ " for service sts")
          else if String.eqb (Service parsed) "iam" then
            if String.eqb resource "role" || String.eqb resource "user"
               || String.eqb resource "root"
            then Ok arn
            else
              Err ("unrecognized resource " ++ Resource parsed
                     ++ " for service iam")
          else
            Err ("service " ++ Service parsed ++ " in arn " ++ arn
                   ++ " is not a valid service for identities")
      end
  end.

(** *** The specification of [Canonicalize], in the words of the
    documentation: which ARNs are accepted and what they become. *)

Definition recognized_partition (p : string) : Prop :=
  p = "aws" \/ p = "aws-cn" \/ p = "aws-us-gov".

(** The slash-separated segments of the resource section; the first one
    is the resource type. *)
Definition segments (a : ARN) : list string :=
  strings.Split (Resource a) "/".

Inductive canonical (arn : string) : string -> Prop :=
| canonical_iam a ty rest :
    Parse arn = inl a ->
    recognized_partition (Partition a) ->
    Service a = "iam" ->
    segments a = ty :: rest ->
    ty = "role" \/ ty = "user" \/ ty = "root" ->
    canonical arn arn
| canonical_federated a rest :
    Parse arn = inl a ->
    recognized_partition (Partition a) ->
    Service a = "sts" ->
    segments a = "federated-user" :: rest ->
    canonical arn arn
| canonical_assumed a r rolepath session :
    Parse arn = inl a ->
    recognized_partition (Partition a) ->
    Service a = "sts" ->
    segments a = "assumed-role" :: (r :: rolepath) ++ [session] ->
    canonical arn
      ("arn:" ++ Partition a ++ ":iam::" ++ AccountID a ++ ":role/"
         ++ strings.Join (r :: rolepath) "/").

End token.

(** ** Go evaluation

    A Go expression returns a value or panics. The panics the sources can
    raise are a nil pointer dereference, a failed type assertion, an index
    or slice bound out of range, and an explicit [panic] call. *)

Inductive panic : Type :=
| NilDereference
| TypeAssertion
| IndexOutOfRange
| SliceBounds
| Explicit.

Inductive go (A : Type) : Type :=
| Ret (a : A)
| Panic (p : panic).
Arguments Ret {A} a.
Arguments Panic {A} p.

#[export] Instance go_ret : MRet go := fun A a => Ret a.
#[export] Instance go_bind : MBind go :=
  fun A B f m => match m with Ret a => f a | Panic p => Panic p end.

(** A [for _, x := range l] loop that appends one result per element. *)
Fixpoint for_range {A B} (f : A -> go B) (l : list A) : go (list B) :=
  match l with
  | [] => Ret []
  | x :: rest =>
      y ← f x;
      ys ← for_range f rest;
      Ret (y :: ys)
  end.

(** A stateful Go function over a state [S]: it returns a value and the new
    state, or panics. *)
Definition op (S A : Type) : Type := S -> go (A * S).

#[export] Instance op_ret {S} : MRet (op S) := fun A a s => Ret (a, s).
#[export] Instance op_bind {S} : MBind (op S) :=
  fun A B f m s =>
    match m s with
    | Ret (a, s') => f a s'
    | Panic p => Panic p
    end.

Definition lift {S A} (m : go A) : op S A :=
  fun s => match m with Ret a => Ret (a, s) | Panic p => Panic p end.

(** Pointers to scalars are options; [aws.String], [aws.Int64],
    [aws.Float64] and [aws.StringValue] of the AWS SDK. *)
Module aws.
Definition String (s : string) : option string := Some s.
Definition Int64 (n : Z) : option Z := Some n.
Definition Float64 (f : spec_float) : option spec_float := Some f.
Definition StringValue (p : option string) : string :=
  match p with Some s => s | None => EmptyString end.
End aws.

(** [int64(x)] of an [int]: both are 64 bits wide on the platforms the
    provider is built for, so the conversion keeps the value. *)
Definition int64 (n : Z) : Z := n.

(** ** Terraform's dynamic attribute tree

    The values of type [interface{}] the plugin SDK hands to the provider:
    strings, ints, floats, booleans, lists ([[]interface{}]), sets
    ([*schema.Set], by the list its [List()] returns) and maps
    ([map[string]interface{}]). A nil slice is the empty list. *)

Inductive value : Type :=
| VString (s : string)
| VInt (n : Z)
| VFloat (f : spec_float)
| VBool (b : bool)
| VList (l : list value)
| VSet (l : list value)
| VMap (m : gmap string value).

(** Type assertions [x.(T)]; [None] is the nil interface, which is what
    indexing a map at a missing key yields. *)
Definition assert_string (x : option value) : go string :=
  match x with Some (VString s) => Ret s | _ => Panic TypeAssertion end.
Definition assert_int (x : option value) : go Z :=
  match x with Some (VInt n) => Ret n | _ => Panic TypeAssertion end.
Definition assert_float64 (x : option value) : go spec_float :=
  match x with Some (VFloat f) => Ret f | _ => Panic TypeAssertion end.
Definition assert_list (x : option value) : go (list value) :=
  match x with Some (VList l) => Ret l | _ => Panic TypeAssertion end.
Definition assert_set (x : option value) : go (list value) :=
  match x with Some (VSet l) => Ret l | _ => Panic TypeAssertion end.
Definition assert_map (x : option value) : go (gmap string value) :=
  match x with Some (VMap m) => Ret m | _ => Panic TypeAssertion end.

(** [l[i]]. *)
Definition index {A} (l : list A) (i : nat) : go A :=
  match l !! i with Some x => Ret x | None => Panic IndexOutOfRange end.

(** [p.Field] and [*p] for a pointer [p]: the pointer is dereferenced. *)
Definition deref {A} (p : option A) : go A :=
  match p with Some x => Ret x | None => Panic NilDereference end.

(** [s.List()[0].(map[string]interface{})] for a set [s]. *)
Definition first_map (s : list value) : go (gmap string value) :=
  x ← index s 0;
  assert_map (Some x).

(** [r[key].(string)], [int64(r[key].(int))], and so on, for a map [r]. *)
Definition get_string (r : gmap string value) (key : string) : go string :=
  assert_string (r !! key).
Definition get_int (r : gmap string value) (key : string) : go Z :=
  assert_int (r !! key).
Definition get_float64 (r : gmap string value) (key : string) : go spec_float :=
  assert_float64 (r !! key).
Definition get_set (r : gmap string value) (key : string) : go (list value) :=
  assert_set (r !! key).
Definition get_list (r : gmap string value) (key : string) : go (list value) :=
  assert_list (r !! key).

(** ** The MediaLive structs of the AWS SDK

    One module per struct of [service/medialive], with the fields the
    provider sets; a field of pointer type is an option, a slice of struct
    pointers is a list (the provider only ever appends non-nil pointers).
    [zero] is the struct literal without fields. The struct fields the
    provider never sets stay nil in every value it builds, and are left out;
    [HlsOutputSettings] and [RtmpOutputSettings], which the provider compares
    as whole structs, have no other field. *)

Module medialive.

Module CaptionLanguageMapping.
Record t : Type := mk {
  CaptionChannel : option Z;
  LanguageCode : option string;
  LanguageDescription : option string
}.
End CaptionLanguageMapping.

Module HlsBasicPutSettings.
Record t : Type := mk {
  ConnectionRetryInterval : option Z;
  FilecacheDuration : option Z;
  NumRetries : option Z;
  RestartDelay : option Z
}.
Definition zero : t :=
  mk None None None None.
End HlsBasicPutSettings.

Module HlsCdnSettings.
Record t : Type := mk {
  HlsBasicPutSettings : option HlsBasicPutSettings.t
}.
Definition zero : t :=
  mk None.
End HlsCdnSettings.

Module OutputLocationRef.
Record t : Type := mk {
  DestinationRefId : option string
}.
Definition zero : t :=
  mk None.
End OutputLocationRef.

Module HlsGroupSettings.
Record t : Type := mk {
  CaptionLanguageSetting : option string;
  CaptionLanguageMappings : list CaptionLanguageMapping.t;
  CodecSpecification : option string;
  ClientCache : option string;
  HlsCdnSettings : option HlsCdnSettings.t;
  HlsId3SegmentTagging : option string;
  IndexNSegments : option Z;
  InputLossAction : option string;
  IvInManifest : option string;
  IvSource : option string;
  IFrameOnlyPlaylists : option string;
  KeepSegments : option Z;
  ManifestCompression : option string;
  ManifestDurationFormat : option string;
  Mode : option string;
  OutputSelection : option string;
  ProgramDateTime : option string;
  ProgramDateTimePeriod : option Z;
  RedundantManifest : option string;
  SegmentationMode : option string;
  SegmentLength : option Z;
  Destination : option OutputLocationRef.t;
  DirectoryStructure : option string;
  SegmentsPerSubdirectory : option Z;
  StreamInfResolution : option string;
  TimedMetadataId3Frame : option string;
  TimedMetadataId3Period : option Z;
  TimestampDeltaMilliseconds : option Z;
  TsFileMode : option string
}.
Definition zero : t :=
  mk None [] None None None None None None None None None None None None
     None None None None None None None None None None None None None None
     None.
End HlsGroupSettings.

Module RtmpGroupSettings.
Record t : Type := mk {
  AuthenticationScheme : option string;
  CacheFullBehavior : option string;
  CacheLength : option Z;
  CaptionData : option string;
  InputLossAction : option string;
  RestartDelay : option Z
}.
Definition zero : t :=
  mk None None None None None None.
End RtmpGroupSettings.

Module OutputGroupSettings.
Record t : Type := mk {
  HlsGroupSettings : option HlsGroupSettings.t;
  RtmpGroupSettings : option RtmpGroupSettings.t
}.
Definition zero : t :=
  mk None None.
End OutputGroupSettings.

Module M3u8Settings.
Record t : Type := mk {
  AudioFramesPerPes : option Z;
  AudioPids : option string;
  NielsenId3Behavior : option string;
  PatInterval : option Z;
  PcrControl : option string;
  PmtPid : option string;
  ProgramNum : option Z;
  Scte35Behavior : option string;
  Scte35Pid : option string;
  TimedMetadataBehavior : option string;
  TimedMetadataPid : option string;
  VideoPid : option string
}.
Definition zero : t :=
  mk None None None None None None None None None None None None.
End M3u8Settings.

Module StandardHlsSettings.
Record t : Type := mk {
  AudioRenditionSets : option string;
  M3u8Settings : option M3u8Settings.t
}.
Definition zero : t :=
  mk None None.
End StandardHlsSettings.

Module AudioOnlyHlsSettings.
Record t : Type := mk {
  AudioGroupId : option string;
  AudioTrackType : option string;
  SegmentType : option string
}.
Definition zero : t :=
  mk None None None.
End AudioOnlyHlsSettings.

Module HlsSettings.
Record t : Type := mk {
  StandardHlsSettings : option StandardHlsSettings.t;
  AudioOnlyHlsSettings : option AudioOnlyHlsSettings.t
}.
Definition zero : t :=
  mk None None.
End HlsSettings.

Module HlsOutputSettings.
Record t : Type := mk {
  HlsSettings : option HlsSettings.t;
  NameModifier : option string;
  H265PackagingType : option string;
  SegmentModifier : option string
}.
Definition zero : t :=
  mk None None None None.
(** [x == HlsOutputSettings{}]: every field is a pointer, and equals the
    zero value's when it is nil. *)
Definition is_zero (x : t) : bool :=
  match x with
  | mk None None None None => true
  | _ => false
  end.
End HlsOutputSettings.

Module RtmpOutputSettings.
Record t : Type := mk {
  CertificateMode : option string;
  ConnectionRetryInterval : option Z;
  NumRetries : option Z;
  Destination : option OutputLocationRef.t
}.
Definition zero : t :=
  mk None None None None.
(** [x == RtmpOutputSettings{}]. *)
Definition is_zero (x : t) : bool :=
  match x with
  | mk None None None None => true
  | _ => false
  end.
End RtmpOutputSettings.

Module OutputSettings.
Record t : Type := mk {
  HlsOutputSettings : option HlsOutputSettings.t;
  RtmpOutputSettings : option RtmpOutputSettings.t
}.
Definition zero : t :=
  mk None None.
End OutputSettings.

Module H264Settings.
Record t : Type := mk {
  AdaptiveQuantization : option string;
  AfdSignaling : option string;
  Bitrate : option Z;
  BufFillPct : option Z;
  BufSize : option Z;
  ColorMetadata : option string;
  EntropyEncoding : option string;
  FlickerAq : option string;
  ForceFieldPictures : option string;
  FramerateControl : option string;
  FramerateDenominator : option Z;
  FramerateNumerator : option Z;
  GopBReference : option string;
  GopClosedCadence : option Z;
  GopNumBFrames : option Z;
  GopSize : option spec_float;
  GopSizeUnits : option string;
  Level : option string;
  LookAheadRateControl : option string;
  NumRefFrames : option Z;
  ParControl : option string;
  QualityLevel : option string;
  Profile : option string;
  RateControlMode : option string;
  Syntax : option string;
  SceneChangeDetect : option string;
  SpatialAq : option string;
  TemporalAq : option string;
  TimecodeInsertion : option string
}.
Definition zero : t :=
  mk None None None None None None None None None None None None None None
     None None None None None None None None None None None None None None
     None.
(** [h.FramerateControl = v]. *)
Definition with_FramerateControl (v : option string) (h : t) : t :=
  mk (AdaptiveQuantization h) (AfdSignaling h) (Bitrate h) (BufFillPct h)
     (BufSize h) (ColorMetadata h) (EntropyEncoding h) (FlickerAq h)
     (ForceFieldPictures h) v (FramerateDenominator h) (FramerateNumerator h)
     (GopBReference h) (GopClosedCadence h) (GopNumBFrames h) (GopSize h)
     (GopSizeUnits h) (Level h) (LookAheadRateControl h) (NumRefFrames h)
     (ParControl h) (QualityLevel h) (Profile h) (RateControlMode h)
     (Syntax h) (SceneChangeDetect h) (SpatialAq h) (TemporalAq h)
     (TimecodeInsertion h).
(** [h.FramerateDenominator = v]. *)
Definition with_FramerateDenominator (v : option Z) (h : t) : t :=
  mk (AdaptiveQuantization h) (AfdSignaling h) (Bitrate h) (BufFillPct h)
     (BufSize h) (ColorMetadata h) (EntropyEncoding h) (FlickerAq h)
     (ForceFieldPictures h) (FramerateControl h) v (FramerateNumerator h)
     (GopBReference h) (GopClosedCadence h) (GopNumBFrames h) (GopSize h)
     (GopSizeUnits h) (Level h) (LookAheadRateControl h) (NumRefFrames h)
     (ParControl h) (QualityLevel h) (Profile h) (RateControlMode h)
     (Syntax h) (SceneChangeDetect h) (SpatialAq h) (TemporalAq h)
     (TimecodeInsertion h).
(** [h.FramerateNumerator = v]. *)
Definition with_FramerateNumerator (v : option Z) (h : t) : t :=
  mk (AdaptiveQuantization h) (AfdSignaling h) (Bitrate h) (BufFillPct h)
     (BufSize h) (ColorMetadata h) (EntropyEncoding h) (FlickerAq h)
     (ForceFieldPictures h) (FramerateControl h) (FramerateDenominator h) v
     (GopBReference h) (GopClosedCadence h) (GopNumBFrames h) (GopSize h)
     (GopSizeUnits h) (Level h) (LookAheadRateControl h) (NumRefFrames h)
     (ParControl h) (QualityLevel h) (Profile h) (RateControlMode h)
     (Syntax h) (SceneChangeDetect h) (SpatialAq h) (TemporalAq h)
     (TimecodeInsertion h).
End H264Settings.

Module OutputDestinationSettings.
Record t : Type := mk {
  PasswordParam : option string;
  StreamName : option string;
  Url : option string;
  Username : option string
}.
End OutputDestinationSettings.

Module OutputDestination.
Record t : Type := mk {
  Id : option string;
  Settings : list OutputDestinationSettings.t
}.
End OutputDestination.

(** The structs of the Input and Channel API calls. *)

Module InputDestinationRequest.
Record t : Type := mk {
  StreamName : option string
}.
End InputDestinationRequest.

Module CreateInputInput.
Record t : Type := mk {
  Destinations : list InputDestinationRequest.t;
  InputSecurityGroups : list (option string);
  Name : option string;
  RequestId : option string;
  RoleArn : option string;
  Tags : gmap string (option string);
  Type_ : option string
}.
End CreateInputInput.

Module InputDestination.
Record t : Type := mk {
  Ip : option string;
  Port : option string;
  Url : option string
}.
End InputDestination.

Module Input.
Record t : Type := mk {
  Id : option string;
  State : option string
}.
End Input.

Module CreateInputOutput.
Record t : Type := mk {
  Input : option Input.t
}.
End CreateInputOutput.

Module DescribeInputInput.
Record t : Type := mk {
  InputId : option string
}.
End DescribeInputInput.

(** [Destinations] is a slice of pointers that comes from the service. *)
Module DescribeInputOutput.
Record t : Type := mk {
  Arn : option string;
  Destinations : list (option InputDestination.t);
  InputClass : option string;
  Name : option string;
  State : option string;
  Tags : gmap string (option string);
  Type_ : option string
}.
End DescribeInputOutput.

Module DeleteInputInput.
Record t : Type := mk {
  InputId : option string
}.
End DeleteInputInput.

Module DescribeChannelInput.
Record t : Type := mk {
  ChannelId : option string
}.
End DescribeChannelInput.

Module DescribeChannelOutput.
Record t : Type := mk {
  Arn : option string;
  Name : option string;
  RoleArn : option string;
  State : option string;
  Tags : gmap string (option string)
}.
End DescribeChannelOutput.

Module DeleteChannelInput.
Record t : Type := mk {
  ChannelId : option string
}.
End DeleteChannelInput.

(** The state names and the error code of [service/medialive]. *)
Definition InputStateCreating : string := "CREATING".
Definition InputStateDetached : string := "DETACHED".
Definition InputStateAttached : string := "ATTACHED".
Definition InputStateDeleting : string := "DELETING".
Definition InputStateDeleted : string := "DELETED".
Definition ChannelStateDeleting : string := "DELETING".
Definition ChannelStateDeleted : string := "DELETED".
Definition ErrCodeNotFoundException : string := "NotFoundException".

End medialive.

(** [service/mediapackage] of the AWS SDK. *)
Module mediapackage.

Module DeleteOriginEndpointInput.
Record t : Type := mk {
  Id : option string
}.
End DeleteOriginEndpointInput.

Definition ErrCodeNotFoundException : string := "NotFoundException".

End mediapackage.

(** ** [aws/media_live_channel_structure.go], first revision (lines 1-736) *)

Module channel_structure.
Import medialive.

(** [expandOutputDestinationSettings], lines 68-86. *)
Definition expandOutputDestinationSettings (destinationSettings : list value)
  : go (list OutputDestinationSettings.t) :=
  if (length destinationSettings =? 0)%nat then Ret []
  else
    for_range
      (fun settings =>
         r ← assert_map (Some settings);
         password_param ← get_string r "password_param";
         stream_name ← get_string r "stream_name";
         url ← get_string r "url";
         username ← get_string r "username";
         Ret {| OutputDestinationSettings.PasswordParam := aws.String password_param;
                OutputDestinationSettings.StreamName := aws.String stream_name;
                OutputDestinationSettings.Url := aws.String url;
                OutputDestinationSettings.Username := aws.String username |})
      destinationSettings.

(** [expandDestinations], lines 50-66. *)
Definition expandDestinations (destinations : list value)
  : go (list OutputDestination.t) :=
  if (length destinations =? 0)%nat then Ret []
  else
    for_range
      (fun destination =>
         r ← assert_map (Some destination);
         id ← get_string r "id";
         settings_list ← get_list r "settings";
         settings ← expandOutputDestinationSettings settings_list;
         Ret {| OutputDestination.Id := aws.String id;
                OutputDestination.Settings := settings |})
      destinations.

(** [expandCaptionLanguageMapping], lines 473-488. *)
Definition expandCaptionLanguageMapping (captionMappings : list value)
  : go (list CaptionLanguageMapping.t) :=
  if (length captionMappings =? 0)%nat then Ret []
  else
    for_range
      (fun v =>
         settings ← assert_map (Some v);
         caption_channel ← get_int settings "caption_channel";
         language_code ← get_string settings "language_code";
         language_description ← get_string settings "language_description";
         Ret {| CaptionLanguageMapping.CaptionChannel := aws.Int64 (int64 caption_channel);
                CaptionLanguageMapping.LanguageCode := aws.String language_code;
                CaptionLanguageMapping.LanguageDescription := aws.String language_description |})
      captionMappings.

(** [expandHlsBasicPutSettings], lines 517-530. *)
Definition expandHlsBasicPutSettings (s : list value) : go (option HlsBasicPutSettings.t) :=
  if (0 <? length s)%nat then
    settings ← first_map s;
    connection_retry_interval ← get_int settings "connection_retry_interval";
    filecache_duration ← get_int settings "filecache_duration";
    num_retries ← get_int settings "num_retries";
    restart_delay ← get_int settings "restart_delay";
    Ret (Some
      {| HlsBasicPutSettings.ConnectionRetryInterval := aws.Int64 (int64 connection_retry_interval);
         HlsBasicPutSettings.FilecacheDuration := aws.Int64 (int64 filecache_duration);
         HlsBasicPutSettings.NumRetries := aws.Int64 (int64 num_retries);
         HlsBasicPutSettings.RestartDelay := aws.Int64 (int64 restart_delay) |})
  else Ret (Some HlsBasicPutSettings.zero).

(** [expandHlsCdnSettings], lines 490-503. *)
Definition expandHlsCdnSettings (s : list value) : go (option HlsCdnSettings.t) :=
  if (0 <? length s)%nat then
    settings ← first_map s;
    hls_basic_put_settings_set ← get_set settings "hls_basic_put_settings";
    hls_basic_put_settings ← expandHlsBasicPutSettings hls_basic_put_settings_set;
    Ret (Some
      {| HlsCdnSettings.HlsBasicPutSettings := hls_basic_put_settings |})
  else Ret (Some HlsCdnSettings.zero).

(** [expandHlsDestinationRef], lines 505-515. *)
Definition expandHlsDestinationRef (s : list value) : go (option OutputLocationRef.t) :=
  if (0 <? length s)%nat then
    settings ← first_map s;
    destination_ref_id ← get_string settings "destination_ref_id";
    Ret (Some
      {| OutputLocationRef.DestinationRefId := aws.String destination_ref_id |})
  else Ret (Some OutputLocationRef.zero).

(** [expandHlsGroupSettings], lines 433-471. *)
Definition expandHlsGroupSettings (s : list value) : go (option HlsGroupSettings.t) :=
  if (0 <? length s)%nat then
    settings ← first_map s;
    caption_language_setting ← get_string settings "caption_language_setting";
    caption_language_mapping_list ← get_list settings "caption_language_mapping";
    caption_language_mapping ← expandCaptionLanguageMapping caption_language_mapping_list;
    codec_specification ← get_string settings "codec_specification";
    client_cache ← get_string settings "client_cache";
    hls_cdn_settings_set ← get_set settings "hls_cdn_settings";
    hls_cdn_settings ← expandHlsCdnSettings hls_cdn_settings_set;
    hls_id3_segment_tagging ← get_string settings "hls_id3_segment_tagging";
    index_n_segments ← get_int settings "index_n_segments";
    input_loss_action ← get_string settings "input_loss_action";
    iv_in_manifest ← get_string settings "iv_in_manifest";
    iv_source ← get_string settings "iv_source";
    iframe_only_playlists ← get_string settings "iframe_only_playlists";
    keep_segments ← get_int settings "keep_segments";
    manifest_compression ← get_string settings "manifest_compression";
    manifest_duration_format ← get_string settings "manifest_duration_format";
    mode ← get_string settings "mode";
    output_selection ← get_string settings "output_selection";
    program_date_time ← get_string settings "program_date_time";
    program_date_time_period ← get_int settings "program_date_time_period";
    redundant_manifest ← get_string settings "redundant_manifest";
    segmentation_mode ← get_string settings "segmentation_mode";
    segment_length ← get_int settings "segment_length";
    destination_set ← get_set settings "destination";
    destination ← expandHlsDestinationRef destination_set;
    directory_structure ← get_string settings "directory_structure";
    segments_per_subdirectory ← get_int settings "segments_per_subdirectory";
    stream_inf_resolution ← get_string settings "stream_inf_resolution";
    timed_metadata_id3_frame ← get_string settings "timed_metadata_id3_frame";
    timed_metadata_id3_period ← get_int settings "timed_metadata_id3_period";
    timestamp_delta_milliseconds ← get_int settings "timestamp_delta_milliseconds";
    ts_file_mode ← get_string settings "ts_file_mode";
    Ret (Some
      {| HlsGroupSettings.CaptionLanguageSetting := aws.String caption_language_setting;
         HlsGroupSettings.CaptionLanguageMappings := caption_language_mapping;
         HlsGroupSettings.CodecSpecification := aws.String codec_specification;
         HlsGroupSettings.ClientCache := aws.String client_cache;
         HlsGroupSettings.HlsCdnSettings := hls_cdn_settings;
         HlsGroupSettings.HlsId3SegmentTagging := aws.String hls_id3_segment_tagging;
         HlsGroupSettings.IndexNSegments := aws.Int64 (int64 index_n_segments);
         HlsGroupSettings.InputLossAction := aws.String input_loss_action;
         HlsGroupSettings.IvInManifest := aws.String iv_in_manifest;
         HlsGroupSettings.IvSource := aws.String iv_source;
         HlsGroupSettings.IFrameOnlyPlaylists := aws.String iframe_only_playlists;
         HlsGroupSettings.KeepSegments := aws.Int64 (int64 keep_segments);
         HlsGroupSettings.ManifestCompression := aws.String manifest_compression;
         HlsGroupSettings.ManifestDurationFormat := aws.String manifest_duration_format;
         HlsGroupSettings.Mode := aws.String mode;
         HlsGroupSettings.OutputSelection := aws.String output_selection;
         HlsGroupSettings.ProgramDateTime := aws.String program_date_time;
         HlsGroupSettings.ProgramDateTimePeriod := aws.Int64 (int64 program_date_time_period);
         HlsGroupSettings.RedundantManifest := aws.String redundant_manifest;
         HlsGroupSettings.SegmentationMode := aws.String segmentation_mode;
         HlsGroupSettings.SegmentLength := aws.Int64 (int64 segment_length);
         HlsGroupSettings.Destination := destination;
         HlsGroupSettings.DirectoryStructure := aws.String directory_structure;
         HlsGroupSettings.SegmentsPerSubdirectory := aws.Int64 (int64 segments_per_subdirectory);
         HlsGroupSettings.StreamInfResolution := aws.String stream_inf_resolution;
         HlsGroupSettings.TimedMetadataId3Frame := aws.String timed_metadata_id3_frame;
         HlsGroupSettings.TimedMetadataId3Period := aws.Int64 (int64 timed_metadata_id3_period);
         HlsGroupSettings.TimestampDeltaMilliseconds := aws.Int64 (int64 timestamp_delta_milliseconds);
         HlsGroupSettings.TsFileMode := aws.String ts_file_mode |})
  else Ret (Some HlsGroupSettings.zero).

(** [expandRtmpGroupSettings], lines 643-658. *)
Definition expandRtmpGroupSettings (s : list value) : go (option RtmpGroupSettings.t) :=
  if (0 <? length s)%nat then
    settings ← first_map s;
    authentication_scheme ← get_string settings "authentication_scheme";
    cache_full_behavior ← get_string settings "cache_full_behavior";
    cache_length ← get_int settings "cache_length";
    caption_data ← get_string settings "caption_data";
    input_loss_action ← get_string settings "input_loss_action";
    restart_delay ← get_int settings "restart_delay";
    Ret (Some
      {| RtmpGroupSettings.AuthenticationScheme := aws.String authentication_scheme;
         RtmpGroupSettings.CacheFullBehavior := aws.String cache_full_behavior;
         RtmpGroupSettings.CacheLength := aws.Int64 (int64 cache_length);
         RtmpGroupSettings.CaptionData := aws.String caption_data;
         RtmpGroupSettings.InputLossAction := aws.String input_loss_action;
         RtmpGroupSettings.RestartDelay := aws.Int64 (int64 restart_delay) |})
  else Ret (Some RtmpGroupSettings.zero).

(** [expandOutputGroupSettings], lines 188-213. *)
Definition expandOutputGroupSettings (s : list value)
  : go (option OutputGroupSettings.t) :=
  if (0 <? length s)%nat then
    settings ← first_map s;
    hls_group_settings ← get_set settings "hls_group_settings";
    hlsGroupSettings ← expandHlsGroupSettings hls_group_settings;
    rtmp_group_settings ← get_set settings "rtmp_group_settings";
    rtmpGroupSettings ← expandRtmpGroupSettings rtmp_group_settings;
    hls ← deref hlsGroupSettings;
    let attachedHls :=
        match HlsGroupSettings.Mode hls with
        | Some _ => hlsGroupSettings
        | None => None
        end in
    rtmp ← deref rtmpGroupSettings;
    let attachedRtmp :=
        match RtmpGroupSettings.AuthenticationScheme rtmp with
        | Some _ => rtmpGroupSettings
        | None => None
        end in
    Ret (Some
      {| OutputGroupSettings.HlsGroupSettings := attachedHls;
         OutputGroupSettings.RtmpGroupSettings := attachedRtmp |})
  else Ret (Some OutputGroupSettings.zero).

(** [expandM3u8settings], lines 410-431. *)
Definition expandM3u8settings (s : list value) : go (option M3u8Settings.t) :=
  if (0 <? length s)%nat then
    settings ← first_map s;
    audio_frames_per_pes ← get_int settings "audio_frames_per_pes";
    audio_pids ← get_string settings "audio_pids";
    nielsen_id3_behavior ← get_string settings "nielsen_id3_behavior";
    pat_interval ← get_int settings "pat_interval";
    pcr_control ← get_string settings "pcr_control";
    pmt_pid ← get_string settings "pmt_pid";
    program_num ← get_int settings "program_num";
    scte_35_behavior ← get_string settings "scte_35_behavior";
    scte_35_pid ← get_string settings "scte_35_pid";
    timed_metadata_behavior ← get_string settings "timed_metadata_behavior";
    timed_metadata_pid ← get_string settings "timed_metadata_pid";
    video_pid ← get_string settings "video_pid";
    Ret (Some
      {| M3u8Settings.AudioFramesPerPes := aws.Int64 (int64 audio_frames_per_pes);
         M3u8Settings.AudioPids := aws.String audio_pids;
         M3u8Settings.NielsenId3Behavior := aws.String nielsen_id3_behavior;
         M3u8Settings.PatInterval := aws.Int64 (int64 pat_interval);
         M3u8Settings.PcrControl := aws.String pcr_control;
         M3u8Settings.PmtPid := aws.String pmt_pid;
         M3u8Settings.ProgramNum := aws.Int64 (int64 program_num);
         M3u8Settings.Scte35Behavior := aws.String scte_35_behavior;
         M3u8Settings.Scte35Pid := aws.String scte_35_pid;
         M3u8Settings.TimedMetadataBehavior := aws.String timed_metadata_behavior;
         M3u8Settings.TimedMetadataPid := aws.String timed_metadata_pid;
         M3u8Settings.VideoPid := aws.String video_pid |})
  else Ret (Some M3u8Settings.zero).

(** [expandStandardHlsSettings], lines 295-305. *)
Definition expandStandardHlsSettings (s : list value) : go (option StandardHlsSettings.t) :=
  if (0 <? length s)%nat then
    settings ← first_map s;
    audio_rendition_sets ← get_string settings "audio_rendition_sets";
    m3u8_settings_set ← get_set settings "m3u8_settings";
    m3u8_settings ← expandM3u8settings m3u8_settings_set;
    Ret (Some
      {| StandardHlsSettings.AudioRenditionSets := aws.String audio_rendition_sets;
         StandardHlsSettings.M3u8Settings := m3u8_settings |})
  else Ret None.

(** [expandAudioOnlyHlsSettings], lines 397-408. *)
Definition expandAudioOnlyHlsSettings (s : list value) : go (option AudioOnlyHlsSettings.t) :=
  if (0 <? length s)%nat then
    settings ← first_map s;
    audio_group_id ← get_string settings "audio_group_id";
    audio_track_type ← get_string settings "audio_track_type";
    segment_type ← get_string settings "segment_type";
    Ret (Some
      {| AudioOnlyHlsSettings.AudioGroupId := aws.String audio_group_id;
         AudioOnlyHlsSettings.AudioTrackType := aws.String audio_track_type;
         AudioOnlyHlsSettings.SegmentType := aws.String segment_type |})
  else Ret None.

(** [expandHlsSettings], lines 282-293. *)
Definition expandHlsSettings (s : list value) : go (option HlsSettings.t) :=
  if (0 <? length s)%nat then
    settings ← first_map s;
    standard_hls_settings_set ← get_set settings "standard_hls_settings";
    standard_hls_settings ← expandStandardHlsSettings standard_hls_settings_set;
    audio_only_hls_settings_set ← get_set settings "audio_only_hls_settings";
    audio_only_hls_settings ← expandAudioOnlyHlsSettings audio_only_hls_settings_set;
    Ret (Some
      {| HlsSettings.StandardHlsSettings := standard_hls_settings;
         HlsSettings.AudioOnlyHlsSettings := audio_only_hls_settings |})
  else Ret (Some HlsSettings.zero).

(** [expandHlsOutputSettings], lines 267-280. *)
Definition expandHlsOutputSettings (s : list value) : go (option HlsOutputSettings.t) :=
  if (0 <? length s)%nat then
    settings ← first_map s;
    hls_settings_set ← get_set settings "hls_settings";
    hls_settings ← expandHlsSettings hls_settings_set;
    name_modifier ← get_string settings "name_modifier";
    h_265_packaging_type ← get_string settings "h_265_packaging_type";
    segment_modifier ← get_string settings "segment_modifier";
    Ret (Some
      {| HlsOutputSettings.HlsSettings := hls_settings;
         HlsOutputSettings.NameModifier := aws.String name_modifier;
         HlsOutputSettings.H265PackagingType := aws.String h_265_packaging_type;
         HlsOutputSettings.SegmentModifier := aws.String segment_modifier |})
  else Ret (Some HlsOutputSettings.zero).

(** [expandRtmpOutputDestination], lines 675-684. *)
Definition expandRtmpOutputDestination (s : list value) : go (option OutputLocationRef.t) :=
  if (0 <? length s)%nat then
    settings ← first_map s;
    destination_ref_id ← get_string settings "destination_ref_id";
    Ret (Some
      {| OutputLocationRef.DestinationRefId := aws.String destination_ref_id |})
  else Ret None.

(** [expandRtmpOutputSettings], lines 660-673. *)
Definition expandRtmpOutputSettings (s : list value) : go (option RtmpOutputSettings.t) :=
  if (0 <? length s)%nat then
    settings ← first_map s;
    certificate_mode ← get_string settings "certificate_mode";
    connection_retry_interval ← get_int settings "connection_retry_interval";
    num_retries ← get_int settings "num_retries";
    destination_set ← get_set settings "destination";
    destination ← expandRtmpOutputDestination destination_set;
    Ret (Some
      {| RtmpOutputSettings.CertificateMode := aws.String certificate_mode;
         RtmpOutputSettings.ConnectionRetryInterval := aws.Int64 (int64 connection_retry_interval);
         RtmpOutputSettings.NumRetries := aws.Int64 (int64 num_retries);
         RtmpOutputSettings.Destination := destination |})
  else Ret (Some RtmpOutputSettings.zero).

(** [expandOutputSettings], lines 242-265. *)
Definition expandOutputSettings (s : list value)
  : go (option OutputSettings.t) :=
  if (0 <? length s)%nat then
    settings ← first_map s;
    hls_output_settings ← get_set settings "hls_output_settings";
    hlsOutputSettings ← expandHlsOutputSettings hls_output_settings;
    rtmp_output_settings ← get_set settings "rtmp_output_settings";
    rtmpOutputSettings ← expandRtmpOutputSettings rtmp_output_settings;
    hls ← deref hlsOutputSettings;
    let attachedHls :=
        if negb (HlsOutputSettings.is_zero hls) then hlsOutputSettings
        else None in
    rtmp ← deref rtmpOutputSettings;
    let attachedRtmp :=
        if negb (RtmpOutputSettings.is_zero rtmp) then rtmpOutputSettings
        else None in
    Ret (Some
      {| OutputSettings.HlsOutputSettings := attachedHls;
         OutputSettings.RtmpOutputSettings := attachedRtmp |})
  else Ret (Some OutputSettings.zero).

(** [expandH264Settings], lines 598-641. *)
Definition expandH264Settings (s : list value) : go (option H264Settings.t) :=
  if (0 <? length s)%nat then
    rawSettings ← first_map s;
    adaptive_quantization ← get_string rawSettings "adaptive_quantization";
    afd_signaling ← get_string rawSettings "afd_signaling";
    bitrate ← get_int rawSettings "bitrate";
    buf_fill_pct ← get_int rawSettings "buf_fill_pct";
    buf_size ← get_int rawSettings "buf_size";
    color_metadata ← get_string rawSettings "color_metadata";
    entropy_encoding ← get_string rawSettings "entropy_encoding";
    flicker_aq ← get_string rawSettings "flicker_aq";
    force_field_pictures ← get_string rawSettings "force_field_pictures";
    gop_b_reference ← get_string rawSettings "gop_b_reference";
    gop_closed_cadence ← get_int rawSettings "gop_closed_cadence";
    gop_num_b_frames ← get_int rawSettings "gop_num_b_frames";
    gop_size ← get_float64 rawSettings "gop_size";
    gop_size_units ← get_string rawSettings "gop_size_units";
    level ← get_string rawSettings "level";
    look_ahead_rate_control ← get_string rawSettings "look_ahead_rate_control";
    num_ref_frames ← get_int rawSettings "num_ref_frames";
    par_control ← get_string rawSettings "par_control";
    quality_level ← get_string rawSettings "quality_level";
    profile ← get_string rawSettings "profile";
    rate_control_mode ← get_string rawSettings "rate_control_mode";
    syntax ← get_string rawSettings "syntax";
    scene_change_detect ← get_string rawSettings "scene_change_detect";
    spatial_aq ← get_string rawSettings "spatial_aq";
    temporal_aq ← get_string rawSettings "temporal_aq";
    timecode_insertion ← get_string rawSettings "timecode_insertion";
    let h264Settings :=
        {| H264Settings.AdaptiveQuantization := aws.String adaptive_quantization;
           H264Settings.AfdSignaling := aws.String afd_signaling;
           H264Settings.Bitrate := aws.Int64 (int64 bitrate);
           H264Settings.BufFillPct := aws.Int64 (int64 buf_fill_pct);
           H264Settings.BufSize := aws.Int64 (int64 buf_size);
           H264Settings.ColorMetadata := aws.String color_metadata;
           H264Settings.EntropyEncoding := aws.String entropy_encoding;
           H264Settings.FlickerAq := aws.String flicker_aq;
           H264Settings.ForceFieldPictures := aws.String force_field_pictures;
           H264Settings.FramerateControl := None;
           H264Settings.FramerateDenominator := None;
           H264Settings.FramerateNumerator := None;
           H264Settings.GopBReference := aws.String gop_b_reference;
           H264Settings.GopClosedCadence := aws.Int64 (int64 gop_closed_cadence);
           H264Settings.GopNumBFrames := aws.Int64 (int64 gop_num_b_frames);
           H264Settings.GopSize := aws.Float64 gop_size;
           H264Settings.GopSizeUnits := aws.String gop_size_units;
           H264Settings.Level := aws.String level;
           H264Settings.LookAheadRateControl := aws.String look_ahead_rate_control;
           H264Settings.NumRefFrames := aws.Int64 (int64 num_ref_frames);
           H264Settings.ParControl := aws.String par_control;
           H264Settings.QualityLevel := aws.String quality_level;
           H264Settings.Profile := aws.String profile;
           H264Settings.RateControlMode := aws.String rate_control_mode;
           H264Settings.Syntax := aws.String syntax;
           H264Settings.SceneChangeDetect := aws.String scene_change_detect;
           H264Settings.SpatialAq := aws.String spatial_aq;
           H264Settings.TemporalAq := aws.String temporal_aq;
           H264Settings.TimecodeInsertion := aws.String timecode_insertion |} in
    framerateControl ← get_string rawSettings "framerate_control";
    let h264Settings :=
        H264Settings.with_FramerateControl (aws.String framerateControl)
          h264Settings in
    if String.eqb framerateControl "SPECIFIED" then
      framerate_denominator ← get_int rawSettings "framerate_denominator";
      let h264Settings :=
          H264Settings.with_FramerateDenominator
            (aws.Int64 (int64 framerate_denominator)) h264Settings in
      framerate_numerator ← get_int rawSettings "framerate_numerator";
      let h264Settings :=
          H264Settings.with_FramerateNumerator
            (aws.Int64 (int64 framerate_numerator)) h264Settings in
      Ret (Some h264Settings)
    else Ret (Some h264Settings)
  else Ret (Some H264Settings.zero).

End channel_structure.

(** ** [aws/media_live_channel_structure.go], second revision
    (lines 737-1212): the function that differs from the first revision in
    what the properties below are about. *)

Module channel_structure_rev2.
Import medialive.

(** [expandH264Settings], lines 1175-1213. *)
Definition expandH264Settings (s : list value) : go (option H264Settings.t) :=
  if (0 <? length s)%nat then
    rawSettings ← first_map s;
    adaptive_quantization ← get_string rawSettings "adaptive_quantization";
    afd_signaling ← get_string rawSettings "afd_signaling";
    bitrate ← get_int rawSettings "bitrate";
    buf_fill_pct ← get_int rawSettings "buf_fill_pct";
    buf_size ← get_int rawSettings "buf_size";
    color_metadata ← get_string rawSettings "color_metadata";
    entropy_encoding ← get_string rawSettings "entropy_encoding";
    flicker_aq ← get_string rawSettings "flicker_aq";
    force_field_pictures ← get_string rawSettings "force_field_pictures";
    framerate_control ← get_string rawSettings "framerate_control";
    framerate_denominator ← get_int rawSettings "framerate_denominator";
    framerate_numerator ← get_int rawSettings "framerate_numerator";
    gop_b_reference ← get_string rawSettings "gop_b_reference";
    gop_closed_cadence ← get_int rawSettings "gop_closed_cadence";
    gop_num_b_frames ← get_int rawSettings "gop_num_b_frames";
    gop_size ← get_float64 rawSettings "gop_size";
    gop_size_units ← get_string rawSettings "gop_size_units";
    level ← get_string rawSettings "level";
    look_ahead_rate_control ← get_string rawSettings "look_ahead_rate_control";
    num_ref_frames ← get_int rawSettings "num_ref_frames";
    par_control ← get_string rawSettings "par_control";
    quality_level ← get_string rawSettings "quality_level";
    profile ← get_string rawSettings "profile";
    rate_control_mode ← get_string rawSettings "rate_control_mode";
    syntax ← get_string rawSettings "syntax";
    scene_change_detect ← get_string rawSettings "scene_change_detect";
    spatial_aq ← get_string rawSettings "spatial_aq";
    temporal_aq ← get_string rawSettings "temporal_aq";
    timecode_insertion ← get_string rawSettings "timecode_insertion";
    Ret (Some
      {| H264Settings.AdaptiveQuantization := aws.String adaptive_quantization;
         H264Settings.AfdSignaling := aws.String afd_signaling;
         H264Settings.Bitrate := aws.Int64 (int64 bitrate);
         H264Settings.BufFillPct := aws.Int64 (int64 buf_fill_pct);
         H264Settings.BufSize := aws.Int64 (int64 buf_size);
         H264Settings.ColorMetadata := aws.String color_metadata;
         H264Settings.EntropyEncoding := aws.String entropy_encoding;
         H264Settings.FlickerAq := aws.String flicker_aq;
         H264Settings.ForceFieldPictures := aws.String force_field_pictures;
         H264Settings.FramerateControl := aws.String framerate_control;
         H264Settings.FramerateDenominator := aws.Int64 (int64 framerate_denominator);
         H264Settings.FramerateNumerator := aws.Int64 (int64 framerate_numerator);
         H264Settings.GopBReference := aws.String gop_b_reference;
         H264Settings.GopClosedCadence := aws.Int64 (int64 gop_closed_cadence);
         H264Settings.GopNumBFrames := aws.Int64 (int64 gop_num_b_frames);
         H264Settings.GopSize := aws.Float64 gop_size;
         H264Settings.GopSizeUnits := aws.String gop_size_units;
         H264Settings.Level := aws.String level;
         H264Settings.LookAheadRateControl := aws.String look_ahead_rate_control;
         H264Settings.NumRefFrames := aws.Int64 (int64 num_ref_frames);
         H264Settings.ParControl := aws.String par_control;
         H264Settings.QualityLevel := aws.String quality_level;
         H264Settings.Profile := aws.String profile;
         H264Settings.RateControlMode := aws.String rate_control_mode;
         H264Settings.Syntax := aws.String syntax;
         H264Settings.SceneChangeDetect := aws.String scene_change_detect;
         H264Settings.SpatialAq := aws.String spatial_aq;
         H264Settings.TemporalAq := aws.String temporal_aq;
         H264Settings.TimecodeInsertion := aws.String timecode_insertion |})
  else Ret (Some H264Settings.zero).

End channel_structure_rev2.

(** ** Errors

    A Go [error] is nil ([None]) or an error value: an [awserr.Error] of the
    AWS SDK, with its code and message, or a plain error with its text
    ([fmt.Errorf] and the errors of the plugin SDK). *)

Inductive error : Type :=
| AwsError (code message : string)
| Errorf (text : string).

(** [err.Error()], which is how [fmt.Errorf] prints an error at [%s]. *)
Definition error_text (e : error) : string :=
  match e with
  | AwsError code message => code ++ ": " ++ message
  | Errorf text => text
  end.

(** ** [net/url]: the fields of [url.URL] *)

Module url.
Record URL : Type := mkURL {
  Scheme : string;
  Opaque : string;
  Host : string;
  Path : string;
  RawQuery : string;
  Fragment : string
}.
End url.

(** [s[lo:hi]] on a string panics unless [lo <= hi <= len(s)]. *)
Definition string_slice (s : string) (lo hi : nat) : go string :=
  if (lo <=? hi)%nat && (hi <=? String.length s)%nat
  then Ret (substring lo (hi - lo) s)
  else Panic SliceBounds.

(** ** [helper/schema]: the resource data of the plugin SDK

    A [ResourceData] holds the resource id and the attributes that are set,
    under a schema that gives each top-level attribute its type. *)

Module schema.

Inductive ValueType : Type :=
| TypeBool | TypeInt | TypeFloat | TypeString | TypeList | TypeMap | TypeSet.

Record ResourceData : Type := mkResourceData {
  fields : gmap string ValueType;
  id : string;
  attrs : gmap string value
}.

(** The zero value of a type, which [Get] returns for an attribute of the
    schema that is not set. *)
Definition Zero (t : ValueType) : value :=
  match t with
  | TypeBool => VBool false
  | TypeInt => VInt 0
  | TypeFloat => VFloat (S754_zero false)
  | TypeString => VString EmptyString
  | TypeList => VList []
  | TypeMap => VMap ∅
  | TypeSet => VSet []
  end.

Definition is_zero (v : value) : bool :=
  match v with
  | VBool b => negb b
  | VInt n => (n =? 0)%Z
  | VFloat f => match f with S754_zero _ => true | _ => false end
  | VString s => String.eqb s EmptyString
  | VList l => (length l =? 0)%nat
  | VSet l => (length l =? 0)%nat
  | VMap m => (size m =? 0)%nat
  end.

(** Whether a value can be written to an attribute of type [t]. The writer
    of the SDK also checks the elements of a list, set or map against the
    schema of the elements; the outer type is what decides for the values
    the provider writes. *)
Definition accepts (t : ValueType) (v : value) : bool :=
  match t, v with
  | TypeBool, VBool _ | TypeInt, VInt _ | TypeFloat, VFloat _
  | TypeString, VString _ | TypeList, VList _ | TypeMap, VMap _
  | TypeSet, VSet _ | TypeSet, VList _ => true
  | _, _ => false
  end.

(** [d.Get(key)]: nil for a key outside the schema. *)
Definition Get (d : ResourceData) (key : string) : option value :=
  match fields d !! key with
  | Some t => Some (default (Zero t) (attrs d !! key))
  | None => None
  end.

(** [d.GetOk(key)]: the value, and whether it is set to a non-zero value. *)
Definition GetOk (d : ResourceData) (key : string) : option value * bool :=
  match fields d !! key, attrs d !! key with
  | Some t, Some v => (Some v, negb (is_zero v))
  | Some t, None => (Some (Zero t), false)
  | None, _ => (None, false)
  end.

(** [d.Set(key, v)]: an error, and no change, for a key outside the schema
    or a value of another type. *)
Definition Set_ (d : ResourceData) (key : string) (v : value)
  : option error * ResourceData :=
  match fields d !! key with
  | Some t =>
      if accepts t v
      then (None, mkResourceData (fields d) (id d) (<[key := v]> (attrs d)))
      else (Some (Errorf (key ++ ": unexpected type")), d)
  | None => (Some (Errorf ("Invalid address to set: " ++ key)), d)
  end.

Definition SetId (d : ResourceData) (v : string) : ResourceData :=
  mkResourceData (fields d) v (attrs d).

Definition Id (d : ResourceData) : string := id d.

(** [d.Timeout(schema.TimeoutCreate)], in nanoseconds: the resources declare
    no timeouts, so it is the default of the SDK, twenty minutes. *)
Definition Timeout (d : ResourceData) : Z := 20 * 60 * 1000000000.

End schema.

(** [time.Second] and [time.Minute], in nanoseconds. *)
Module time.
Definition Second : Z := 1000000000.
Definition Minute : Z := 60 * Second.
End time.

(** ** [helper/resource]: the configuration of a waiter

    [Refresh] reports whether the object was found (a non-nil result), its
    state and an error. The waiter itself, [WaitForState], belongs to the
    plugin SDK: the operations below take it as a parameter. *)

Module resource.

Record RefreshResult : Type := mkRefreshResult {
  found : bool;
  state : string;
  err : option error
}.

Record StateChangeConf (World : Type) : Type := mkStateChangeConf {
  Pending : list string;
  Target : list string;
  Refresh : op World RefreshResult;
  Timeout : Z;
  Delay : Z;
  MinTimeout : Z;
  NotFoundChecks : Z;
  ContinuousTargetOccurence : Z
}.
Arguments mkStateChangeConf {World}.
Arguments Pending {World}.
Arguments Target {World}.
Arguments Refresh {World}.
Arguments Timeout {World}.
Arguments Delay {World}.
Arguments MinTimeout {World}.
Arguments NotFoundChecks {World}.
Arguments ContinuousTargetOccurence {World}.

End resource.

(** ** The service clients

    An API call is a function of the request and of the state of the
    service, the [World]; it returns the response and the error of the Go
    call, and the new state of the service. *)

Module client.

Definition call (World Request Response : Type) : Type :=
  Request -> World -> (option Response * option error) * World.

Record MediaLive (World : Type) : Type := mkMediaLive {
  CreateInput :
    call World medialive.CreateInputInput.t medialive.CreateInputOutput.t;
  DescribeInput :
    call World medialive.DescribeInputInput.t medialive.DescribeInputOutput.t;
  DeleteInput : call World medialive.DeleteInputInput.t unit;
  DescribeChannel :
    call World medialive.DescribeChannelInput.t
      medialive.DescribeChannelOutput.t;
  DeleteChannel : call World medialive.DeleteChannelInput.t unit
}.
Arguments CreateInput {World}.
Arguments DescribeInput {World}.
Arguments DeleteInput {World}.
Arguments DescribeChannel {World}.
Arguments DeleteChannel {World}.

Record MediaPackage (World : Type) : Type := mkMediaPackage {
  DeleteOriginEndpoint :
    call World mediapackage.DeleteOriginEndpointInput.t unit
}.
Arguments DeleteOriginEndpoint {World}.

End client.

(** ** The state of a resource operation: the resource data and the service *)

Section operations.
Context {World : Type}.

Definition St : Type := schema.ResourceData * World.

Definition d_Get (key : string) : op St (option value) :=
  fun s => Ret (schema.Get (fst s) key, s).
Definition d_GetOk (key : string) : op St (option value * bool) :=
  fun s => Ret (schema.GetOk (fst s) key, s).
Definition d_Set (key : string) (v : value) : op St (option error) :=
  fun s => let '(e, d) := schema.Set_ (fst s) key v in Ret (e, (d, snd s)).
Definition d_SetId (v : string) : op St unit :=
  fun s => Ret (tt, (schema.SetId (fst s) v, snd s)).
Definition d_Id : op St string :=
  fun s => Ret (schema.Id (fst s), s).
Definition d_Timeout : op St Z :=
  fun s => Ret (schema.Timeout (fst s), s).

(** A call to the service. *)
Definition api {A} (f : World -> A * World) : op St A :=
  fun s => let '(a, w) := f (snd s) in Ret (a, (fst s, w)).

(** A function that works on the service only, such as a waiter. *)
Definition on_world {A} (f : op World A) : op St A :=
  fun s =>
    match f (snd s) with
    | Ret (a, w) => Ret (a, (fst s, w))
    | Panic p => Panic p
    end.

End operations.

(** ** [aws/resource_aws_media_live_input.go], first revision (lines 1-269)

    The helpers of the provider and of the SDKs that are not in the sources
    at hand are parameters: [isAWSErr] (of the provider's [awserr.go]), and
    the tag conversions of the provider's [keyvaluetags] package,
    [MedialiveTags] for [keyvaluetags.New(v).IgnoreAws().MedialiveTags()]
    and [TagsMap] for
    [keyvaluetags.MedialiveKeyValueTags(tags).IgnoreAws().Map()]. [conn] is
    the [medialiveconn] field of the client in [meta]. *)

Module input_rev1.
Import medialive.

(** The schema of [resourceAwsMediaLiveInput], lines 24-86. *)
Definition Schema : gmap string schema.ValueType :=
  {[ "arn" := schema.TypeString;
     "destinations" := schema.TypeList;
     "input_type" := schema.TypeString;
     "name" := schema.TypeString;
     "role_arn" := schema.TypeString;
     "request_id" := schema.TypeString;
     "input_security_groups" := schema.TypeList;
     "tags" := schema.TypeMap ]}.

(** [expandDestinations], lines 255-269. *)
Definition expandDestinations (destinations : list value)
  : go (list InputDestinationRequest.t) :=
  if (length destinations =? 0)%nat then Ret []
  else
    for_range
      (fun destination =>
         r ← assert_map (Some destination);
         stream_name ← get_string r "stream_name";
         Ret {| InputDestinationRequest.StreamName := aws.String stream_name |})
      destinations.

Section with_client.
Context {World : Type}.
Variable isAWSErr : option error -> string -> string -> bool.
Variable WaitForState :
  resource.StateChangeConf World -> op World (option error).
Variable MedialiveTags : gmap string value -> go (gmap string (option string)).
Variable TagsMap : gmap string (option string) -> gmap string string.
Variable conn : client.MediaLive World.

(** [resourceAwsMediaLiveInputRead], lines 128-152. *)
Definition resourceAwsMediaLiveInputRead : op (@St World) (option error) :=
  id ← d_Id;
  '(resp, err) ← api (client.DescribeInput conn
                        {| DescribeInputInput.InputId := aws.String id |});
  match err with
  | Some e =>
      if isAWSErr err ErrCodeNotFoundException ""
      then d_SetId "";; mret None
      else
        id ← d_Id;
        mret (Some (Errorf ("Error describing MediaLive Input(" ++ id ++ "): "
                              ++ error_text e)))
  | None =>
      resp ← lift (deref resp);
      d_Set "arn" (VString (aws.StringValue (DescribeInputOutput.Arn resp)));;
      err ← d_Set "tags"
              (VMap (VString <$> TagsMap (DescribeInputOutput.Tags resp)));
      match err with
      | Some e => mret (Some (Errorf ("error setting tags: " ++ error_text e)))
      | None => mret None
      end
  end.

(** The request that [resourceAwsMediaLiveInputCreate] builds, lines 93-116,
    as it stands when [conn.CreateInput] is called. The slice
    [inputSecurityGroups] of lines 106-112 is filled and then not used. *)
Definition resourceAwsMediaLiveInputCreate_input
  : op (@St World) CreateInputInput.t :=
  input_type ← d_Get "input_type";
  input_type ← lift (assert_string input_type);
  name ← d_Get "name";
  name ← lift (assert_string name);
  request_id ← d_Get "request_id";
  request_id ← lift (assert_string request_id);
  role_arn ← d_Get "role_arn";
  role_arn ← lift (assert_string role_arn);
  '(v, ok) ← d_GetOk "destinations";
  destinations ←
    (if (ok : bool) then
       l ← lift (assert_list v);
       if (0 <? length l)%nat then
         l ← lift (assert_list v);
         lift (expandDestinations l)
       else mret []
     else mret []);
  '(raw, ok) ← d_GetOk "input_security_groups";
  _ ← (if (ok : bool) then
     l ← lift (assert_list raw);
     inputSecurityGroups ←
       lift (for_range
               (fun groupId =>
                  groupId ← assert_string (Some groupId);
                  Ret (aws.String groupId))
               l);
     mret tt
   else mret tt : op (@St World) unit);
  tags ← d_Get "tags";
  v ← lift (assert_map tags);
  tags ← (if (0 <? size v)%nat then lift (MedialiveTags v) else mret ∅);
  mret {| CreateInputInput.Destinations := destinations;
          CreateInputInput.InputSecurityGroups := [];
          CreateInputInput.Name := aws.String name;
          CreateInputInput.RequestId := aws.String request_id;
          CreateInputInput.RoleArn := aws.String role_arn;
          CreateInputInput.Tags := tags;
          CreateInputInput.Type_ := aws.String input_type |}.

(** [resourceAwsMediaLiveInputCreate], lines 90-126. *)
Definition resourceAwsMediaLiveInputCreate : op (@St World) (option error) :=
  input ← resourceAwsMediaLiveInputCreate_input;
  '(resp, err) ← api (client.CreateInput conn input);
  match err with
  | Some e =>
      mret (Some (Errorf ("Error creating MediaLive Input: " ++ error_text e)))
  | None =>
      resp ← lift (deref resp);
      created ← lift (deref (CreateInputOutput.Input resp));
      d_SetId (aws.StringValue (Input.Id created));;
      resourceAwsMediaLiveInputRead
  end.

(** [mediaLiveInputRefreshFunc], lines 209-229. *)
Definition mediaLiveInputRefreshFunc (inputId : string)
  : op World resource.RefreshResult :=
  fun w =>
    let '((input, err), w) :=
      client.DescribeInput conn
        {| DescribeInputInput.InputId := aws.String inputId |} w in
    if isAWSErr err ErrCodeNotFoundException "" then
      Ret (resource.mkRefreshResult false InputStateDeleted None, w)
    else
      match err with
      | Some e =>
          Ret (resource.mkRefreshResult false ""
                 (Some (Errorf ("error reading MediaLive Input(" ++ inputId
                                  ++ "): " ++ error_text e))), w)
      | None =>
          match input with
          | None => Ret (resource.mkRefreshResult false InputStateDeleted None, w)
          | Some input =>
              Ret (resource.mkRefreshResult true
                     (aws.StringValue (DescribeInputOutput.State input)) None,
                   w)
          end
      end.

(** The [stateConf] of [waitForMediaLiveInputDeletion], lines 232-243. *)
Definition waitForMediaLiveInputDeletion_stateConf (inputId : string)
  : resource.StateChangeConf World :=
  {| resource.Pending :=
       [InputStateDetached; InputStateAttached; InputStateDeleting;
        InputStateDeleted];
     resource.Target := [InputStateDeleted];
     resource.Refresh := mediaLiveInputRefreshFunc inputId;
     resource.Timeout := 30 * time.Minute;
     resource.Delay := 0;
     resource.MinTimeout := 0;
     resource.NotFoundChecks := 1;
     resource.ContinuousTargetOccurence := 0 |}.

(** [waitForMediaLiveInputDeletion], lines 231-253. *)
Definition waitForMediaLiveInputDeletion (inputId : string)
  : op World (option error) :=
  err ← WaitForState (waitForMediaLiveInputDeletion_stateConf inputId);
  if isAWSErr err ErrCodeNotFoundException "" then mret None
  else mret err.

(** [resourceAwsMediaLiveInputDelete], lines 188-207. *)
Definition resourceAwsMediaLiveInputDelete : op (@St World) (option error) :=
  id ← d_Id;
  '(_, err) ← api (client.DeleteInput conn
                     {| DeleteInputInput.InputId := aws.String id |});
  match err with
  | Some e =>
      if isAWSErr err ErrCodeNotFoundException "" then mret None
      else
        id ← d_Id;
        mret (Some (Errorf ("Error deleting MediaLive Input(" ++ id ++ "): "
                              ++ error_text e)))
  | None =>
      id ← d_Id;
      err ← on_world (waitForMediaLiveInputDeletion id);
      match err with
      | Some e =>
          id ← d_Id;
          mret (Some (Errorf ("Error waiting for deleting MediaLive Input("
                                ++ id ++ "): " ++ error_text e)))
      | None => mret None
      end
  end.

End with_client.
End input_rev1.

(** ** [aws/resource_aws_media_live_input.go], second revision
    (lines 270-609)

    Besides the parameters of the first revision, [url_Parse] is [url.Parse]
    of the Go standard library and [uuid_NewRandom] is
    [uuid.Must(uuid.NewRandom()).String()]. *)

Module input_rev2.
Import medialive.

(** The schema of [resourceAwsMediaLiveInput], lines 295-358. *)
Definition Schema : gmap string schema.ValueType :=
  {[ "arn" := schema.TypeString;
     "destinations" := schema.TypeList;
     "input_type" := schema.TypeString;
     "name" := schema.TypeString;
     "role_arn" := schema.TypeString;
     "input_security_groups" := schema.TypeList;
     "input_class" := schema.TypeInt;
     "tags" := schema.TypeMap ]}.

(** [expandInputDestinations], lines 577-591. *)
Definition expandInputDestinations (destinations : list value)
  : go (list InputDestinationRequest.t) :=
  if (length destinations =? 0)%nat then Ret []
  else
    for_range
      (fun destination =>
         r ← assert_map (Some destination);
         stream_name ← get_string r "stream_name";
         Ret {| InputDestinationRequest.StreamName := aws.String stream_name |})
      destinations.

(** [convertInputSecurityGroups], lines 593-600. *)
Definition convertInputSecurityGroups (raw : option value)
  : go (list (option string)) :=
  l ← assert_list raw;
  for_range
    (fun groupId =>
       groupId ← assert_string (Some groupId);
       Ret (aws.String groupId))
    l.

Section with_url.
Variable url_Parse : string -> url.URL + error.

(** [obtainStreamName], lines 602-609. *)
Definition obtainStreamName (streamUrl : option string) : go string :=
  streamUrl ← deref streamUrl;
  match url_Parse streamUrl with
  | inr _ => Ret EmptyString
  | inl resp => string_slice (url.Path resp) 1 (String.length (url.Path resp))
  end.

(** [flattenInputDestinations], lines 563-575. *)
Definition flattenInputDestinations
  (inputDestinations : list (option InputDestination.t))
  : go (list (gmap string value)) :=
  for_range
    (fun destination =>
       destination ← deref destination;
       let url := aws.StringValue (InputDestination.Url destination) in
       let port := aws.StringValue (InputDestination.Ip destination) in
       let ip := aws.StringValue (InputDestination.Port destination) in
       stream_name ← obtainStreamName (InputDestination.Url destination);
       Ret ({[ "url" := VString url;
               "port" := VString port;
               "ip" := VString ip;
               "stream_name" := VString stream_name ]} : gmap string value))
    inputDestinations.

End with_url.

Section with_client.
Context {World : Type}.
Variable isAWSErr : option error -> string -> string -> bool.
Variable WaitForState :
  resource.StateChangeConf World -> op World (option error).
Variable MedialiveTags : gmap string value -> go (gmap string (option string)).
Variable TagsMap : gmap string (option string) -> gmap string string.
Variable url_Parse : string -> url.URL + error.
Variable uuid_NewRandom : op World string.
Variable conn : client.MediaLive World.

(** [resourceAwsMediaLiveInputRead], lines 419-450. The errors of the four
    [d.Set] calls of lines 440-443 are not looked at. *)
Definition resourceAwsMediaLiveInputRead : op (@St World) (option error) :=
  id ← d_Id;
  '(resp, err) ← api (client.DescribeInput conn
                        {| DescribeInputInput.InputId := aws.String id |});
  match err with
  | Some e =>
      if isAWSErr err ErrCodeNotFoundException ""
      then d_SetId "";; mret None
      else
        id ← d_Id;
        mret (Some (Errorf ("Error describing MediaLive Input(" ++ id ++ "): "
                              ++ error_text e)))
  | None =>
      resp ← lift (deref resp);
      destinations ←
        lift (flattenInputDestinations url_Parse
                (DescribeInputOutput.Destinations resp));
      err ← d_Set "destinations" (VList (VMap <$> destinations));
      match err with
      | Some e =>
          mret (Some (Errorf ("error setting destinations: " ++ error_text e)))
      | None =>
          d_Set "arn" (VString (aws.StringValue (DescribeInputOutput.Arn resp)));;
          d_Set "type"
            (VString (aws.StringValue (DescribeInputOutput.Type_ resp)));;
          d_Set "name"
            (VString (aws.StringValue (DescribeInputOutput.Name resp)));;
          d_Set "input_class"
            (VString (aws.StringValue (DescribeInputOutput.InputClass resp)));;
          err ← d_Set "tags"
                  (VMap (VString <$> TagsMap (DescribeInputOutput.Tags resp)));
          match err with
          | Some e =>
              mret (Some (Errorf ("error setting tags: " ++ error_text e)))
          | None => mret None
          end
      end
  end.

(** The request that [resourceAwsMediaLiveInputCreate] builds, lines 365-383,
    as it stands when [conn.CreateInput] is called. *)
Definition resourceAwsMediaLiveInputCreate_input
  : op (@St World) CreateInputInput.t :=
  input_type ← d_Get "input_type";
  input_type ← lift (assert_string input_type);
  name ← d_Get "name";
  name ← lift (assert_string name);
  request_id ← on_world uuid_NewRandom;
  '(v, ok) ← d_GetOk "destinations";
  destinations ←
    (if (ok : bool) then
       l ← lift (assert_list v);
       if (0 <? length l)%nat then
         l ← lift (assert_list v);
         lift (expandInputDestinations l)
       else mret []
     else mret []);
  '(raw, ok) ← d_GetOk "input_security_groups";
  inputSecurityGroups ←
    (if (ok : bool) then lift (convertInputSecurityGroups raw) else mret []);
  tags ← d_Get "tags";
  v ← lift (assert_map tags);
  tags ← (if (0 <? size v)%nat then lift (MedialiveTags v) else mret ∅);
  mret {| CreateInputInput.Destinations := destinations;
          CreateInputInput.InputSecurityGroups := inputSecurityGroups;
          CreateInputInput.Name := aws.String name;
          CreateInputInput.RequestId := aws.String request_id;
          CreateInputInput.RoleArn := None;
          CreateInputInput.Tags := tags;
          CreateInputInput.Type_ := aws.String input_type |}.

(** The [createStateConf] of [resourceAwsMediaLiveInputCreate],
    lines 392-409. [inputId] is [d.Id()] and [timeout] is
    [d.Timeout(schema.TimeoutCreate)]; the resource data does not change
    while the waiter runs. *)
Definition resourceAwsMediaLiveInputCreate_createStateConf
  (inputId : string) (timeout : Z) : resource.StateChangeConf World :=
  {| resource.Pending := ["CREATING"];
     resource.Target := ["DETACHED"; "ATTACHED"];
     resource.Refresh :=
       (fun w =>
          let '((resp, err), w) :=
            client.DescribeInput conn
              {| DescribeInputInput.InputId := aws.String inputId |} w in
          match err with
          | Some e => Ret (resource.mkRefreshResult true "" (Some e), w)
          | None =>
              resp ← deref resp;
              Ret (resource.mkRefreshResult true
                     (aws.StringValue (DescribeInputOutput.State resp)) None,
                   w)
          end);
     resource.Timeout := timeout;
     resource.Delay := 10 * time.Second;
     resource.MinTimeout := 5 * time.Second;
     resource.NotFoundChecks := 0;
     resource.ContinuousTargetOccurence := 5 |}.

(** [resourceAwsMediaLiveInputCreate], lines 362-417. *)
Definition resourceAwsMediaLiveInputCreate : op (@St World) (option error) :=
  input ← resourceAwsMediaLiveInputCreate_input;
  '(resp, err) ← api (client.CreateInput conn input);
  match err with
  | Some e =>
      mret (Some (Errorf ("Error creating MediaLive Input: " ++ error_text e)))
  | None =>
      resp ← lift (deref resp);
      created ← lift (deref (CreateInputOutput.Input resp));
      d_SetId (aws.StringValue (Input.Id created));;
      id ← d_Id;
      timeout ← d_Timeout;
      err ← on_world
              (WaitForState
                 (resourceAwsMediaLiveInputCreate_createStateConf id timeout));
      match err with
      | Some e =>
          id ← d_Id;
          mret (Some (Errorf ("Error waiting MediaLive Input (" ++ id
                                ++ ") to be created: " ++ error_text e)))
      | None => resourceAwsMediaLiveInputRead
      end
  end.

(** [mediaLiveInputRefreshFunc], lines 518-538. *)
Definition mediaLiveInputRefreshFunc (inputId : string)
  : op World resource.RefreshResult :=
  fun w =>
    let '((input, err), w) :=
      client.DescribeInput conn
        {| DescribeInputInput.InputId := aws.String inputId |} w in
    if isAWSErr err ErrCodeNotFoundException "" then
      Ret (resource.mkRefreshResult false InputStateDeleted None, w)
    else
      match err with
      | Some e =>
          Ret (resource.mkRefreshResult false ""
                 (Some (Errorf ("error reading MediaLive Input(" ++ inputId
                                  ++ "): " ++ error_text e))), w)
      | None =>
          match input with
          | None => Ret (resource.mkRefreshResult false InputStateDeleted None, w)
          | Some input =>
              Ret (resource.mkRefreshResult true
                     (aws.StringValue (DescribeInputOutput.State input)) None,
                   w)
          end
      end.

(** The [stateConf] of [waitForMediaLiveInputDeletion], lines 541-551. *)
Definition waitForMediaLiveInputDeletion_stateConf (inputId : string)
  : resource.StateChangeConf World :=
  {| resource.Pending :=
       [InputStateDetached; InputStateAttached; InputStateDeleting];
     resource.Target := [InputStateDeleted];
     resource.Refresh := mediaLiveInputRefreshFunc inputId;
     resource.Timeout := 30 * time.Minute;
     resource.Delay := 0;
     resource.MinTimeout := 0;
     resource.NotFoundChecks := 1;
     resource.ContinuousTargetOccurence := 0 |}.

(** [waitForMediaLiveInputDeletion], lines 540-561. *)
Definition waitForMediaLiveInputDeletion (inputId : string)
  : op World (option error) :=
  err ← WaitForState (waitForMediaLiveInputDeletion_stateConf inputId);
  if isAWSErr err ErrCodeNotFoundException "" then mret None
  else mret err.

(** [resourceAwsMediaLiveInputDelete], lines 497-516. *)
Definition resourceAwsMediaLiveInputDelete : op (@St World) (option error) :=
  id ← d_Id;
  '(_, err) ← api (client.DeleteInput conn
                     {| DeleteInputInput.InputId := aws.String id |});
  match err with
  | Some e =>
      if isAWSErr err ErrCodeNotFoundException "" then mret None
      else
        id ← d_Id;
        mret (Some (Errorf ("Error deleting MediaLive Input(" ++ id ++ "): "
                              ++ error_text e)))
  | None =>
      id ← d_Id;
      err ← on_world (waitForMediaLiveInputDeletion id);
      match err with
      | Some e =>
          id ← d_Id;
          mret (Some (Errorf ("Error waiting for deleting MediaLive Input("
                                ++ id ++ "): " ++ error_text e)))
      | None => mret None
      end
  end.

End with_client.
End input_rev2.

(** ** [aws/resource_aws_media_live_channel.go]: deletion and the waiters *)

Module channel.
Import medialive.

Section with_client.
Context {World : Type}.
Variable isAWSErr : option error -> string -> string -> bool.
Variable WaitForState :
  resource.StateChangeConf World -> op World (option error).
Variable conn : client.MediaLive World.

(** The [Refresh] function of the waiters of
    [resourceAwsMediaLiveChannelCreate] and
    [resourceAwsMediaLiveChannelUpdate], lines 1409-1418 and 1502-1511. *)
Definition describeChannelRefresh (channelId : string)
  : op World resource.RefreshResult :=
  fun w =>
    let '((resp, err), w) :=
      client.DescribeChannel conn
        {| DescribeChannelInput.ChannelId := aws.String channelId |} w in
    match err with
    | Some e => Ret (resource.mkRefreshResult true "" (Some e), w)
    | None =>
        resp ← deref resp;
        Ret (resource.mkRefreshResult true
               (aws.StringValue (DescribeChannelOutput.State resp)) None, w)
    end.

(** The [createStateConf] of [resourceAwsMediaLiveChannelCreate],
    lines 1406-1423. *)
Definition resourceAwsMediaLiveChannelCreate_createStateConf
  (channelId : string) (timeout : Z) : resource.StateChangeConf World :=
  {| resource.Pending := ["CREATING"];
     resource.Target := ["IDLE"];
     resource.Refresh := describeChannelRefresh channelId;
     resource.Timeout := timeout;
     resource.Delay := 10 * time.Second;
     resource.MinTimeout := 5 * time.Second;
     resource.NotFoundChecks := 0;
     resource.ContinuousTargetOccurence := 5 |}.

(** The [updateStateConf] of [resourceAwsMediaLiveChannelUpdate],
    lines 1499-1516. *)
Definition resourceAwsMediaLiveChannelUpdate_updateStateConf
  (channelId : string) (timeout : Z) : resource.StateChangeConf World :=
  {| resource.Pending := ["UPDATING"];
     resource.Target := ["IDLE"];
     resource.Refresh := describeChannelRefresh channelId;
     resource.Timeout := timeout;
     resource.Delay := 10 * time.Second;
     resource.MinTimeout := 5 * time.Second;
     resource.NotFoundChecks := 0;
     resource.ContinuousTargetOccurence := 5 |}.

(** [mediaLiveChannelRefreshFunc], lines 1547-1567. *)
Definition mediaLiveChannelRefreshFunc (channelId : string)
  : op World resource.RefreshResult :=
  fun w =>
    let '((channel, err), w) :=
      client.DescribeChannel conn
        {| DescribeChannelInput.ChannelId := aws.String channelId |} w in
    if isAWSErr err ErrCodeNotFoundException "" then
      Ret (resource.mkRefreshResult false ChannelStateDeleted None, w)
    else
      match err with
      | Some e =>
          Ret (resource.mkRefreshResult false ""
                 (Some (Errorf ("error reading MediaLive Input(" ++ channelId
                                  ++ "): " ++ error_text e))), w)
      | None =>
          match channel with
          | None =>
              Ret (resource.mkRefreshResult false ChannelStateDeleted None, w)
          | Some channel =>
              Ret (resource.mkRefreshResult true
                     (aws.StringValue (DescribeChannelOutput.State channel))
                     None, w)
          end
      end.

(** The [stateConf] of [waitForMediaLiveChannelDeletion],
    lines 1570-1576. *)
Definition waitForMediaLiveChannelDeletion_stateConf (channelId : string)
  : resource.StateChangeConf World :=
  {| resource.Pending := [ChannelStateDeleting];
     resource.Target := [ChannelStateDeleted];
     resource.Refresh := mediaLiveChannelRefreshFunc channelId;
     resource.Timeout := 30 * time.Minute;
     resource.Delay := 0;
     resource.MinTimeout := 0;
     resource.NotFoundChecks := 1;
     resource.ContinuousTargetOccurence := 0 |}.

(** [waitForMediaLiveChannelDeletion], lines 1569-1586. *)
Definition waitForMediaLiveChannelDeletion (channelId : string)
  : op World (option error) :=
  err ← WaitForState (waitForMediaLiveChannelDeletion_stateConf channelId);
  if isAWSErr err ErrCodeNotFoundException "" then mret None
  else mret err.

(** [resourceAwsMediaLiveChannelDelete], lines 1526-1545. *)
Definition resourceAwsMediaLiveChannelDelete : op (@St World) (option error) :=
  id ← d_Id;
  '(_, err) ← api (client.DeleteChannel conn
                     {| DeleteChannelInput.ChannelId := aws.String id |});
  match err with
  | Some e =>
      if isAWSErr err ErrCodeNotFoundException "" then mret None
      else
        id ← d_Id;
        mret (Some (Errorf ("Error deleting MediaLive Channel(" ++ id ++ "): "
                              ++ error_text e)))
  | None =>
      id ← d_Id;
      err ← on_world (waitForMediaLiveChannelDeletion id);
      match err with
      | Some e =>
          id ← d_Id;
          mret (Some (Errorf ("Error waiting for deleting MediaLive Channel("
                                ++ id ++ "): " ++ error_text e)))
      | None => mret None
      end
  end.

End with_client.
End channel.

(** ** The MediaPackage origin endpoint resource
    ([src/unnamed/part_002], lines 1-341) *)

Module origin_endpoint.

Section with_client.
Context {World : Type}.
Variable isAWSErr : option error -> string -> string -> bool.
Variable conn : client.MediaPackage World.

(** [resourceAwsMediaPackageOriginEndpointDelete], lines 270-286. *)
Definition resourceAwsMediaPackageOriginEndpointDelete
  : op (@St World) (option error) :=
  id ← d_Id;
  '(_, err) ← api (client.DeleteOriginEndpoint conn
                     {| mediapackage.DeleteOriginEndpointInput.Id :=
                          aws.String id |});
  match err with
  | Some e =>
      if isAWSErr err mediapackage.ErrCodeNotFoundException "" then mret None
      else
        id ← d_Id;
        mret (Some (Errorf ("Error deleting MediaPackage Origin Endpoint("
                              ++ id ++ "): " ++ error_text e)))
  | None => mret None
  end.

End with_client.
End origin_endpoint.

(** ** Concrete inputs

    The configurations and service behaviours that the properties below
    are evaluated at. *)

Module examples.
Import medialive.

(** An ["h264_settings"] block that leaves the frame rate to the source;
    Terraform fills the attributes that are not configured with the zero
    value of their type. *)
Definition h264_from_source : gmap string value :=
  list_to_map
    [("adaptive_quantization", VString "");
     ("afd_signaling", VString "");
     ("bitrate", VInt 5000000);
     ("buf_fill_pct", VInt 0);
     ("buf_size", VInt 0);
     ("color_metadata", VString "");
     ("entropy_encoding", VString "");
     ("flicker_aq", VString "");
     ("force_field_pictures", VString "");
     ("gop_b_reference", VString "");
     ("gop_closed_cadence", VInt 0);
     ("gop_num_b_frames", VInt 0);
     ("gop_size", VFloat (S754_zero false));
     ("gop_size_units", VString "");
     ("level", VString "H264_LEVEL_AUTO");
     ("look_ahead_rate_control", VString "");
     ("num_ref_frames", VInt 0);
     ("par_control", VString "");
     ("quality_level", VString "");
     ("profile", VString "HIGH");
     ("rate_control_mode", VString "CBR");
     ("syntax", VString "");
     ("scene_change_detect", VString "");
     ("spatial_aq", VString "");
     ("temporal_aq", VString "");
     ("timecode_insertion", VString "");
     ("framerate_control", VString "INITIALIZE_FROM_SOURCE");
     ("framerate_denominator", VInt 0);
     ("framerate_numerator", VInt 0)].

(** The same block with a specified frame rate of 30000/1001. *)
Definition h264_specified : gmap string value :=
  <["framerate_control" := VString "SPECIFIED"]>
    (<["framerate_numerator" := VInt 30000]>
       (<["framerate_denominator" := VInt 1001]> h264_from_source)).

(** An ["hls_group_settings"] block. *)
Definition hls_group : gmap string value :=
  list_to_map
    [("caption_language_setting", VString "");
     ("caption_language_mapping", VList []);
     ("codec_specification", VString "");
     ("client_cache", VString "");
     ("hls_cdn_settings", VSet []);
     ("hls_id3_segment_tagging", VString "");
     ("index_n_segments", VInt 10);
     ("input_loss_action", VString "");
     ("iv_in_manifest", VString "");
     ("iv_source", VString "");
     ("iframe_only_playlists", VString "");
     ("keep_segments", VInt 21);
     ("manifest_compression", VString "");
     ("manifest_duration_format", VString "");
     ("mode", VString "LIVE");
     ("output_selection", VString "");
     ("program_date_time", VString "");
     ("program_date_time_period", VInt 0);
     ("redundant_manifest", VString "");
     ("segmentation_mode", VString "");
     ("segment_length", VInt 6);
     ("destination", VSet [VMap {[ "destination_ref_id" := VString "destination1" ]}]);
     ("directory_structure", VString "");
     ("segments_per_subdirectory", VInt 0);
     ("stream_inf_resolution", VString "");
     ("timed_metadata_id3_frame", VString "");
     ("timed_metadata_id3_period", VInt 0);
     ("timestamp_delta_milliseconds", VInt 0);
     ("ts_file_mode", VString "")].

(** An ["output_group_settings"] set with an HLS group and no RTMP group. *)
Definition output_group_settings : list value :=
  [VMap {[ "hls_group_settings" := VSet [VMap hls_group];
           "rtmp_group_settings" := VSet [] ]}].

(** An ["output_settings"] set with HLS output settings and no RTMP ones. *)
Definition output_settings : list value :=
  [VMap {[ "hls_output_settings" :=
             VSet [VMap {[ "hls_settings" := VSet [];
                           "name_modifier" := VString "_720p";
                           "h_265_packaging_type" := VString "";
                           "segment_modifier" := VString "" ]}];
           "rtmp_output_settings" := VSet [] ]}].

(** A channel ["destinations"] list with one destination of two settings. *)
Definition channel_destinations : list value :=
  [VMap {[ "id" := VString "destination1";
           "settings" :=
             VList [VMap {[ "password_param" := VString "";
                            "stream_name" := VString "";
                            "url" := VString "s3://bucket/a/main";
                            "username" := VString "" ]};
                    VMap {[ "password_param" := VString "";
                            "stream_name" := VString "";
                            "url" := VString "s3://bucket/b/main";
                            "username" := VString "" ]}] ]}].

(** The values of [url.Parse] at three URLs: an RTMP endpoint with a path,
    one without a path, and the empty string. The table has no other
    entry, and answers with an error elsewhere. *)
Definition url_Parse (s : string) : url.URL + error :=
  if String.eqb s "rtmp://10.0.0.1:1935/live" then
    inl (url.mkURL "rtmp" "" "10.0.0.1:1935" "/live" "" "")
  else if String.eqb s "rtmp://host" then
    inl (url.mkURL "rtmp" "" "host" "" "" "")
  else if String.eqb s "" then
    inl (url.mkURL "" "" "" "" "" "")
  else inr (Errorf "parse: not in the table").

(** A destination of an RTMP push input, as [DescribeInput] returns it. *)
Definition rtmp_destination : InputDestination.t :=
  {| InputDestination.Ip := Some "10.0.0.1";
     InputDestination.Port := Some "1935";
     InputDestination.Url := Some "rtmp://10.0.0.1:1935/live" |}.

(** Modelled from the spec: [isAWSErr] of the provider's [awserr.go], which
    is not under [src/]: it holds of an error of the AWS SDK that has the
    given code and whose message contains the given text. The operations
    take [isAWSErr] as a parameter; this instance is for the concrete
    inputs. *)
Definition isAWSErr (err : option error) (code message : string) : bool :=
  match err with
  | Some (AwsError c m) =>
      String.eqb c code
      && match String.index 0 message m with Some _ => true | None => false end
  | _ => false
  end.

(** A service that is still creating the input: [CreateInput] accepts the
    request and records it, and [DescribeInput] reports the state
    [CREATING]. The state of the service is the list of the requests that
    [CreateInput] received. *)
Definition creating : client.MediaLive (list CreateInputInput.t) :=
  {| client.CreateInput :=
       fun req w =>
         ((Some {| CreateInputOutput.Input :=
                     Some {| Input.Id := Some "1234567";
                             Input.State := Some "CREATING" |} |},
           None), (w ++ [req])%list);
     client.DescribeInput :=
       fun req w =>
         ((Some {| DescribeInputOutput.Arn :=
                     Some "arn:aws:medialive:eu-west-1:123456789012:input:1234567";
                   DescribeInputOutput.Destinations := [Some rtmp_destination];
                   DescribeInputOutput.InputClass := Some "STANDARD";
                   DescribeInputOutput.Name := Some "studio";
                   DescribeInputOutput.State := Some "CREATING";
                   DescribeInputOutput.Tags := ∅;
                   DescribeInputOutput.Type_ := Some "RTMP_PUSH" |},
           None), w);
     client.DeleteInput := fun req w => ((Some tt, None), w);
     client.DescribeChannel := fun req w => ((None, None), w);
     client.DeleteChannel := fun req w => ((Some tt, None), w) |}.

(** A service on which the input and the channel are already gone: the
    calls report [NotFoundException]. The state of the service counts the
    calls. *)
Definition gone : client.MediaLive nat :=
  let not_found := AwsError "NotFoundException" "resource not found" in
  {| client.CreateInput := fun req w => ((None, Some not_found), S w);
     client.DescribeInput := fun req w => ((None, Some not_found), S w);
     client.DeleteInput := fun req w => ((None, Some not_found), S w);
     client.DescribeChannel := fun req w => ((None, Some not_found), S w);
     client.DeleteChannel := fun req w => ((None, Some not_found), S w) |}.

(** A service that accepts the delete calls. *)
Definition deleting : client.MediaLive nat :=
  {| client.CreateInput := fun req w => ((None, None), S w);
     client.DescribeInput := fun req w => ((None, None), S w);
     client.DeleteInput := fun req w => ((Some tt, None), S w);
     client.DescribeChannel := fun req w => ((None, None), S w);
     client.DeleteChannel := fun req w => ((Some tt, None), S w) |}.

Definition endpoint_gone : client.MediaPackage nat :=
  {| client.DeleteOriginEndpoint :=
       fun req w =>
         ((None, Some (AwsError "NotFoundException" "endpoint not found")),
          S w) |}.

(** A waiter that reports [NotFoundException] without polling. *)
Definition waiter_not_found {World}
  (conf : resource.StateChangeConf World) : op World (option error) :=
  fun w => Ret (Some (AwsError "NotFoundException" "resource not found"), w).

(** The resource data of an input of the first revision, as Terraform
    hands it to [Create]: two security groups, one destination, no tags. *)
Definition input_config : schema.ResourceData :=
  {| schema.fields := input_rev1.Schema;
     schema.id := "";
     schema.attrs :=
       {[ "input_type" := VString "RTMP_PUSH";
          "name" := VString "studio";
          "request_id" := VString "request-1";
          "role_arn" := VString "arn:aws:iam::123456789012:role/medialive";
          "destinations" :=
            VList [VMap {[ "stream_name" := VString "live" ]}];
          "input_security_groups" :=
            VList [VString "1111111"; VString "2222222"] ]} |}.

(** The request that the first revision sends for [input_config]. *)
Definition request_rev1 : CreateInputInput.t :=
  {| CreateInputInput.Destinations :=
       [{| InputDestinationRequest.StreamName := Some "live" |}];
     CreateInputInput.InputSecurityGroups := [];
     CreateInputInput.Name := Some "studio";
     CreateInputInput.RequestId := Some "request-1";
     CreateInputInput.RoleArn :=
       Some "arn:aws:iam::123456789012:role/medialive";
     CreateInputInput.Tags := ∅;
     CreateInputInput.Type_ := Some "RTMP_PUSH" |}.

(** The resource data after [Create] of the first revision on [creating]. *)
Definition created_rev1 (TagsMap : gmap string (option string) -> gmap string string)
  : schema.ResourceData :=
  {| schema.fields := input_rev1.Schema;
     schema.id := "1234567";
     schema.attrs :=
       <["tags" := VMap (VString <$> TagsMap ∅)]>
         (<["arn" :=
              VString "arn:aws:medialive:eu-west-1:123456789012:input:1234567"]>
            (schema.attrs input_config)) |}.

(** The same configuration under the schema of the second revision. *)
Definition input_config_rev2 : schema.ResourceData :=
  {| schema.fields := input_rev2.Schema;
     schema.id := "";
     schema.attrs := delete "request_id" (schema.attrs input_config) |}.

(** A source of request ids that always draws the same one. *)
Definition uuid_NewRandom {World} : op World string :=
  fun w => Ret ("6f1f6d0c-2f5c-4f0e-9a53-0c1d1b6f3a11", w).

(** The resource data of a resource that exists, with its id. *)
Definition existing : schema.ResourceData :=
  {| schema.fields := input_rev2.Schema;
     schema.id := "1234567";
     schema.attrs := {[ "name" := VString "studio" ]} |}.

End examples.

(** ** The vocabulary of the properties

    A channel ["destinations"] list as the schema of the channel resource
    types it: each destination has an id and a list of settings, each
    setting four strings. [destination_entry] relates a value of the
    attribute tree to the destination it holds, and [translate] is the SDK
    struct that corresponds to a destination. *)

Module spec.
Import medialive.

Record Settings : Type := mkSettings {
  password_param : string;
  stream_name : string;
  url : string;
  username : string
}.

Record Destination : Type := mkDestination {
  id : string;
  settings : list Settings
}.

Definition settings_entry (v : value) (c : Settings) : Prop :=
  exists r : gmap string value,
    v = VMap r
    /\ r !! "password_param" = Some (VString (password_param c))
    /\ r !! "stream_name" = Some (VString (stream_name c))
    /\ r !! "url" = Some (VString (url c))
    /\ r !! "username" = Some (VString (username c)).

Definition destination_entry (v : value) (c : Destination) : Prop :=
  exists (r : gmap string value) (vs : list value),
    v = VMap r
    /\ r !! "id" = Some (VString (id c))
    /\ r !! "settings" = Some (VList vs)
    /\ Forall2 settings_entry vs (settings c).

Definition translate_settings (c : Settings) : OutputDestinationSettings.t :=
  {| OutputDestinationSettings.PasswordParam := Some (password_param c);
     OutputDestinationSettings.StreamName := Some (stream_name c);
     OutputDestinationSettings.Url := Some (url c);
     OutputDestinationSettings.Username := Some (username c) |}.

Definition translate (c : Destination) : OutputDestination.t :=
  {| OutputDestination.Id := Some (id c);
     OutputDestination.Settings := translate_settings <$> settings c |}.

(** Two lists of state names have no state in common. *)
Definition disjoint_states (pending target : list string) : Prop :=
  forall s : string, s ∈ pending -> s ∈ target -> False.

End spec.

(** * The rest of the provider

    ** More structs of [service/medialive]: the encoder settings, the input
    attachments and the maintenance window of a channel *)

Module medialive_channel.
Import medialive.

Module InputSpecification.
Record t : Type := mk {
  Codec : option string;
  MaximumBitrate : option string;
  Resolution : option string
}.
Definition zero : t :=
  mk None None None.
End InputSpecification.

Module EmbeddedSourceSettings.
Record t : Type := mk {
  Convert608To708 : option string;
  Scte20Detection : option string;
  Source608ChannelNumber : option Z;
  Source608TrackNumber : option Z
}.
Definition zero : t :=
  mk None None None None.
End EmbeddedSourceSettings.

Module CaptionSelectorSettings.
Record t : Type := mk {
  EmbeddedSourceSettings : option EmbeddedSourceSettings.t
}.
Definition zero : t :=
  mk None.
End CaptionSelectorSettings.

Module CaptionSelector.
Record t : Type := mk {
  Name : option string;
  SelectorSettings : option CaptionSelectorSettings.t
}.
End CaptionSelector.

Module InputSettings.
Record t : Type := mk {
  DeblockFilter : option string;
  DenoiseFilter : option string;
  FilterStrength : option Z;
  InputFilter : option string;
  SourceEndBehavior : option string;
  Smpte2038DataPreference : option string;
  CaptionSelectors : list CaptionSelector.t
}.
Definition zero : t :=
  mk None None None None None None [].
End InputSettings.

Module InputAttachment.
Record t : Type := mk {
  InputAttachmentName : option string;
  InputId : option string;
  InputSettings : option InputSettings.t
}.
End InputAttachment.

Module AacSettings.
Record t : Type := mk {
  Bitrate : option spec_float;
  CodingMode : option string;
  InputType : option string;
  Profile : option string;
  RateControlMode : option string;
  RawFormat : option string;
  SampleRate : option spec_float;
  Spec : option string
}.
Definition zero : t :=
  mk None None None None None None None None.
End AacSettings.

Module AudioCodecSettings.
Record t : Type := mk {
  AacSettings : option AacSettings.t
}.
Definition zero : t :=
  mk None.
End AudioCodecSettings.

Module AudioDescription.
Record t : Type := mk {
  AudioSelectorName : option string;
  Name : option string;
  CodecSettings : option AudioCodecSettings.t;
  AudioTypeControl : option string;
  LanguageCodeControl : option string
}.
End AudioDescription.

Module FeatureActivations.
Record t : Type := mk {
  InputPrepareScheduleActions : option string
}.
Definition zero : t :=
  mk None.
End FeatureActivations.

Module WebvttDestinationSettings.
Record t : Type := mk {
  StyleControl : option string
}.
Definition zero : t :=
  mk None.
End WebvttDestinationSettings.

(** [EmbeddedDestinationSettings] has no field. *)
Module EmbeddedDestinationSettings.
Record t : Type := mk { }.
Definition zero : t := mk.
End EmbeddedDestinationSettings.

Module CaptionDestinationSettings.
Record t : Type := mk {
  WebvttDestinationSettings : option WebvttDestinationSettings.t;
  EmbeddedDestinationSettings : option EmbeddedDestinationSettings.t
}.
Definition zero : t :=
  mk None None.
End CaptionDestinationSettings.

Module CaptionDescription.
Record t : Type := mk {
  CaptionSelectorName : option string;
  Name : option string;
  DestinationSettings : option CaptionDestinationSettings.t
}.
End CaptionDescription.

Module TimecodeConfig.
Record t : Type := mk {
  Source : option string;
  SyncThreshold : option Z
}.
Definition zero : t :=
  mk None None.
End TimecodeConfig.

Module VideoCodecSettings.
Record t : Type := mk {
  H264Settings : option H264Settings.t
}.
Definition zero : t :=
  mk None.
End VideoCodecSettings.

Module VideoDescription.
Record t : Type := mk {
  CodecSettings : option VideoCodecSettings.t;
  Height : option Z;
  Name : option string;
  RespondToAfd : option string;
  ScalingBehavior : option string;
  Sharpness : option Z;
  Width : option Z
}.
End VideoDescription.

Module Output.
Record t : Type := mk {
  OutputName : option string;
  AudioDescriptionNames : list (option string);
  CaptionDescriptionNames : list (option string);
  OutputSettings : option OutputSettings.t;
  VideoDescriptionName : option string
}.
End Output.

Module OutputGroup.
Record t : Type := mk {
  Name : option string;
  OutputGroupSettings : option OutputGroupSettings.t;
  Outputs : list Output.t
}.
End OutputGroup.

Module EncoderSettings.
Record t : Type := mk {
  AudioDescriptions : list AudioDescription.t;
  CaptionDescriptions : list CaptionDescription.t;
  OutputGroups : list OutputGroup.t;
  TimecodeConfig : option TimecodeConfig.t;
  VideoDescriptions : list VideoDescription.t;
  FeatureActivations : option FeatureActivations.t
}.
Definition zero : t :=
  mk [] [] [] None [] None.
End EncoderSettings.

Module MaintenanceCreateSettings.
Record t : Type := mk {
  MaintenanceDay : option string;
  MaintenanceStartTime : option string
}.
End MaintenanceCreateSettings.

Module MaintenanceUpdateSettings.
Record t : Type := mk {
  MaintenanceDay : option string;
  MaintenanceScheduledDate : option string;
  MaintenanceStartTime : option string
}.
End MaintenanceUpdateSettings.

End medialive_channel.

(** ** [aws/media_live_channel_structure.go], first revision: the other
    helpers

    [expandStringList] belongs to the provider's [structure.go], which is
    not in the sources at hand: it is a parameter. *)

Module channel_encoder.
Import medialive medialive_channel channel_structure.

(** [expandInputSpecification], lines 36-48. *)
Definition expandInputSpecification (s : list value) : go (option InputSpecification.t) :=
  if (0 <? length s)%nat then
    rawInputSpecification ← first_map s;
    codec ← get_string rawInputSpecification "codec";
    maximum_bitrate ← get_string rawInputSpecification "maximum_bitrate";
    resolution ← get_string rawInputSpecification "resolution";
    Ret (Some
      {| InputSpecification.Codec := aws.String codec;
         InputSpecification.MaximumBitrate := aws.String maximum_bitrate;
         InputSpecification.Resolution := aws.String resolution |})
  else Ret (Some InputSpecification.zero).

(** [expandFeatureActivations], lines 126-136. *)
Definition expandFeatureActivations (s : list value) : go (option FeatureActivations.t) :=
  if (0 <? length s)%nat then
    rawConfig ← first_map s;
    input_prepare_schedule_actions ← get_string rawConfig "input_prepare_schedule_actions";
    Ret (Some
      {| FeatureActivations.InputPrepareScheduleActions := aws.String input_prepare_schedule_actions |})
  else Ret (Some FeatureActivations.zero).

(** [expandAacCodecSettings], lines 150-167. *)
Definition expandAacCodecSettings (s : list value) : go (option AacSettings.t) :=
  if (0 <? length s)%nat then
    rawAacSettings ← first_map s;
    bitrate ← get_float64 rawAacSettings "bitrate";
    coding_mode ← get_string rawAacSettings "coding_mode";
    input_type ← get_string rawAacSettings "input_type";
    profile ← get_string rawAacSettings "profile";
    rate_control_mode ← get_string rawAacSettings "rate_control_mode";
    raw_format ← get_string rawAacSettings "raw_format";
    sample_rate ← get_float64 rawAacSettings "sample_rate";
    spec ← get_string rawAacSettings "spec";
    Ret (Some
      {| AacSettings.Bitrate := aws.Float64 bitrate;
         AacSettings.CodingMode := aws.String coding_mode;
         AacSettings.InputType := aws.String input_type;
         AacSettings.Profile := aws.String profile;
         AacSettings.RateControlMode := aws.String rate_control_mode;
         AacSettings.RawFormat := aws.String raw_format;
         AacSettings.SampleRate := aws.Float64 sample_rate;
         AacSettings.Spec := aws.String spec |})
  else Ret (Some AacSettings.zero).

(** [expandAudioCodecSettings], lines 138-148. *)
Definition expandAudioCodecSettings (s : list value) : go (option AudioCodecSettings.t) :=
  if (0 <? length s)%nat then
    rawCodecSettings ← first_map s;
    aac_settings_set ← get_set rawCodecSettings "aac_settings";
    aac_settings ← expandAacCodecSettings aac_settings_set;
    Ret (Some
      {| AudioCodecSettings.AacSettings := aac_settings |})
  else Ret (Some AudioCodecSettings.zero).

(** [expandAudioDescriptions], lines 105-124. *)
Definition expandAudioDescriptions (audioDescriptions : list value)
  : go (list AudioDescription.t) :=
  if (length audioDescriptions =? 0)%nat then Ret []
  else
    for_range
      (fun descs =>
         r ← assert_map (Some descs);
         audio_selector_name ← get_string r "audio_selector_name";
         name ← get_string r "name";
         codec_settings_set ← get_set r "codec_settings";
         codec_settings ← expandAudioCodecSettings codec_settings_set;
         audio_type_control ← get_string r "audio_type_control";
         language_code_control ← get_string r "language_code_control";
         Ret {| AudioDescription.AudioSelectorName := aws.String audio_selector_name;
                AudioDescription.Name := aws.String name;
                AudioDescription.CodecSettings := codec_settings;
                AudioDescription.AudioTypeControl := aws.String audio_type_control;
                AudioDescription.LanguageCodeControl := aws.String language_code_control |})
      audioDescriptions.

(** [expandEmbeddedSourceSettings], lines 334-347. *)
Definition expandEmbeddedSourceSettings (s : list value) : go (option EmbeddedSourceSettings.t) :=
  if (0 <? length s)%nat then
    settings ← first_map s;
    convert608_to708 ← get_string settings "convert608_to708";
    scte20_detection ← get_string settings "scte20_detection";
    source608_channel_number ← get_int settings "source608_channel_number";
    source608_track_number ← get_int settings "source608_track_number";
    Ret (Some
      {| EmbeddedSourceSettings.Convert608To708 := aws.String convert608_to708;
         EmbeddedSourceSettings.Scte20Detection := aws.String scte20_detection;
         EmbeddedSourceSettings.Source608ChannelNumber := aws.Int64 (int64 source608_channel_number);
         EmbeddedSourceSettings.Source608TrackNumber := aws.Int64 (int64 source608_track_number) |})
  else Ret (Some EmbeddedSourceSettings.zero).

(** [expandCaptionSelectorSettings], lines 323-332. *)
Definition expandCaptionSelectorSettings (s : list value) : go (option CaptionSelectorSettings.t) :=
  if (0 <? length s)%nat then
    settings ← first_map s;
    embedded_source_settings_set ← get_set settings "embedded_source_settings";
    embedded_source_settings ← expandEmbeddedSourceSettings embedded_source_settings_set;
    Ret (Some
      {| CaptionSelectorSettings.EmbeddedSourceSettings := embedded_source_settings |})
  else Ret None.

(** [expandCaptionSelectors], lines 309-321. *)
Definition expandCaptionSelectors (captionSelectors : list value)
  : go (list CaptionSelector.t) :=
  for_range
    (fun descs =>
       r ← assert_map (Some descs);
       name ← get_string r "name";
       selector_settings_set ← get_set r "selector_settings";
       selector_settings ← expandCaptionSelectorSettings selector_settings_set;
       Ret {| CaptionSelector.Name := aws.String name;
              CaptionSelector.SelectorSettings := selector_settings |})
    captionSelectors.

(** [expandInputAttachmentSettings], lines 532-548. *)
Definition expandInputAttachmentSettings (s : list value) : go (option InputSettings.t) :=
  if (0 <? length s)%nat then
    rawInputSettings ← first_map s;
    deblock_filter ← get_string rawInputSettings "deblock_filter";
    denoise_filter ← get_string rawInputSettings "denoise_filter";
    filter_strength ← get_int rawInputSettings "filter_strength";
    input_filter ← get_string rawInputSettings "input_filter";
    source_end_behavior ← get_string rawInputSettings "source_end_behavior";
    smpte2038_data_preference ← get_string rawInputSettings "smpte2038_data_preference";
    caption_selectors_list ← get_list rawInputSettings "caption_selectors";
    caption_selectors ← expandCaptionSelectors caption_selectors_list;
    Ret (Some
      {| InputSettings.DeblockFilter := aws.String deblock_filter;
         InputSettings.DenoiseFilter := aws.String denoise_filter;
         InputSettings.FilterStrength := aws.Int64 (int64 filter_strength);
         InputSettings.InputFilter := aws.String input_filter;
         InputSettings.SourceEndBehavior := aws.String source_end_behavior;
         InputSettings.Smpte2038DataPreference := aws.String smpte2038_data_preference;
         InputSettings.CaptionSelectors := caption_selectors |})
  else Ret (Some InputSettings.zero).

(** [expandInputAttachments], lines 18-34. *)
Definition expandInputAttachments (inputAttachments : list value)
  : go (list InputAttachment.t) :=
  if (length inputAttachments =? 0)%nat then Ret []
  else
    for_range
      (fun inputAtt =>
         r ← assert_map (Some inputAtt);
         input_attachment_name ← get_string r "input_attachment_name";
         input_id ← get_string r "input_id";
         input_settings_set ← get_set r "input_settings";
         input_settings ← expandInputAttachmentSettings input_settings_set;
         Ret {| InputAttachment.InputAttachmentName := aws.String input_attachment_name;
                InputAttachment.InputId := aws.String input_id;
                InputAttachment.InputSettings := input_settings |})
      inputAttachments.

(** [expandWebvttDestinationSettings], lines 378-387. *)
Definition expandWebvttDestinationSettings (s : list value) : go (option WebvttDestinationSettings.t) :=
  if (0 <? length s)%nat then
    settings ← first_map s;
    style_control ← get_string settings "style_control";
    Ret (Some
      {| WebvttDestinationSettings.StyleControl := aws.String style_control |})
  else Ret None.

(** [expandEmbeddedDestinationSettings], lines 389-395. *)
Definition expandEmbeddedDestinationSettings (s : list value)
  : go (option EmbeddedDestinationSettings.t) :=
  if (0 <? length s)%nat then Ret (Some EmbeddedDestinationSettings.zero)
  else Ret None.

(** [expandCaptionDestinationSettings], lines 366-376. *)
Definition expandCaptionDestinationSettings (s : list value) : go (option CaptionDestinationSettings.t) :=
  if (0 <? length s)%nat then
    settings ← first_map s;
    webvtt_destination_settings_set ← get_set settings "webvtt_destination_settings";
    webvtt_destination_settings ← expandWebvttDestinationSettings webvtt_destination_settings_set;
    embedded_destination_settings_set ← get_set settings "embedded_destination_settings";
    embedded_destination_settings ← expandEmbeddedDestinationSettings embedded_destination_settings_set;
    Ret (Some
      {| CaptionDestinationSettings.WebvttDestinationSettings := webvtt_destination_settings;
         CaptionDestinationSettings.EmbeddedDestinationSettings := embedded_destination_settings |})
  else Ret None.

(** [expandCaptionDescriptions], lines 351-364. *)
Definition expandCaptionDescriptions (captionDescriptions : list value)
  : go (list CaptionDescription.t) :=
  for_range
    (fun descs =>
       r ← assert_map (Some descs);
       caption_selector_name ← get_string r "caption_selector_name";
       name ← get_string r "name";
       destination_settings_set ← get_set r "destination_settings";
       destination_settings ←
         expandCaptionDestinationSettings destination_settings_set;
       Ret {| CaptionDescription.CaptionSelectorName := aws.String caption_selector_name;
              CaptionDescription.Name := aws.String name;
              CaptionDescription.DestinationSettings := destination_settings |})
    captionDescriptions.

(** [expandTimecodeConfigs], lines 550-561. *)
Definition expandTimecodeConfigs (s : list value) : go (option TimecodeConfig.t) :=
  if (0 <? length s)%nat then
    rawTimecodeConfig ← first_map s;
    source ← get_string rawTimecodeConfig "source";
    sync_threshold ← get_int rawTimecodeConfig "sync_threshold";
    Ret (Some
      {| TimecodeConfig.Source := aws.String source;
         TimecodeConfig.SyncThreshold := aws.Int64 (int64 sync_threshold) |})
  else Ret (Some TimecodeConfig.zero).

(** [expandVideoCodecSettings], lines 586-596. *)
Definition expandVideoCodecSettings (s : list value) : go (option VideoCodecSettings.t) :=
  if (0 <? length s)%nat then
    rawVideoCodecSettings ← first_map s;
    h264_settings_set ← get_set rawVideoCodecSettings "h264_settings";
    h264_settings ← expandH264Settings h264_settings_set;
    Ret (Some
      {| VideoCodecSettings.H264Settings := h264_settings |})
  else Ret (Some VideoCodecSettings.zero).

(** [expandVideoDescriptions], lines 563-584. *)
Definition expandVideoDescriptions (videoDescriptions : list value)
  : go (list VideoDescription.t) :=
  if (length videoDescriptions =? 0)%nat then Ret []
  else
    for_range
      (fun descs =>
         r ← assert_map (Some descs);
         codec_settings_set ← get_set r "codec_settings";
         codec_settings ← expandVideoCodecSettings codec_settings_set;
         height ← get_int r "height";
         name ← get_string r "name";
         respond_to_afd ← get_string r "respond_to_afd";
         scaling_behavior ← get_string r "scaling_behavior";
         sharpness ← get_int r "sharpness";
         width ← get_int r "width";
         Ret {| VideoDescription.CodecSettings := codec_settings;
                VideoDescription.Height := aws.Int64 (int64 height);
                VideoDescription.Name := aws.String name;
                VideoDescription.RespondToAfd := aws.String respond_to_afd;
                VideoDescription.ScalingBehavior := aws.String scaling_behavior;
                VideoDescription.Sharpness := aws.Int64 (int64 sharpness);
                VideoDescription.Width := aws.Int64 (int64 width) |})
      videoDescriptions.

(** [v, ok := x.(string)]: the two-value type assertion does not panic. *)
Definition string_ok (x : option value) : string * bool :=
  match x with
  | Some (VString s) => (s, true)
  | _ => (EmptyString, false)
  end.

(** The field that lines 693-698 and 710-715 set: [aws.String(v)] when the
    key holds a non-empty string, and nil otherwise. *)
Definition maintenance_field (m : gmap string value) (key : string)
  : option string :=
  let '(v, ok) := string_ok (m !! key) in
  if ok && negb (String.eqb v EmptyString) then aws.String v else None.

(** [expandChannelMaintenanceCreate], lines 686-701. The argument is a
    slice that the function compares with nil: [None] is the nil slice. *)
Definition expandChannelMaintenanceCreate (tfList : option (list value))
  : go (option MaintenanceCreateSettings.t) :=
  match tfList with
  | None => Ret None
  | Some tfList =>
      x ← index tfList 0;
      m ← assert_map (Some x);
      Ret (Some
        {| MaintenanceCreateSettings.MaintenanceDay :=
             maintenance_field m "maintenance_day";
           MaintenanceCreateSettings.MaintenanceStartTime :=
             maintenance_field m "maintenance_start_time" |})
  end.

(** [expandChannelMaintenanceUpdate], lines 703-723. *)
Definition expandChannelMaintenanceUpdate (tfList : option (list value))
  : go (option MaintenanceUpdateSettings.t) :=
  match tfList with
  | None => Ret None
  | Some tfList =>
      x ← index tfList 0;
      m ← assert_map (Some x);
      Ret (Some
        {| MaintenanceUpdateSettings.MaintenanceDay :=
             maintenance_field m "maintenance_day";
           MaintenanceUpdateSettings.MaintenanceScheduledDate := None;
           MaintenanceUpdateSettings.MaintenanceStartTime :=
             maintenance_field m "maintenance_start_time" |})
  end.

Section with_string_list.
Variable expandStringList : list value -> list (option string).

(** [expandOutputs], lines 215-240. *)
Definition expandOutputs (outputs : list value) : go (list Output.t) :=
  if (length outputs =? 0)%nat then Ret []
  else
    for_range
      (fun v =>
         r ← assert_map (Some v);
         videoDescName ← get_string r "video_description_name";
         let videoDescNameAws :=
             if (0 <? String.length videoDescName)%nat
             then aws.String videoDescName
             else None in
         output_name ← get_string r "output_name";
         audio_description_names ← get_list r "audio_description_names";
         caption_description_names ← get_list r "caption_description_names";
         output_settings_set ← get_set r "output_settings";
         output_settings ← expandOutputSettings output_settings_set;
         Ret {| Output.OutputName := aws.String output_name;
                Output.AudioDescriptionNames :=
                  expandStringList audio_description_names;
                Output.CaptionDescriptionNames :=
                  expandStringList caption_description_names;
                Output.OutputSettings := output_settings;
                Output.VideoDescriptionName := videoDescNameAws |})
      outputs.

(** [expandOutputGroups], lines 169-186. *)
Definition expandOutputGroups (outputGroups : list value)
  : go (list OutputGroup.t) :=
  if (length outputGroups =? 0)%nat then Ret []
  else
    for_range
      (fun v =>
         r ← assert_map (Some v);
         name ← get_string r "name";
         output_group_settings_set ← get_set r "output_group_settings";
         output_group_settings ←
           expandOutputGroupSettings output_group_settings_set;
         outputs_list ← get_list r "outputs";
         outputs ← expandOutputs outputs_list;
         Ret {| OutputGroup.Name := aws.String name;
                OutputGroup.OutputGroupSettings := output_group_settings;
                OutputGroup.Outputs := outputs |})
      outputGroups.

(** [expandEncoderSettings], lines 88-103. *)
Definition expandEncoderSettings (s : list value) : go (option EncoderSettings.t) :=
  if (0 <? length s)%nat then
    rawEncoderSettings ← first_map s;
    audio_descriptions_list ← get_list rawEncoderSettings "audio_descriptions";
    audio_descriptions ← expandAudioDescriptions audio_descriptions_list;
    caption_descriptions_list ← get_list rawEncoderSettings "caption_descriptions";
    caption_descriptions ← expandCaptionDescriptions caption_descriptions_list;
    output_groups_list ← get_list rawEncoderSettings "output_groups";
    output_groups ← expandOutputGroups output_groups_list;
    timecode_config_set ← get_set rawEncoderSettings "timecode_config";
    timecode_config ← expandTimecodeConfigs timecode_config_set;
    video_descriptions_list ← get_list rawEncoderSettings "video_descriptions";
    video_descriptions ← expandVideoDescriptions video_descriptions_list;
    feature_activations_set ← get_set rawEncoderSettings "feature_activations";
    feature_activations ← expandFeatureActivations feature_activations_set;
    Ret (Some
      {| EncoderSettings.AudioDescriptions := audio_descriptions;
         EncoderSettings.CaptionDescriptions := caption_descriptions;
         EncoderSettings.OutputGroups := output_groups;
         EncoderSettings.TimecodeConfig := timecode_config;
         EncoderSettings.VideoDescriptions := video_descriptions;
         EncoderSettings.FeatureActivations := feature_activations |})
  else Ret (Some EncoderSettings.zero).

End with_string_list.
End channel_encoder.

(** ** More request structs of the AWS SDK *)

Module medialive_requests.
Import medialive medialive_channel.

Module UpdateInputInput.
Record t : Type := mk {
  Destinations : list InputDestinationRequest.t;
  InputId : option string;
  InputSecurityGroups : list (option string);
  Name : option string
}.
End UpdateInputInput.

Module CreateChannelInput.
Record t : Type := mk {
  ChannelClass : option string;
  Destinations : list OutputDestination.t;
  EncoderSettings : option EncoderSettings.t;
  InputAttachments : list InputAttachment.t;
  InputSpecification : option InputSpecification.t;
  LogLevel : option string;
  Name : option string;
  RoleArn : option string;
  Tags : gmap string (option string)
}.
End CreateChannelInput.

Module Channel.
Record t : Type := mk {
  Id : option string;
  State : option string
}.
End Channel.

Module CreateChannelOutput.
Record t : Type := mk {
  Channel : option Channel.t
}.
End CreateChannelOutput.

Module UpdateChannelInput.
Record t : Type := mk {
  ChannelId : option string;
  Destinations : list OutputDestination.t;
  EncoderSettings : option EncoderSettings.t;
  InputAttachments : list InputAttachment.t;
  InputSpecification : option InputSpecification.t;
  LogLevel : option string;
  Name : option string;
  RoleArn : option string
}.
End UpdateChannelInput.

End medialive_requests.

(** ** More of [helper/schema] *)

Module schema_pointer.

(** [d.Set(key, p)] for a string pointer [p]: the SDK writes the string it
    points to, and clears the attribute for a nil pointer. *)
Definition Set_ptr (d : schema.ResourceData) (key : string)
  (p : option string) : option error * schema.ResourceData :=
  match p with
  | Some s => schema.Set_ d key (VString s)
  | None =>
      match schema.fields d !! key with
      | Some _ =>
          (None,
           schema.mkResourceData (schema.fields d) (schema.id d)
             (delete key (schema.attrs d)))
      | None => (Some (Errorf ("Invalid address to set: " ++ key)), d)
      end
  end.

End schema_pointer.

(** ** [aws/resource_aws_media_live_input.go]: the update operations

    [HasChange] and [GetChange] are the methods of the resource data of the
    plugin SDK that compare the configuration with the prior state, which
    the model of the resource data does not hold: they are parameters, and
    so are [MedialiveUpdateTags] of the provider's [keyvaluetags] package
    and the [UpdateInput] call of the service. *)

Module input_update.
Import medialive medialive_requests.

Section with_client.
Context {World : Type}.
Variable isAWSErr : option error -> string -> string -> bool.
Variable TagsMap : gmap string (option string) -> gmap string string.
Variable url_Parse : string -> url.URL + error.
Variable HasChange : schema.ResourceData -> string -> bool.
Variable GetChange :
  schema.ResourceData -> string -> option value * option value.
Variable MedialiveUpdateTags :
  string -> option value -> option value -> op World (option error).
Variable UpdateInput : client.call World UpdateInputInput.t unit.
Variable conn : client.MediaLive World.

Definition d_HasChange (key : string) : op (@St World) bool :=
  fun s => Ret (HasChange (fst s) key, s).
Definition d_GetChange (key : string)
  : op (@St World) (option value * option value) :=
  fun s => Ret (GetChange (fst s) key, s).

(** Lines 487-492 and 173-178, the same in both revisions. *)
Definition update_tags : op (@St World) (option error) :=
  changed ← d_HasChange "tags";
  if (changed : bool) then
    '(o, n) ← d_GetChange "tags";
    arn ← d_Get "arn";
    arn ← lift (assert_string arn);
    err ← on_world (MedialiveUpdateTags arn o n);
    match err with
    | Some e => mret (Some (Errorf ("error updating tags: " ++ error_text e)))
    | None => mret None
    end
  else mret None.

(** The request that the second revision of
    [resourceAwsMediaLiveInputUpdate] builds, lines 455-475. *)
Definition resourceAwsMediaLiveInputUpdate_input
  : op (@St World) UpdateInputInput.t :=
  id ← d_Id;
  changed ← d_HasChange "name";
  name ←
    (if (changed : bool) then
       name ← d_Get "name";
       name ← lift (assert_string name);
       mret (aws.String name)
     else mret None);
  changed ← d_HasChange "stream_name";
  destinations ←
    (if (changed : bool) then
       '(v, ok) ← d_GetOk "destinations";
       if (ok : bool) then
         l ← lift (assert_list v);
         if (0 <? length l)%nat then
           l ← lift (assert_list v);
           lift (input_rev2.expandInputDestinations l)
         else mret []
       else mret []
     else mret []);
  changed ← d_HasChange "input_security_groups";
  inputSecurityGroups ←
    (if (changed : bool) then
       '(raw, ok) ← d_GetOk "input_security_groups";
       if (ok : bool) then lift (input_rev2.convertInputSecurityGroups raw)
       else mret []
     else mret []);
  mret {| UpdateInputInput.Destinations := destinations;
          UpdateInputInput.InputId := aws.String id;
          UpdateInputInput.InputSecurityGroups := inputSecurityGroups;
          UpdateInputInput.Name := name |}.

(** [resourceAwsMediaLiveInputUpdate], second revision, lines 452-495. *)
Definition resourceAwsMediaLiveInputUpdate : op (@St World) (option error) :=
  input ← resourceAwsMediaLiveInputUpdate_input;
  '(_, err) ← api (UpdateInput input);
  match err with
  | Some e =>
      if isAWSErr err ErrCodeNotFoundException ""
      then d_SetId "";; mret None
      else
        id ← d_Id;
        mret (Some (Errorf ("Error updating MediaLive Input(" ++ id ++ "): "
                              ++ error_text e)))
  | None =>
      err ← update_tags;
      match err with
      | Some e => mret (Some e)
      | None =>
          input_rev2.resourceAwsMediaLiveInputRead isAWSErr TagsMap url_Parse
            conn
      end
  end.

(** [resourceAwsMediaLiveInputUpdate], first revision, lines 154-186: the
    request holds the name only. *)
Definition resourceAwsMediaLiveInputUpdate_rev1
  : op (@St World) (option error) :=
  changed ← d_HasChange "input_type";
  updated ←
    (if (changed : bool) then
       name ← d_Get "name";
       name ← lift (assert_string name);
       '(_, err) ← api (UpdateInput
                          {| UpdateInputInput.Destinations := [];
                             UpdateInputInput.InputId := None;
                             UpdateInputInput.InputSecurityGroups := [];
                             UpdateInputInput.Name := aws.String name |});
       match err with
       | Some e =>
           if isAWSErr err ErrCodeNotFoundException ""
           then d_SetId "";; mret (inl None)
           else
             id ← d_Id;
             mret (inl (Some (Errorf ("Error updating MediaLive Input(" ++ id
                                        ++ "): " ++ error_text e))))
       | None => mret (inr tt)
       end
     else mret (inr tt) : op (@St World) (option error + unit));
  match updated with
  | inl result => mret result
  | inr _ =>
      err ← update_tags;
      match err with
      | Some e => mret (Some e)
      | None => input_rev1.resourceAwsMediaLiveInputRead isAWSErr TagsMap conn
      end
  end.

End with_client.
End input_update.

(** ** [aws/resource_aws_media_live_channel.go]: create, read and update

    The structure helpers are the ones of the first revision of
    [media_live_channel_structure.go]; [CreateChannel] and [UpdateChannel]
    are the calls of the service. [TagsMap] stands for
    [MedialiveKeyValueTags(tags).IgnoreAws().IgnoreConfig(c).Map()]. *)

Module channel_ops.
Import medialive medialive_channel medialive_requests.

(** The top-level attributes of the schema of [resourceAwsMediaLiveChannel],
    lines 26-1359. *)
Definition Schema : gmap string schema.ValueType :=
  {[ "arn" := schema.TypeString;
     "channel_class" := schema.TypeString;
     "destinations" := schema.TypeList;
     "encoder_settings" := schema.TypeSet;
     "input_attachments" := schema.TypeList;
     "input_specification" := schema.TypeSet;
     "log_level" := schema.TypeString;
     "name" := schema.TypeString;
     "pipelines_running_count" := schema.TypeString;
     "reserved" := schema.TypeString;
     "role_arn" := schema.TypeString;
     "tags" := schema.TypeMap ]}.

Section with_client.
Context {World : Type}.
Variable isAWSErr : option error -> string -> string -> bool.
Variable WaitForState :
  resource.StateChangeConf World -> op World (option error).
Variable MedialiveTags : gmap string value -> go (gmap string (option string)).
Variable TagsMap : gmap string (option string) -> gmap string string.
Variable expandStringList : list value -> list (option string).
Variable CreateChannel :
  client.call World CreateChannelInput.t CreateChannelOutput.t.
Variable UpdateChannel : client.call World UpdateChannelInput.t unit.
Variable conn : client.MediaLive World.

Definition d_Set_ptr (key : string) (p : option string)
  : op (@St World) (option error) :=
  fun s =>
    let '(e, d) := schema_pointer.Set_ptr (fst s) key p in Ret (e, (d, snd s)).

(** [resourceAwsMediaLiveChannelRead], lines 1433-1460. *)
Definition resourceAwsMediaLiveChannelRead : op (@St World) (option error) :=
  id ← d_Id;
  '(resp, err) ← api (client.DescribeChannel conn
                        {| DescribeChannelInput.ChannelId := aws.String id |});
  match err with
  | Some e =>
      if isAWSErr err ErrCodeNotFoundException ""
      then d_SetId "";; mret None
      else
        id ← d_Id;
        mret (Some (Errorf ("Error describing MediaLive Channel(" ++ id
                              ++ "): " ++ error_text e)))
  | None =>
      resp ← lift (deref resp);
      d_Set_ptr "arn" (DescribeChannelOutput.Arn resp);;
      d_Set_ptr "name" (DescribeChannelOutput.Name resp);;
      d_Set_ptr "role_arn" (DescribeChannelOutput.RoleArn resp);;
      err ← d_Set "tags"
              (VMap (VString <$> TagsMap (DescribeChannelOutput.Tags resp)));
      match err with
      | Some e => mret (Some (Errorf ("error setting tags: " ++ error_text e)))
      | None => mret None
      end
  end.

(** The part of the request that [Create] and [Update] build in the same
    way, lines 1373-1393 and 1472-1492. *)
Definition expand_channel
  : op (@St World)
      (option InputSpecification.t * list InputAttachment.t
       * list OutputDestination.t * option EncoderSettings.t) :=
  '(v, ok) ← d_GetOk "input_specification";
  inputSpecification ←
    (if (ok : bool) then
       s ← lift (assert_set v);
       lift (channel_encoder.expandInputSpecification s)
     else mret None);
  '(v, ok) ← d_GetOk "input_attachments";
  inputAttachments ←
    (if (ok : bool) then
       l ← lift (assert_list v);
       if (0 <? length l)%nat then
         l ← lift (assert_list v);
         lift (channel_encoder.expandInputAttachments l)
       else mret []
     else mret []);
  '(v, ok) ← d_GetOk "destinations";
  destinations ←
    (if (ok : bool) then
       l ← lift (assert_list v);
       if (0 <? length l)%nat then
         l ← lift (assert_list v);
         lift (channel_structure.expandDestinations l)
       else mret []
     else mret []);
  '(v, ok) ← d_GetOk "encoder_settings";
  encoderSettings ←
    (if (ok : bool) then
       s ← lift (assert_set v);
       lift (channel_encoder.expandEncoderSettings expandStringList s)
     else mret None);
  mret (inputSpecification, inputAttachments, destinations, encoderSettings).

(** The request that [resourceAwsMediaLiveChannelCreate] builds,
    lines 1366-1397. *)
Definition resourceAwsMediaLiveChannelCreate_input
  : op (@St World) CreateChannelInput.t :=
  channel_class ← d_Get "channel_class";
  channel_class ← lift (assert_string channel_class);
  name ← d_Get "name";
  name ← lift (assert_string name);
  role_arn ← d_Get "role_arn";
  role_arn ← lift (assert_string role_arn);
  log_level ← d_Get "log_level";
  log_level ← lift (assert_string log_level);
  '(inputSpecification, inputAttachments, destinations, encoderSettings) ←
    expand_channel;
  tags ← d_Get "tags";
  v ← lift (assert_map tags);
  tags ← (if (0 <? size v)%nat then lift (MedialiveTags v) else mret ∅);
  mret {| CreateChannelInput.ChannelClass := aws.String channel_class;
          CreateChannelInput.Destinations := destinations;
          CreateChannelInput.EncoderSettings := encoderSettings;
          CreateChannelInput.InputAttachments := inputAttachments;
          CreateChannelInput.InputSpecification := inputSpecification;
          CreateChannelInput.LogLevel := aws.String log_level;
          CreateChannelInput.Name := aws.String name;
          CreateChannelInput.RoleArn := aws.String role_arn;
          CreateChannelInput.Tags := tags |}.

(** [resourceAwsMediaLiveChannelCreate], lines 1363-1431. *)
Definition resourceAwsMediaLiveChannelCreate : op (@St World) (option error) :=
  input ← resourceAwsMediaLiveChannelCreate_input;
  '(resp, err) ← api (CreateChannel input);
  match err with
  | Some e =>
      mret (Some (Errorf ("Error creating MediaLive Channel: "
                            ++ error_text e)))
  | None =>
      resp ← lift (deref resp);
      created ← lift (deref (CreateChannelOutput.Channel resp));
      d_SetId (aws.StringValue (Channel.Id created));;
      id ← d_Id;
      timeout ← d_Timeout;
      err ← on_world
              (WaitForState
                 (channel.resourceAwsMediaLiveChannelCreate_createStateConf
                    conn id timeout));
      match err with
      | Some e =>
          id ← d_Id;
          mret (Some (Errorf ("Error waiting MediaLive Channel (" ++ id
                                ++ ") to be created: " ++ error_text e)))
      | None => resourceAwsMediaLiveChannelRead
      end
  end.

(** The request that [resourceAwsMediaLiveChannelUpdate] builds,
    lines 1465-1492. *)
Definition resourceAwsMediaLiveChannelUpdate_input
  : op (@St World) UpdateChannelInput.t :=
  id ← d_Id;
  name ← d_Get "name";
  name ← lift (assert_string name);
  role_arn ← d_Get "role_arn";
  role_arn ← lift (assert_string role_arn);
  log_level ← d_Get "log_level";
  log_level ← lift (assert_string log_level);
  '(inputSpecification, inputAttachments, destinations, encoderSettings) ←
    expand_channel;
  mret {| UpdateChannelInput.ChannelId := aws.String id;
          UpdateChannelInput.Destinations := destinations;
          UpdateChannelInput.EncoderSettings := encoderSettings;
          UpdateChannelInput.InputAttachments := inputAttachments;
          UpdateChannelInput.InputSpecification := inputSpecification;
          UpdateChannelInput.LogLevel := aws.String log_level;
          UpdateChannelInput.Name := aws.String name;
          UpdateChannelInput.RoleArn := aws.String role_arn |}.

(** [resourceAwsMediaLiveChannelUpdate], lines 1462-1524. *)
Definition resourceAwsMediaLiveChannelUpdate : op (@St World) (option error) :=
  input ← resourceAwsMediaLiveChannelUpdate_input;
  '(_, err) ← api (UpdateChannel input);
  match err with
  | Some e =>
      mret (Some (Errorf ("Error updating MediaLive Channel: "
                            ++ error_text e)))
  | None =>
      id ← d_Id;
      timeout ← d_Timeout;
      err ← on_world
              (WaitForState
                 (channel.resourceAwsMediaLiveChannelUpdate_updateStateConf
                    conn id timeout));
      match err with
      | Some e =>
          id ← d_Id;
          mret (Some (Errorf ("Error waiting for MediaLive Channel (" ++ id
                                ++ ") update to be completed: "
                                ++ error_text e)))
      | None => resourceAwsMediaLiveChannelRead
      end
  end.

End with_client.
End channel_ops.

(** ** The MediaPackage origin endpoint resource: the structure helpers
    ([src/unnamed/part_002], lines 288-341) *)

Module origin_endpoint_structure.

Module Authorization.
Record t : Type := mk {
  CdnIdentifierSecret : option string;
  SecretsRoleArn : option string
}.
End Authorization.

Module StreamSelection.
Record t : Type := mk {
  MaxVideoBitsPerSecond : option Z;
  MinVideoBitsPerSecond : option Z;
  StreamOrder : option string
}.
Definition zero : t := mk None None None.
End StreamSelection.

(** [expandStreamSelection], lines 309-321. *)
Definition expandStreamSelection (s : list value)
  : go (option StreamSelection.t) :=
  if (0 <? length s)%nat then
    settings ← first_map s;
    max_video_bits_per_second ← get_int settings "max_video_bits_per_second";
    min_video_bits_per_second ← get_int settings "min_video_bits_per_second";
    stream_order ← get_string settings "stream_order";
    Ret (Some
      {| StreamSelection.MaxVideoBitsPerSecond :=
           aws.Int64 (int64 max_video_bits_per_second);
         StreamSelection.MinVideoBitsPerSecond :=
           aws.Int64 (int64 min_video_bits_per_second);
         StreamSelection.StreamOrder := aws.String stream_order |})
  else Ret (Some StreamSelection.zero).

(** [expandAuthorization], lines 323-333. *)
Definition expandAuthorization (s : list value) : go (option Authorization.t) :=
  if (0 <? length s)%nat then
    settings ← first_map s;
    cdn_identifier_secret ← get_string settings "cdn_identifier_secret";
    secrets_role_arn ← get_string settings "secrets_role_arn";
    Ret (Some
      {| Authorization.CdnIdentifierSecret := aws.String cdn_identifier_secret;
         Authorization.SecretsRoleArn := aws.String secrets_role_arn |})
  else Ret None.

(** [flattenAuthorization], lines 335-341. *)
Definition flattenAuthorization (auth : option Authorization.t)
  : go (gmap string value) :=
  auth ← deref auth;
  Ret ({[ "cdn_identifier_secret" :=
            VString (aws.StringValue (Authorization.CdnIdentifierSecret auth));
          "secrets_role_arn" :=
            VString (aws.StringValue (Authorization.SecretsRoleArn auth)) ]}
       : gmap string value).

End origin_endpoint_structure.

(** ** The vocabulary of the further properties *)

(** A computation that panics, if at all, at a failed type assertion: it
    dereferences no nil pointer and reads no index out of range. *)
Definition asserts_only {A} (m : go A) : Prop :=
  forall p, m = Panic p -> p = TypeAssertion.

(** An operation that leaves the resource data as it is. *)
Definition keeps_data {World A} (m : op (@St World) A) : Prop :=
  forall s a s', m s = Ret (a, s') -> fst s' = fst s.

(** An operation that, on a resource data with the fields [F], keeps the
    fields and changes no attribute outside [keys]. *)
Definition changes_only {World A} (F : gmap string schema.ValueType)
  (keys : list string) (m : op (@St World) A) : Prop :=
  forall s a s',
    schema.fields (fst s) = F ->
    m s = Ret (a, s') ->
    schema.fields (fst s') = F
    /\ forall k, k ∉ keys ->
         schema.attrs (fst s') !! k = schema.attrs (fst s) !! k.

(** The same for a stateful operation. *)
Definition op_asserts_only {S A} (m : op S A) : Prop :=
  forall s p, m s = Panic p -> p = TypeAssertion.

(** What the API asks of the output groups of a request: the settings of
    a group hold no HLS struct without a mode and no RTMP struct without an
    authentication scheme; the settings of an output hold no empty HLS or
    RTMP struct, and the name of its video description is not the empty
    string. *)
Module wellformed.
Import medialive medialive_channel.

Definition group_settings (ogs : OutputGroupSettings.t) : Prop :=
  (forall h, OutputGroupSettings.HlsGroupSettings ogs = Some h ->
             is_Some (HlsGroupSettings.Mode h))
  /\ (forall h, OutputGroupSettings.RtmpGroupSettings ogs = Some h ->
                is_Some (RtmpGroupSettings.AuthenticationScheme h)).

Definition output_settings (os : OutputSettings.t) : Prop :=
  (forall h, OutputSettings.HlsOutputSettings os = Some h ->
             h <> HlsOutputSettings.zero)
  /\ (forall h, OutputSettings.RtmpOutputSettings os = Some h ->
                h <> RtmpOutputSettings.zero).

Definition output (o : Output.t) : Prop :=
  Output.VideoDescriptionName o <> Some EmptyString
  /\ exists os, Output.OutputSettings o = Some os /\ output_settings os.

Definition output_group (g : OutputGroup.t) : Prop :=
  (exists ogs,
     OutputGroup.OutputGroupSettings g = Some ogs /\ group_settings ogs)
  /\ Forall output (OutputGroup.Outputs g).

End wellformed.

(** ** More concrete inputs *)

Module scenarios.
Import medialive medialive_channel medialive_requests.

(** Instances of the parameters of the operations for the concrete inputs:
    a tag conversion that keeps the tags that have a value, and a waiter
    that finds the target state at once. *)
Definition TagsMap (tags : gmap string (option string)) : gmap string string :=
  omap (fun v : option string => v) tags.

Definition MedialiveTags (v : gmap string value)
  : go (gmap string (option string)) :=
  Ret ((fun x => match x with VString s => Some s | _ => None end) <$> v).

Definition waiter_ok {World}
  (conf : resource.StateChangeConf World) : op World (option error) :=
  fun w => Ret (None, w).

(** The resource data of [examples.existing] after [Read] on the service
    [examples.creating]. *)
Definition described : schema.ResourceData :=
  {| schema.fields := input_rev2.Schema;
     schema.id := "1234567";
     schema.attrs :=
       {[ "destinations" :=
            VList [VMap {[ "url" := VString "rtmp://10.0.0.1:1935/live";
                           "port" := VString "10.0.0.1";
                           "ip" := VString "1935";
                           "stream_name" := VString "live" ]}];
          "arn" :=
            VString "arn:aws:medialive:eu-west-1:123456789012:input:1234567";
          "name" := VString "studio";
          "tags" := VMap ∅ ]} |}.

(** A service with a channel that is idle; the state of the service counts
    the calls. *)
Definition channel_idle : client.MediaLive nat :=
  {| client.CreateInput := fun req w => ((None, None), S w);
     client.DescribeInput := fun req w => ((None, None), S w);
     client.DeleteInput := fun req w => ((Some tt, None), S w);
     client.DescribeChannel :=
       fun req w =>
         ((Some {| DescribeChannelOutput.Arn :=
                     Some "arn:aws:medialive:eu-west-1:123456789012:channel:7654321";
                   DescribeChannelOutput.Name := Some "news";
                   DescribeChannelOutput.RoleArn :=
                     Some "arn:aws:iam::123456789012:role/medialive";
                   DescribeChannelOutput.State := Some "IDLE";
                   DescribeChannelOutput.Tags := ∅ |},
           None), S w);
     client.DeleteChannel := fun req w => ((Some tt, None), S w) |}.

(** [CreateChannel] and [UpdateChannel] of that service, and a
    [CreateChannel] that rejects every request. *)
Definition CreateChannel
  : client.call nat CreateChannelInput.t CreateChannelOutput.t :=
  fun req w =>
    ((Some {| CreateChannelOutput.Channel :=
                Some {| Channel.Id := Some "7654321";
                        Channel.State := Some "CREATING" |} |},
      None), S w).

Definition CreateChannel_rejected
  : client.call nat CreateChannelInput.t CreateChannelOutput.t :=
  fun req w =>
    ((None,
      Some (AwsError "UnprocessableEntityException" "invalid request")),
     S w).

Definition UpdateChannel : client.call nat UpdateChannelInput.t unit :=
  fun req w => ((Some tt, None), S w).

(** An instance of the parameter [expandStringList]: a pointer for each
    non-empty string of the list. *)
Definition expandStringList (l : list value) : list (option string) :=
  omap (fun v =>
          match v with
          | VString s => if String.eqb s EmptyString then None else Some (Some s)
          | _ => None
          end) l.

(** An ["encoder_settings"] block with one HLS output group that has one
    output. *)
Definition encoder_settings : gmap string value :=
  {[ "audio_descriptions" := VList [];
     "caption_descriptions" := VList [];
     "output_groups" :=
       VList [VMap {[ "name" := VString "hls";
                      "output_group_settings" :=
                        VSet examples.output_group_settings;
                      "outputs" :=
                        VList [VMap {[ "video_description_name" :=
                                         VString "video_720p";
                                       "output_name" := VString "720p";
                                       "audio_description_names" :=
                                         VList [VString "audio_1"];
                                       "caption_description_names" := VList [];
                                       "output_settings" :=
                                         VSet examples.output_settings ]}] ]}];
     "timecode_config" := VSet [];
     "video_descriptions" := VList [];
     "feature_activations" := VSet [] ]}.

(** The resource data of a channel, as Terraform hands it to [Create], and
    the one of the channel once it exists. *)
Definition channel_config : schema.ResourceData :=
  {| schema.fields := channel_ops.Schema;
     schema.id := "";
     schema.attrs :=
       {[ "channel_class" := VString "SINGLE_PIPELINE";
          "name" := VString "news";
          "role_arn" := VString "arn:aws:iam::123456789012:role/medialive";
          "log_level" := VString "INFO";
          "destinations" := VList examples.channel_destinations;
          "encoder_settings" := VSet [VMap encoder_settings] ]} |}.

Definition channel_existing : schema.ResourceData :=
  schema.SetId channel_config "7654321".

(** The channel after [Read] on [channel_idle]. *)
Definition channel_described : schema.ResourceData :=
  {| schema.fields := channel_ops.Schema;
     schema.id := "7654321";
     schema.attrs :=
       <["tags" := VMap ∅]>
         (<["arn" :=
              VString "arn:aws:medialive:eu-west-1:123456789012:channel:7654321"]>
            (schema.attrs channel_config)) |}.

(** The request that the second revision sends for
    [examples.input_config_rev2], and the resource data after [Create] on
    the service [examples.creating]. *)
Definition request_rev2 : CreateInputInput.t :=
  {| CreateInputInput.Destinations :=
       [{| InputDestinationRequest.StreamName := Some "live" |}];
     CreateInputInput.InputSecurityGroups := [Some "1111111"; Some "2222222"];
     CreateInputInput.Name := Some "studio";
     CreateInputInput.RequestId := Some "6f1f6d0c-2f5c-4f0e-9a53-0c1d1b6f3a11";
     CreateInputInput.RoleArn := None;
     CreateInputInput.Tags := ∅;
     CreateInputInput.Type_ := Some "RTMP_PUSH" |}.

Definition input_created : schema.ResourceData :=
  {| schema.fields := input_rev2.Schema;
     schema.id := "1234567";
     schema.attrs :=
       <["tags" := VMap ∅]>
         (<["arn" :=
              VString "arn:aws:medialive:eu-west-1:123456789012:input:1234567"]>
            (<["destinations" :=
                 VList [VMap {[ "url" := VString "rtmp://10.0.0.1:1935/live";
                                "port" := VString "10.0.0.1";
                                "ip" := VString "1935";
                                "stream_name" := VString "live" ]}]]>
               (schema.attrs examples.input_config_rev2))) |}.

(** Instances of the parameters of [Update] of the input: a plan in which
    one attribute has changed, the change of an attribute from nothing to
    its configured value, and a tag update that succeeds. *)
Definition HasChange (changed : string) (d : schema.ResourceData)
  (key : string) : bool :=
  String.eqb key changed.

Definition GetChange (d : schema.ResourceData) (key : string)
  : option value * option value :=
  (None, schema.Get d key).

Definition MedialiveUpdateTags {World} (arn : string) (o n : option value)
  : op World (option error) :=
  fun w => Ret (None, w).

(** [UpdateInput] of a service on which the input is gone, of one that
    accepts the requests that name an input, and of one that accepts
    none. *)
Definition UpdateInput_gone : client.call nat UpdateInputInput.t unit :=
  fun req w =>
    ((None, Some (AwsError "NotFoundException" "input not found")), S w).

Definition UpdateInput_by_id : client.call nat UpdateInputInput.t unit :=
  fun req w =>
    match UpdateInputInput.InputId req with
    | Some _ => ((Some tt, None), S w)
    | None =>
        ((None, Some (AwsError "BadRequestException" "missing input id")),
         S w)
    end.

Definition UpdateInput_rejected : client.call nat UpdateInputInput.t unit :=
  fun req w =>
    ((None, Some (AwsError "BadRequestException" "missing input id")), S w).

(** The request of the second revision for [examples.existing] when the
    name has changed. *)
Definition update_request : UpdateInputInput.t :=
  {| UpdateInputInput.Destinations := [];
     UpdateInputInput.InputId := Some "1234567";
     UpdateInputInput.InputSecurityGroups := [];
     UpdateInputInput.Name := Some "studio" |}.

(** A channel whose encoder settings come from a state without the
    ["feature_activations"] block. *)
Definition channel_malformed : schema.ResourceData :=
  {| schema.fields := channel_ops.Schema;
     schema.id := "7654321";
     schema.attrs :=
       <["encoder_settings" :=
           VSet [VMap (delete "feature_activations" encoder_settings)]]>
         (schema.attrs channel_config) |}.

End scenarios.

(** * Properties *)

(** ** Go computations *)

Lemma bind_Ret {A B} (m : go A) (f : A -> go B) (b : B) :
  m ≫= f = Ret b -> exists a, m = Ret a /\ f a = Ret b.
Proof.
  destruct m as [a|p]; simpl.
  - intros H. exists a. split; [reflexivity | exact H].
  - discriminate.
Qed.

(** Inverts a hypothesis [x ← m; k = Ret r], as often as it applies. *)
Ltac go_inv H :=
  repeat
    (let a := fresh "v" in
     let E := fresh "E" in
     apply bind_Ret in H; destruct H as (a & E & H)).

Lemma for_range_Forall2 {A B C} (f : A -> go B) (g : C -> B)
  (l : list A) (cs : list C) :
  Forall2 (fun a c => f a = Ret (g c)) l cs ->
  for_range f l = Ret (g <$> cs).
Proof.
  induction 1 as [|a c l cs Hac _ IH]; simpl.
  - reflexivity.
  - rewrite Hac. simpl. rewrite IH. reflexivity.
Qed.

Lemma for_range_length {A B} (f : A -> go B) (l : list A) (r : list B) :
  for_range f l = Ret r -> length r = length l.
Proof.
  revert r. induction l as [|a l IH]; simpl; intros r H.
  - injection H as <-. reflexivity.
  - go_inv H. injection H as <-. simpl. f_equal. eauto.
Qed.

(** ** The ARN canonicaliser *)

Lemma slice_middle {A} (x : A) (mid : list A) (last : A) :
  slice (x :: mid ++ [last]) 1 (length (x :: mid ++ [last]) - 1) = mid.
Proof.
  unfold slice. simpl. rewrite length_app. simpl.
  replace (length mid + 1 - 0 - 1) with (length mid) by lia.
  rewrite drop_0. apply take_app_length.
Qed.

Lemma at_least_three {A} (l : list A) :
  3 <= length l ->
  exists x r mid last, l = x :: (r :: mid) ++ [last].
Proof.
  intros H. destruct l as [|x l]; [simpl in H; lia|].
  destruct l as [|r l] using rev_ind; [simpl in H; lia|].
  clear IHl. rename r into last.
  destruct l as [|r mid]; [simpl in H; lia|].
  exists x, r, mid, last. reflexivity.
Qed.

Lemma checkPartition_recognized (p : string) :
  token.checkPartition p = None <-> token.recognized_partition p.
Proof.
  unfold token.checkPartition, token.recognized_partition,
    token.AwsPartitionID, token.AwsCnPartitionID, token.AwsUsGovPartitionID.
  destruct (String.eqb_spec p "aws") as [->|H1]; [tauto|].
  destruct (String.eqb_spec p "aws-cn") as [->|H2]; [tauto|].
  destruct (String.eqb_spec p "aws-us-gov") as [->|H3]; [tauto|].
  split; [discriminate | tauto].
Qed.

(** C10. [Canonicalize] accepts exactly the ARNs that the documentation
    lists and returns what it says: within a recognized partition, the
    input itself for an IAM role, user or root and for an STS federated
    user, and the IAM role ARN, with the role path between the resource
    type and the session name, for an STS assumed role with at least three
    segments; every other input is answered with an error. *)
Theorem Canonicalize_spec (arn : string) :
  (forall out, token.Canonicalize arn = token.Ok out <-> token.canonical arn out)
  /\ ((forall out, ~ token.canonical arn out)
      <-> exists msg, token.Canonicalize arn = token.Err msg).
Proof.
  assert (Hiff : forall out,
            token.Canonicalize arn = token.Ok out <-> token.canonical arn out).
  { intros out. split.
    - unfold token.Canonicalize.
      destruct (token.Parse arn) as [a|e] eqn:HP; [|discriminate].
      destruct (token.checkPartition (token.Partition a)) eqn:HC; [discriminate|].
      apply checkPartition_recognized in HC.
      pose proof (eq_refl : token.segments a = token.segments a) as Hseg.
      unfold token.segments at 2 in Hseg.
      destruct (strings.Split (token.Resource a) "/") as [|ty rest] eqn:HS.
      { destruct (token.Resource a); simpl in HS;
          [discriminate | repeat case_match; discriminate]. }
      cbn [hd].
      destruct (String.eqb_spec (token.Service a) "sts") as [Hsts|Hsts].
      + destruct (String.eqb_spec ty "federated-user") as [->|Hfed].
        * intros [= <-]. eapply token.canonical_federated; eauto.
        * destruct (String.eqb_spec ty "assumed-role") as [->|Has];
            [|discriminate].
          destruct (Nat.ltb_spec (length ("assumed-role" :: rest)) 3)
            as [Hlt|Hge]; [discriminate|].
          destruct (at_least_three _ Hge) as (x & r & mid & last & Heq).
          rewrite Heq. rewrite slice_middle.
          injection Heq as <- ->.
          intros [= <-]. eapply token.canonical_assumed; eauto.
      + destruct (String.eqb_spec (token.Service a) "iam") as [Hiam|Hiam];
          [|discriminate].
        destruct (String.eqb_spec ty "role") as [->|Hr]; simpl.
        { intros [= <-]. eapply token.canonical_iam; eauto. }
        destruct (String.eqb_spec ty "user") as [->|Hu]; simpl.
        { intros [= <-]. eapply token.canonical_iam; eauto. }
        destruct (String.eqb_spec ty "root") as [->|Ho]; simpl; [|discriminate].
        intros [= <-]. eapply token.canonical_iam; eauto.
    - intros H. unfold token.Canonicalize.
      destruct H as [a ty rest HP HR Hsvc Hseg Hty
                    |a rest HP HR Hsvc Hseg
                    |a r rolepath session HP HR Hsvc Hseg];
        rewrite HP; apply checkPartition_recognized in HR; rewrite HR;
        unfold token.segments in Hseg; rewrite Hseg, Hsvc; cbn [hd].
      + destruct Hty as [->| [->| ->]]; reflexivity.
      + reflexivity.
      + change (String.eqb "sts" "sts") with true. cbv iota.
        change (String.eqb "assumed-role" "federated-user") with false.
        change (String.eqb "assumed-role" "assumed-role") with true. cbv iota.
        destruct (Nat.ltb_spec
                    (length ("assumed-role" :: (r :: rolepath) ++ [session])) 3)
          as [Hlt|Hge].
        { simpl in Hlt. rewrite length_app in Hlt. simpl in Hlt. lia. }
        rewrite slice_middle. reflexivity. }
  split; [exact Hiff|]. split.
  - intros Hnone. destruct (token.Canonicalize arn) as [out|msg] eqn:E.
    + exfalso. apply (Hnone out), Hiff. reflexivity.
    + exists msg. reflexivity.
  - intros [msg E] out Hc. apply Hiff in Hc. congruence.
Qed.

(** The assumed role of the documentation of [Canonicalize]. *)
Lemma Canonicalize_spec_witness :
  token.canonical
    "arn:aws:sts::123456789012:assumed-role/Accounting-Role/Mary"
    "arn:aws:iam::123456789012:role/Accounting-Role".
Proof.
  apply (proj1 (Canonicalize_spec _)). reflexivity.
Defined.

Example Canonicalize_assumed_role_with_path :
  token.Canonicalize "arn:aws-cn:sts::123456789012:assumed-role/a/b/Role/Mary"
  = token.Ok "arn:aws-cn:iam::123456789012:role/a/b/Role".
Proof. reflexivity. Qed.

Example Canonicalize_iam_user :
  token.Canonicalize "arn:aws:iam::123456789012:user/Bob"
  = token.Ok "arn:aws:iam::123456789012:user/Bob".
Proof. reflexivity. Qed.

Example Canonicalize_assumed_role_without_session :
  token.Canonicalize "arn:aws:sts::123456789012:assumed-role/Role"
  = token.Err
      "assumed-role arn 'arn:aws:sts::123456789012:assumed-role/Role' does not have a role".
Proof. reflexivity. Qed.

Example Canonicalize_unknown_partition :
  token.Canonicalize "arn:aws-iso:iam::123456789012:root"
  = token.Err
      "arn 'arn:aws-iso:iam::123456789012:root' does not have a recognized partition".
Proof. reflexivity. Qed.

Example Canonicalize_other_service :
  token.Canonicalize "arn:aws:s3:::bucket/key"
  = token.Err
      "service s3 in arn arn:aws:s3:::bucket/key is not a valid service for identities".
Proof. reflexivity. Qed.

Example Canonicalize_too_few_sections :
  token.Canonicalize "arn:aws:iam::123456789012"
  = token.Err
      "arn 'arn:aws:iam::123456789012' is invalid: 'arn: not enough sections'".
Proof. reflexivity. Qed.

(** ** The channel destinations *)

Lemma expandOutputDestinationSettings_spec
  (vs : list value) (cs : list spec.Settings) :
  Forall2 spec.settings_entry vs cs ->
  channel_structure.expandOutputDestinationSettings vs
  = Ret (spec.translate_settings <$> cs).
Proof.
  intros H. unfold channel_structure.expandOutputDestinationSettings.
  destruct H as [|v c vs cs Hvc Hrest]; [reflexivity|].
  cbn [length Nat.eqb].
  apply (for_range_Forall2 _ spec.translate_settings).
  constructor.
  - destruct Hvc as (r & -> & Hp & Hs & Hu & Hn).
    simpl. unfold get_string. rewrite Hp, Hs, Hu, Hn. reflexivity.
  - eapply Forall2_impl; [exact Hrest|].
    intros v' c' (r & -> & Hp & Hs & Hu & Hn).
    simpl. unfold get_string. rewrite Hp, Hs, Hu, Hn. reflexivity.
Qed.

Lemma expandDestinations_entry (v : value) (c : spec.Destination) :
  spec.destination_entry v c ->
  (r ← assert_map (Some v);
   id ← get_string r "id";
   settings_list ← get_list r "settings";
   settings ← channel_structure.expandOutputDestinationSettings settings_list;
   Ret {| medialive.OutputDestination.Id := aws.String id;
          medialive.OutputDestination.Settings := settings |})
  = Ret (spec.translate c).
Proof.
  intros (r & vs & -> & Hid & Hset & Hvs).
  simpl. unfold get_string, get_list. rewrite Hid, Hset. simpl.
  rewrite (expandOutputDestinationSettings_spec _ _ Hvs). reflexivity.
Qed.

(** C7. For a channel ["destinations"] list, [expandDestinations]
    (lines 50-66, with [expandOutputDestinationSettings] of lines 68-86)
    returns nil for the empty list, and otherwise a list of the same length
    whose i-th element has the id of the i-th destination and, as its
    settings, the translation of each of the settings of that destination,
    with its password parameter, stream name, URL and user name. *)
Theorem expandDestinations_spec
  (destinations : list value) (cs : list spec.Destination) :
  Forall2 spec.destination_entry destinations cs ->
  channel_structure.expandDestinations destinations
  = Ret (spec.translate <$> cs)
  /\ (destinations = [] ->
      channel_structure.expandDestinations destinations = Ret [])
  /\ (forall result,
        channel_structure.expandDestinations destinations = Ret result ->
        length result = length destinations
        /\ forall i c, cs !! i = Some c ->
             exists o, result !! i = Some o
               /\ medialive.OutputDestination.Id o = Some (spec.id c)
               /\ medialive.OutputDestination.Settings o
                  = spec.translate_settings <$> spec.settings c).
Proof.
  intros H.
  assert (Hmain : channel_structure.expandDestinations destinations
                  = Ret (spec.translate <$> cs)).
  { unfold channel_structure.expandDestinations.
    destruct H as [|v c vs cs' Hvc Hrest]; [reflexivity|].
    cbn [length Nat.eqb].
    apply (for_range_Forall2 _ spec.translate).
    constructor.
    - apply expandDestinations_entry, Hvc.
    - eapply Forall2_impl; [exact Hrest|].
      intros v' c'. apply expandDestinations_entry. }
  split; [exact Hmain|]. split.
  - intros ->. reflexivity.
  - intros result Hres. rewrite Hmain in Hres. injection Hres as <-.
    split.
    + rewrite length_fmap. symmetry. eapply Forall2_length, H.
    + intros i c Hi. exists (spec.translate c). split.
      * rewrite list_lookup_fmap, Hi. reflexivity.
      * split; reflexivity.
Qed.

(** A destination with two settings, one per pipeline. *)
Lemma expandDestinations_spec_witness :
  channel_structure.expandDestinations examples.channel_destinations
  = Ret [spec.translate
           (spec.mkDestination "destination1"
              [spec.mkSettings "" "" "s3://bucket/a/main" "";
               spec.mkSettings "" "" "s3://bucket/b/main" ""])].
Proof.
  apply (expandDestinations_spec examples.channel_destinations
           [spec.mkDestination "destination1"
              [spec.mkSettings "" "" "s3://bucket/a/main" "";
               spec.mkSettings "" "" "s3://bucket/b/main" ""]]).
  repeat constructor.
  eexists _, _. split; [reflexivity|].
  split; [reflexivity|]. split; [reflexivity|].
  repeat constructor; (eexists; split; [reflexivity|]);
    repeat split; reflexivity.
Defined.

(** ** The H264 settings *)

Lemma nonempty_length {A} (l : list A) : l <> [] -> (0 <? length l)%nat = true.
Proof. destruct l; [congruence | reflexivity]. Qed.

(** In the first revision the frame rate fields follow ["framerate_control"]:
    the control string is copied, and the numerator and the denominator are
    set exactly when it is [SPECIFIED]. *)
Lemma expandH264Settings_framerate (s : list value)
  (r : option medialive.H264Settings.t) :
  s <> [] ->
  channel_structure.expandH264Settings s = Ret r ->
  exists h raw fc,
    r = Some h
    /\ first_map s = Ret raw
    /\ get_string raw "framerate_control" = Ret fc
    /\ medialive.H264Settings.FramerateControl h = Some fc
    /\ (fc = "SPECIFIED" ->
        (exists n, get_int raw "framerate_numerator" = Ret n
           /\ medialive.H264Settings.FramerateNumerator h = Some n)
        /\ (exists n, get_int raw "framerate_denominator" = Ret n
              /\ medialive.H264Settings.FramerateDenominator h = Some n))
    /\ (fc <> "SPECIFIED" ->
        medialive.H264Settings.FramerateNumerator h = None
        /\ medialive.H264Settings.FramerateDenominator h = None).
Proof.
  intros Hs H. unfold channel_structure.expandH264Settings in H.
  rewrite (nonempty_length _ Hs) in H.
  apply bind_Ret in H. destruct H as (raw & Hraw & H).
  do 26 (apply bind_Ret in H; destruct H as (? & _ & H)).
  cbv zeta in H.
  apply bind_Ret in H. destruct H as (fc & Hfc & H).
  destruct (String.eqb_spec fc "SPECIFIED") as [Heq|Hne].
  - apply bind_Ret in H. destruct H as (den & Hden & H).
    apply bind_Ret in H. destruct H as (num & Hnum & H).
    injection H as <-.
    eexists _, raw, fc. split; [reflexivity|].
    split; [exact Hraw|]. split; [exact Hfc|]. split; [reflexivity|].
    split; [|congruence].
    intros _. split; [exists num | exists den]; split; auto.
  - injection H as <-.
    eexists _, raw, fc. split; [reflexivity|].
    split; [exact Hraw|]. split; [exact Hfc|]. split; [reflexivity|].
    split; [congruence|]. intros _. split; reflexivity.
Qed.

(** In the second revision the numerator and the denominator are set
    whenever the function returns for a non-empty set. *)
Lemma expandH264Settings_rev2_framerate (s : list value)
  (r : option medialive.H264Settings.t) :
  s <> [] ->
  channel_structure_rev2.expandH264Settings s = Ret r ->
  exists h,
    r = Some h
    /\ is_Some (medialive.H264Settings.FramerateNumerator h)
    /\ is_Some (medialive.H264Settings.FramerateDenominator h).
Proof.
  intros Hs H. unfold channel_structure_rev2.expandH264Settings in H.
  rewrite (nonempty_length _ Hs) in H.
  do 30 (apply bind_Ret in H; destruct H as (? & _ & H)).
  injection H as <-.
  eexists. split; [reflexivity|]. split; eexists; reflexivity.
Qed.

(** C5. The revision of [expandH264Settings] at lines 1175-1213 copies
    ["framerate_control"] but sets the numerator and the denominator of the
    frame rate whatever the control string is: for a block that leaves the
    frame rate to the source both fields are set, where the revision at
    lines 598-641 leaves them nil. *)
Theorem expandH264Settings_rev2_from_source :
  exists h1 h2,
    channel_structure.expandH264Settings [VMap examples.h264_from_source]
    = Ret (Some h1)
    /\ channel_structure_rev2.expandH264Settings
         [VMap examples.h264_from_source]
       = Ret (Some h2)
    /\ medialive.H264Settings.FramerateControl h1
       = Some "INITIALIZE_FROM_SOURCE"
    /\ medialive.H264Settings.FramerateNumerator h1 = None
    /\ medialive.H264Settings.FramerateDenominator h1 = None
    /\ medialive.H264Settings.FramerateControl h2
       = Some "INITIALIZE_FROM_SOURCE"
    /\ medialive.H264Settings.FramerateNumerator h2 = Some 0%Z
    /\ medialive.H264Settings.FramerateDenominator h2 = Some 0%Z.
Proof.
  eexists _, _.
  split; [vm_compute; reflexivity|].
  split; [vm_compute; reflexivity|].
  repeat split.
Qed.

Example expandH264Settings_specified :
  exists h,
    channel_structure.expandH264Settings [VMap examples.h264_specified]
    = Ret (Some h)
    /\ medialive.H264Settings.FramerateNumerator h = Some 30000%Z
    /\ medialive.H264Settings.FramerateDenominator h = Some 1001%Z.
Proof. eexists. split; [vm_compute; reflexivity|]. split; reflexivity. Qed.

(** ** The output group settings and the output settings *)

Lemma length_zero_nil {A} (l : list A) : (0 <? length l)%nat = false -> l = [].
Proof. destruct l; [reflexivity | discriminate]. Qed.

(** A non-empty ["hls_group_settings"] set expands to a struct whose [Mode]
    is set. *)
Lemma expandHlsGroupSettings_nonempty (hs : list value)
  (r : option medialive.HlsGroupSettings.t) :
  hs <> [] ->
  channel_structure.expandHlsGroupSettings hs = Ret r ->
  exists h, r = Some h /\ is_Some (medialive.HlsGroupSettings.Mode h).
Proof.
  intros Hs H. unfold channel_structure.expandHlsGroupSettings in H.
  rewrite (nonempty_length _ Hs) in H.
  go_inv H. injection H as <-.
  eexists. split; [reflexivity|]. eexists. reflexivity.
Qed.

Lemma expandRtmpGroupSettings_nonempty (rs : list value)
  (r : option medialive.RtmpGroupSettings.t) :
  rs <> [] ->
  channel_structure.expandRtmpGroupSettings rs = Ret r ->
  exists h,
    r = Some h
    /\ is_Some (medialive.RtmpGroupSettings.AuthenticationScheme h).
Proof.
  intros Hs H. unfold channel_structure.expandRtmpGroupSettings in H.
  rewrite (nonempty_length _ Hs) in H.
  go_inv H. injection H as <-.
  eexists. split; [reflexivity|]. eexists. reflexivity.
Qed.

Lemma expandHlsOutputSettings_nonempty (hs : list value)
  (r : option medialive.HlsOutputSettings.t) :
  hs <> [] ->
  channel_structure.expandHlsOutputSettings hs = Ret r ->
  exists h, r = Some h /\ medialive.HlsOutputSettings.is_zero h = false.
Proof.
  intros Hs H. unfold channel_structure.expandHlsOutputSettings in H.
  rewrite (nonempty_length _ Hs) in H.
  go_inv H. injection H as <-.
  eexists. split; [reflexivity|]. simpl. destruct v1; reflexivity.
Qed.

Lemma expandRtmpOutputSettings_nonempty (rs : list value)
  (r : option medialive.RtmpOutputSettings.t) :
  rs <> [] ->
  channel_structure.expandRtmpOutputSettings rs = Ret r ->
  exists h, r = Some h /\ medialive.RtmpOutputSettings.is_zero h = false.
Proof.
  intros Hs H. unfold channel_structure.expandRtmpOutputSettings in H.
  rewrite (nonempty_length _ Hs) in H.
  go_inv H. injection H as <-.
  eexists. split; [reflexivity|]. reflexivity.
Qed.

(** C6. The struct that [expandOutputGroupSettings] (lines 188-213)
    returns holds HLS group settings only if their [Mode] is set, which is
    the case only if the ["hls_group_settings"] set is not empty, and RTMP
    group settings only if their [AuthenticationScheme] is set, which is the
    case only if the ["rtmp_group_settings"] set is not empty: it never
    holds an empty HLS or RTMP struct. [expandOutputSettings] (lines 242-265) does the same for
    the HLS and the RTMP output settings, which it compares with the empty
    struct. *)
Theorem expandOutputGroupSettings_no_empty_struct :
  (forall s r,
     channel_structure.expandOutputGroupSettings s = Ret r ->
     exists ogs,
       r = Some ogs
       /\ (forall h,
             medialive.OutputGroupSettings.HlsGroupSettings ogs = Some h ->
             is_Some (medialive.HlsGroupSettings.Mode h)
             /\ h <> medialive.HlsGroupSettings.zero
             /\ exists settings hs,
                  first_map s = Ret settings
                  /\ get_set settings "hls_group_settings" = Ret hs
                  /\ hs <> []
                  /\ channel_structure.expandHlsGroupSettings hs
                     = Ret (Some h))
       /\ (forall h,
             medialive.OutputGroupSettings.RtmpGroupSettings ogs = Some h ->
             is_Some (medialive.RtmpGroupSettings.AuthenticationScheme h)
             /\ h <> medialive.RtmpGroupSettings.zero
             /\ exists settings rs,
                  first_map s = Ret settings
                  /\ get_set settings "rtmp_group_settings" = Ret rs
                  /\ rs <> []
                  /\ channel_structure.expandRtmpGroupSettings rs
                     = Ret (Some h)))
  /\ (forall s r,
        channel_structure.expandOutputSettings s = Ret r ->
        exists os,
          r = Some os
          /\ (forall h,
                medialive.OutputSettings.HlsOutputSettings os = Some h ->
                h <> medialive.HlsOutputSettings.zero
                /\ exists settings hs,
                     first_map s = Ret settings
                     /\ get_set settings "hls_output_settings" = Ret hs
                     /\ hs <> []
                     /\ channel_structure.expandHlsOutputSettings hs
                        = Ret (Some h))
          /\ (forall h,
                medialive.OutputSettings.RtmpOutputSettings os = Some h ->
                h <> medialive.RtmpOutputSettings.zero
                /\ exists settings rs,
                     first_map s = Ret settings
                     /\ get_set settings "rtmp_output_settings" = Ret rs
                     /\ rs <> []
                     /\ channel_structure.expandRtmpOutputSettings rs
                        = Ret (Some h))).
Proof.
  split.
  - intros s r H. unfold channel_structure.expandOutputGroupSettings in H.
    destruct (0 <? length s)%nat eqn:Hlen.
    2:{ injection H as <-. eexists. split; [reflexivity|].
        split; intros h Hh; discriminate. }
    apply bind_Ret in H. destruct H as (settings & Hfirst & H).
    apply bind_Ret in H. destruct H as (hs & Hhs & H).
    apply bind_Ret in H. destruct H as (hlsp & Hhls & H).
    apply bind_Ret in H. destruct H as (rs & Hrs & H).
    apply bind_Ret in H. destruct H as (rtmpp & Hrtmp & H).
    apply bind_Ret in H. destruct H as (hls & Hdh & H).
    apply bind_Ret in H. destruct H as (rtmp & Hdr & H).
    injection H as <-.
    destruct hlsp as [hls'|]; [|discriminate]. injection Hdh as ->.
    destruct rtmpp as [rtmp'|]; [|discriminate]. injection Hdr as ->.
    eexists. split; [reflexivity|]. cbn [medialive.OutputGroupSettings.HlsGroupSettings
      medialive.OutputGroupSettings.RtmpGroupSettings].
    split.
    + intros h Hh.
      destruct (medialive.HlsGroupSettings.Mode hls) as [m|] eqn:Hm;
        [|discriminate].
      injection Hh as <-.
      split; [rewrite Hm; eexists; reflexivity|].
      split; [intros ->; discriminate|].
      exists settings, hs. repeat split; auto.
      intros ->. simpl in Hhls. injection Hhls as <-. discriminate.
    + intros h Hh.
      destruct (medialive.RtmpGroupSettings.AuthenticationScheme rtmp)
        as [m|] eqn:Hm; [|discriminate].
      injection Hh as <-.
      split; [rewrite Hm; eexists; reflexivity|].
      split; [intros ->; discriminate|].
      exists settings, rs. repeat split; auto.
      intros ->. simpl in Hrtmp. injection Hrtmp as <-. discriminate.
  - intros s r H. unfold channel_structure.expandOutputSettings in H.
    destruct (0 <? length s)%nat eqn:Hlen.
    2:{ injection H as <-. eexists. split; [reflexivity|].
        split; intros h Hh; discriminate. }
    apply bind_Ret in H. destruct H as (settings & Hfirst & H).
    apply bind_Ret in H. destruct H as (hs & Hhs & H).
    apply bind_Ret in H. destruct H as (hlsp & Hhls & H).
    apply bind_Ret in H. destruct H as (rs & Hrs & H).
    apply bind_Ret in H. destruct H as (rtmpp & Hrtmp & H).
    apply bind_Ret in H. destruct H as (hls & Hdh & H).
    apply bind_Ret in H. destruct H as (rtmp & Hdr & H).
    injection H as <-.
    destruct hlsp as [hls'|]; [|discriminate]. injection Hdh as ->.
    destruct rtmpp as [rtmp'|]; [|discriminate]. injection Hdr as ->.
    eexists. split; [reflexivity|]. cbn [medialive.OutputSettings.HlsOutputSettings
      medialive.OutputSettings.RtmpOutputSettings].
    split.
    + intros h Hh.
      destruct (medialive.HlsOutputSettings.is_zero hls) eqn:Hz;
        [discriminate|].
      injection Hh as <-.
      split; [intros ->; discriminate|].
      exists settings, hs. repeat split; auto.
      intros ->. simpl in Hhls. injection Hhls as <-. discriminate.
    + intros h Hh.
      destruct (medialive.RtmpOutputSettings.is_zero rtmp) eqn:Hz;
        [discriminate|].
      injection Hh as <-.
      split; [intros ->; discriminate|].
      exists settings, rs. repeat split; auto.
      intros ->. simpl in Hrtmp. injection Hrtmp as <-. discriminate.
Qed.

(** Conversely, the settings of a non-empty set are attached. *)
Lemma expandOutputGroupSettings_attaches (s : list value)
  (r : option medialive.OutputGroupSettings.t)
  (settings : gmap string value) (hs : list value) :
  first_map s = Ret settings ->
  get_set settings "hls_group_settings" = Ret hs ->
  hs <> [] ->
  channel_structure.expandOutputGroupSettings s = Ret r ->
  exists ogs h,
    r = Some ogs
    /\ medialive.OutputGroupSettings.HlsGroupSettings ogs = Some h
    /\ channel_structure.expandHlsGroupSettings hs = Ret (Some h).
Proof.
  intros Hfirst Hset Hne H.
  unfold channel_structure.expandOutputGroupSettings in H.
  destruct (0 <? length s)%nat eqn:Hlen.
  2:{ apply length_zero_nil in Hlen. subst s. discriminate. }
  rewrite Hfirst in H. simpl in H. rewrite Hset in H. simpl in H.
  apply bind_Ret in H. destruct H as (hlsp & Hhls & H).
  destruct (expandHlsGroupSettings_nonempty _ _ Hne Hhls) as (h & -> & m & Hm).
  go_inv H. injection H as <-. injection E1 as <-.
  eexists _, h. split; [reflexivity|]. simpl. rewrite Hm. auto.
Qed.

(** An output group with an HLS group and no RTMP group: the HLS group
    settings are attached, and the RTMP ones are not. *)
Lemma expandOutputGroupSettings_no_empty_struct_witness :
  exists ogs h,
    channel_structure.expandOutputGroupSettings examples.output_group_settings
    = Ret (Some ogs)
    /\ medialive.OutputGroupSettings.HlsGroupSettings ogs = Some h
    /\ medialive.OutputGroupSettings.RtmpGroupSettings ogs = None
    /\ is_Some (medialive.HlsGroupSettings.Mode h)
    /\ h <> medialive.HlsGroupSettings.zero.
Proof.
  edestruct (proj1 expandOutputGroupSettings_no_empty_struct
               examples.output_group_settings)
    as (ogs & Hogs & Hhls & _); [vm_compute; reflexivity|].
  injection Hogs as <-.
  eexists _, _. split; [vm_compute; reflexivity|].
  split; [reflexivity|]. split; [reflexivity|].
  split; apply (Hhls _ eq_refl).
Defined.

Example expandOutputSettings_hls_only :
  exists os h,
    channel_structure.expandOutputSettings examples.output_settings
    = Ret (Some os)
    /\ medialive.OutputSettings.HlsOutputSettings os = Some h
    /\ medialive.OutputSettings.RtmpOutputSettings os = None
    /\ medialive.HlsOutputSettings.NameModifier h = Some "_720p".
Proof. eexists _, _. split; [vm_compute; reflexivity|]. repeat split. Qed.

(** ** The input destinations *)

(** Whatever the parser, when [flattenInputDestinations] returns, it
    returns one map per destination, with the URL of the destination under
    ["url"], its [Ip] field under ["port"] and its [Port] field under
    ["ip"]. *)
Lemma flattenInputDestinations_entries
  (url_Parse : string -> url.URL + error)
  (inputDestinations : list (option medialive.InputDestination.t))
  (result : list (gmap string value)) :
  input_rev2.flattenInputDestinations url_Parse inputDestinations
  = Ret result ->
  Forall2
    (fun destination (m : gmap string value) =>
       exists d,
         destination = Some d
         /\ m !! "url"
            = Some (VString (aws.StringValue (medialive.InputDestination.Url d)))
         /\ m !! "port"
            = Some (VString (aws.StringValue (medialive.InputDestination.Ip d)))
         /\ m !! "ip"
            = Some (VString (aws.StringValue (medialive.InputDestination.Port d)))
         /\ exists name,
              input_rev2.obtainStreamName url_Parse
                (medialive.InputDestination.Url d) = Ret name
              /\ m !! "stream_name" = Some (VString name))
    inputDestinations result.
Proof.
  unfold input_rev2.flattenInputDestinations.
  revert result. induction inputDestinations as [|x l IH]; intros result H.
  - injection H as <-. constructor.
  - cbn [for_range] in H.
    apply bind_Ret in H. destruct H as (m & Hm & H).
    apply bind_Ret in H. destruct H as (ms & Hms & H).
    injection H as <-. constructor; [|apply IH, Hms].
    apply bind_Ret in Hm. destruct Hm as (d & Hd & Hm).
    apply bind_Ret in Hm. destruct Hm as (name & Hname & Hm).
    injection Hm as <-.
    destruct x as [d'|]; [|discriminate]. injection Hd as ->.
    exists d. split; [reflexivity|].
    split; [reflexivity|]. split; [reflexivity|]. split; [reflexivity|].
    exists name. split; [exact Hname | reflexivity].
Qed.

Lemma flattenInputDestinations_length
  (url_Parse : string -> url.URL + error)
  (inputDestinations : list (option medialive.InputDestination.t))
  (result : list (gmap string value)) :
  input_rev2.flattenInputDestinations url_Parse inputDestinations
  = Ret result ->
  length result = length inputDestinations.
Proof. apply for_range_length. Qed.

(** C1. [flattenInputDestinations] stores the [Ip] field of a destination
    under ["port"] and its [Port] field under ["ip"]: for the destination
    10.0.0.1, port 1935, the map has ["ip"] 1935 and ["port"] 10.0.0.1, and
    these are the values that [Read] writes to ["destinations"]. The URL
    and the stream name are the ones of the destination. *)
Theorem flattenInputDestinations_swaps_ip_and_port :
  let flattened : gmap string value :=
    {[ "url" := VString "rtmp://10.0.0.1:1935/live";
       "port" := VString "10.0.0.1";
       "ip" := VString "1935";
       "stream_name" := VString "live" ]} in
  medialive.InputDestination.Ip examples.rtmp_destination = Some "10.0.0.1"
  /\ medialive.InputDestination.Port examples.rtmp_destination = Some "1935"
  /\ input_rev2.flattenInputDestinations examples.url_Parse
       [Some examples.rtmp_destination]
     = Ret [flattened]
  /\ flattened !! "ip" = Some (VString "1935")
  /\ flattened !! "port" = Some (VString "10.0.0.1")
  /\ forall isAWSErr TagsMap,
       input_rev2.resourceAwsMediaLiveInputRead isAWSErr TagsMap
         examples.url_Parse examples.creating (examples.existing, [])
       = Ret (None,
              ({| schema.fields := input_rev2.Schema;
                  schema.id := "1234567";
                  schema.attrs :=
                    {[ "destinations" := VList [VMap flattened];
                       "arn" :=
                         VString
                           "arn:aws:medialive:eu-west-1:123456789012:input:1234567";
                       "name" := VString "studio";
                       "tags" := VMap (VString <$> TagsMap ∅) ]} |},
               [])).
Proof.
  intros flattened.
  split; [reflexivity|]. split; [reflexivity|].
  split; [vm_compute; reflexivity|].
  split; [reflexivity|]. split; [reflexivity|].
  intros isAWSErr TagsMap. vm_compute. reflexivity.
Qed.

(** An URL that parses to an empty path makes [obtainStreamName] panic,
    whatever the parser. *)
Lemma obtainStreamName_empty_path
  (url_Parse : string -> url.URL + error) (s : string) (u : url.URL) :
  url_Parse s = inl u ->
  url.Path u = "" ->
  input_rev2.obtainStreamName url_Parse (Some s) = Panic SliceBounds.
Proof.
  intros HP Hpath. unfold input_rev2.obtainStreamName. simpl.
  rewrite HP, Hpath. reflexivity.
Qed.

(** C8. [obtainStreamName] is not total: it panics on a nil pointer, which
    it dereferences, and on an URL whose path is empty, such as the empty
    string and [rtmp://host], where it slices the path from index 1; a
    destination without an URL makes [flattenInputDestinations] panic. An
    URL with a path gives the path without its leading slash. *)
Theorem obtainStreamName_panics :
  (forall url_Parse,
     input_rev2.obtainStreamName url_Parse None = Panic NilDereference)
  /\ input_rev2.obtainStreamName examples.url_Parse (Some "")
     = Panic SliceBounds
  /\ input_rev2.obtainStreamName examples.url_Parse (Some "rtmp://host")
     = Panic SliceBounds
  /\ (forall url_Parse,
        input_rev2.flattenInputDestinations url_Parse
          [Some {| medialive.InputDestination.Ip := Some "10.0.0.1";
                   medialive.InputDestination.Port := Some "5000";
                   medialive.InputDestination.Url := None |}]
        = Panic NilDereference)
  /\ input_rev2.obtainStreamName examples.url_Parse
       (Some "rtmp://10.0.0.1:1935/live")
     = Ret "live".
Proof.
  split; [reflexivity|].
  split; [reflexivity|].
  split; [reflexivity|].
  split; [reflexivity|].
  reflexivity.
Qed.

(** ** The input security groups *)

(** C2. The revision of [resourceAwsMediaLiveInputCreate] at lines 90-126
    converts the configured security groups and drops the result: for a
    configuration with two groups, the request that reaches [CreateInput]
    has no security group. *)
Theorem resourceAwsMediaLiveInputCreate_rev1_drops_security_groups :
  forall isAWSErr MedialiveTags TagsMap,
    schema.GetOk examples.input_config "input_security_groups"
    = (Some (VList [VString "1111111"; VString "2222222"]), true)
    /\ input_rev1.resourceAwsMediaLiveInputCreate_input MedialiveTags
         (examples.input_config, ([] : list medialive.CreateInputInput.t))
       = Ret (examples.request_rev1, (examples.input_config, []))
    /\ input_rev1.resourceAwsMediaLiveInputCreate isAWSErr MedialiveTags
         TagsMap examples.creating (examples.input_config, [])
       = Ret (None, (examples.created_rev1 TagsMap, [examples.request_rev1]))
    /\ medialive.CreateInputInput.InputSecurityGroups examples.request_rev1
       = [].
Proof.
  intros isAWSErr MedialiveTags TagsMap.
  split; [vm_compute; reflexivity|].
  split; [vm_compute; reflexivity|].
  split; [vm_compute; reflexivity|].
  reflexivity.
Qed.

(** ** The waiters *)

(** C3. The revision of [resourceAwsMediaLiveInputCreate] at lines 90-126
    calls no waiter: on a service that accepts the request and keeps
    reporting the state [CREATING], it returns without an error, while the
    state of the input is in the pending set of the waiter that the revision
    at lines 362-417 configures. *)
Theorem resourceAwsMediaLiveInputCreate_rev1_does_not_wait :
  forall isAWSErr MedialiveTags TagsMap,
    input_rev1.resourceAwsMediaLiveInputCreate isAWSErr MedialiveTags
      TagsMap examples.creating (examples.input_config, [])
    = Ret (None, (examples.created_rev1 TagsMap, [examples.request_rev1]))
    /\ (exists out,
          client.DescribeInput examples.creating
            {| medialive.DescribeInputInput.InputId :=
                 Some (schema.Id (examples.created_rev1 TagsMap)) |}
            [examples.request_rev1]
          = ((Some out, None), [examples.request_rev1])
          /\ medialive.DescribeInputOutput.State out = Some "CREATING")
    /\ "CREATING"
       ∈ resource.Pending
           (input_rev2.resourceAwsMediaLiveInputCreate_createStateConf
              examples.creating
              (schema.Id (examples.created_rev1 TagsMap))
              (schema.Timeout (examples.created_rev1 TagsMap))).
Proof.
  intros isAWSErr MedialiveTags TagsMap.
  split; [vm_compute; reflexivity|].
  split.
  - eexists. split; reflexivity.
  - simpl. apply list_elem_of_singleton. reflexivity.
Qed.

(** C4. The waiter that the revision of [waitForMediaLiveInputDeletion] at
    lines 231-253 configures lists the state [DELETED] both as pending and
    as target: its two sets are not disjoint. *)
Theorem waitForMediaLiveInputDeletion_rev1_not_disjoint :
  forall (World : Type) isAWSErr (conn : client.MediaLive World) inputId,
    let conf :=
      input_rev1.waitForMediaLiveInputDeletion_stateConf isAWSErr conn
        inputId in
    "DELETED" ∈ resource.Pending conf
    /\ "DELETED" ∈ resource.Target conf
    /\ ~ spec.disjoint_states (resource.Pending conf) (resource.Target conf).
Proof.
  intros World isAWSErr conn inputId conf.
  assert (HP : "DELETED" ∈ resource.Pending conf).
  { simpl. rewrite !elem_of_cons. auto. }
  assert (HT : "DELETED" ∈ resource.Target conf).
  { simpl. rewrite elem_of_cons. auto. }
  split; [exact HP|]. split; [exact HT|].
  intros Hdis. exact (Hdis _ HP HT).
Qed.

(** The other waiters keep the pending states and the target states
    apart. *)
Lemma waiters_disjoint (World : Type) isAWSErr (conn : client.MediaLive World)
  (id : string) (timeout : Z) :
  let disjoint (conf : resource.StateChangeConf World) :=
    spec.disjoint_states (resource.Pending conf) (resource.Target conf) in
  disjoint (input_rev2.waitForMediaLiveInputDeletion_stateConf isAWSErr conn id)
  /\ disjoint
       (input_rev2.resourceAwsMediaLiveInputCreate_createStateConf conn id
          timeout)
  /\ disjoint (channel.waitForMediaLiveChannelDeletion_stateConf isAWSErr conn id)
  /\ disjoint
       (channel.resourceAwsMediaLiveChannelCreate_createStateConf conn id
          timeout)
  /\ disjoint
       (channel.resourceAwsMediaLiveChannelUpdate_updateStateConf conn id
          timeout).
Proof.
  unfold spec.disjoint_states. simpl.
  repeat split; intros s HP HT;
    repeat (apply elem_of_cons in HP as [->|HP]);
    try (apply elem_of_nil in HP; contradiction);
    repeat (apply elem_of_cons in HT as [HT|HT]; [discriminate|]);
    apply elem_of_nil in HT; contradiction.
Qed.

(** ** Deleting a resource that is already gone *)

Section delete_absent.
Context {World : Type}.
Variable isAWSErr : option error -> string -> string -> bool.
Variable WaitForState :
  resource.StateChangeConf World -> op World (option error).
Variable conn : client.MediaLive World.
Variable mp : client.MediaPackage World.

(** C9. When the delete call of the service reports [NotFoundException],
    the [Delete] operation of the MediaLive input, of the MediaLive channel
    and of the MediaPackage origin endpoint returns nil; so do the first two
    when the call succeeds and the deletion waiter reports
    [NotFoundException]. On these paths the resource data is left as it
    was, and the service is in the state the calls left it in. *)
Theorem delete_absent_is_success (d : schema.ResourceData) (w : World) :
  (forall out e w1,
     client.DeleteInput conn
       {| medialive.DeleteInputInput.InputId := Some (schema.Id d) |} w
     = ((out, Some e), w1) ->
     isAWSErr (Some e) medialive.ErrCodeNotFoundException "" = true ->
     input_rev2.resourceAwsMediaLiveInputDelete isAWSErr WaitForState conn
       (d, w)
     = Ret (None, (d, w1))
     /\ input_rev1.resourceAwsMediaLiveInputDelete isAWSErr WaitForState conn
          (d, w)
        = Ret (None, (d, w1)))
  /\ (forall out w1 e w2,
        client.DeleteInput conn
          {| medialive.DeleteInputInput.InputId := Some (schema.Id d) |} w
        = ((out, None), w1) ->
        WaitForState
          (input_rev2.waitForMediaLiveInputDeletion_stateConf isAWSErr conn
             (schema.Id d)) w1
        = Ret (Some e, w2) ->
        isAWSErr (Some e) medialive.ErrCodeNotFoundException "" = true ->
        input_rev2.resourceAwsMediaLiveInputDelete isAWSErr WaitForState conn
          (d, w)
        = Ret (None, (d, w2)))
  /\ (forall out w1 e w2,
        client.DeleteInput conn
          {| medialive.DeleteInputInput.InputId := Some (schema.Id d) |} w
        = ((out, None), w1) ->
        WaitForState
          (input_rev1.waitForMediaLiveInputDeletion_stateConf isAWSErr conn
             (schema.Id d)) w1
        = Ret (Some e, w2) ->
        isAWSErr (Some e) medialive.ErrCodeNotFoundException "" = true ->
        input_rev1.resourceAwsMediaLiveInputDelete isAWSErr WaitForState conn
          (d, w)
        = Ret (None, (d, w2)))
  /\ (forall out e w1,
        client.DeleteChannel conn
          {| medialive.DeleteChannelInput.ChannelId := Some (schema.Id d) |} w
        = ((out, Some e), w1) ->
        isAWSErr (Some e) medialive.ErrCodeNotFoundException "" = true ->
        channel.resourceAwsMediaLiveChannelDelete isAWSErr WaitForState conn
          (d, w)
        = Ret (None, (d, w1)))
  /\ (forall out w1 e w2,
        client.DeleteChannel conn
          {| medialive.DeleteChannelInput.ChannelId := Some (schema.Id d) |} w
        = ((out, None), w1) ->
        WaitForState
          (channel.waitForMediaLiveChannelDeletion_stateConf isAWSErr conn
             (schema.Id d)) w1
        = Ret (Some e, w2) ->
        isAWSErr (Some e) medialive.ErrCodeNotFoundException "" = true ->
        channel.resourceAwsMediaLiveChannelDelete isAWSErr WaitForState conn
          (d, w)
        = Ret (None, (d, w2)))
  /\ (forall out e w1,
        client.DeleteOriginEndpoint mp
          {| mediapackage.DeleteOriginEndpointInput.Id := Some (schema.Id d) |}
          w
        = ((out, Some e), w1) ->
        isAWSErr (Some e) mediapackage.ErrCodeNotFoundException "" = true ->
        origin_endpoint.resourceAwsMediaPackageOriginEndpointDelete isAWSErr
          mp (d, w)
        = Ret (None, (d, w1))).
Proof.
  split; [|split; [|split; [|split; [|split]]]].
  - intros out e w1 Hcall Herr. split.
    + unfold input_rev2.resourceAwsMediaLiveInputDelete, mbind, op_bind,
        d_Id, api, aws.String. simpl. rewrite Hcall. simpl. rewrite Herr.
      reflexivity.
    + unfold input_rev1.resourceAwsMediaLiveInputDelete, mbind, op_bind,
        d_Id, api, aws.String. simpl. rewrite Hcall. simpl. rewrite Herr.
      reflexivity.
  - intros out w1 e w2 Hcall Hwait Herr.
    unfold input_rev2.resourceAwsMediaLiveInputDelete, mbind, op_bind, d_Id,
      api, aws.String. simpl. rewrite Hcall. simpl.
    unfold on_world, input_rev2.waitForMediaLiveInputDeletion, mbind, op_bind.
    simpl. rewrite Hwait. rewrite Herr. reflexivity.
  - intros out w1 e w2 Hcall Hwait Herr.
    unfold input_rev1.resourceAwsMediaLiveInputDelete, mbind, op_bind, d_Id,
      api, aws.String. simpl. rewrite Hcall. simpl.
    unfold on_world, input_rev1.waitForMediaLiveInputDeletion, mbind, op_bind.
    simpl. rewrite Hwait. rewrite Herr. reflexivity.
  - intros out e w1 Hcall Herr.
    unfold channel.resourceAwsMediaLiveChannelDelete, mbind, op_bind, d_Id,
      api, aws.String. simpl. rewrite Hcall. simpl. rewrite Herr. reflexivity.
  - intros out w1 e w2 Hcall Hwait Herr.
    unfold channel.resourceAwsMediaLiveChannelDelete, mbind, op_bind, d_Id,
      api, aws.String. simpl. rewrite Hcall. simpl.
    unfold on_world, channel.waitForMediaLiveChannelDeletion, mbind, op_bind.
    simpl. rewrite Hwait. rewrite Herr. reflexivity.
  - intros out e w1 Hcall Herr.
    unfold origin_endpoint.resourceAwsMediaPackageOriginEndpointDelete, mbind,
      op_bind, d_Id, api, aws.String. simpl. rewrite Hcall. simpl.
    rewrite Herr. reflexivity.
Qed.

End delete_absent.

(** An input that is gone when [DeleteInput] is called, an input that is
    gone when the waiter looks, and an origin endpoint that is gone. *)
Lemma delete_absent_is_success_witness :
  input_rev2.resourceAwsMediaLiveInputDelete examples.isAWSErr
    examples.waiter_not_found examples.gone (examples.existing, 0)
  = Ret (None, (examples.existing, 1))
  /\ input_rev2.resourceAwsMediaLiveInputDelete examples.isAWSErr
       examples.waiter_not_found examples.deleting (examples.existing, 0)
     = Ret (None, (examples.existing, 1))
  /\ origin_endpoint.resourceAwsMediaPackageOriginEndpointDelete
       examples.isAWSErr examples.endpoint_gone (examples.existing, 0)
     = Ret (None, (examples.existing, 1)).
Proof.
  split; [|split].
  - refine (proj1 (proj1 (delete_absent_is_success examples.isAWSErr
                      examples.waiter_not_found examples.gone
                      examples.endpoint_gone examples.existing 0)
                      None (AwsError "NotFoundException" "resource not found")
                      1 _ _)); reflexivity.
  - refine (proj1 (proj2 (delete_absent_is_success examples.isAWSErr
                      examples.waiter_not_found examples.deleting
                      examples.endpoint_gone examples.existing 0))
                      (Some tt) 1
                      (AwsError "NotFoundException" "resource not found")
                      1 _ _ _); reflexivity.
  - refine (proj2 (proj2 (proj2 (proj2 (proj2
              (delete_absent_is_success examples.isAWSErr
                 examples.waiter_not_found examples.gone
                 examples.endpoint_gone examples.existing 0)))))
              None (AwsError "NotFoundException" "endpoint not found")
              1 _ _); reflexivity.
Defined.

(** ** The second revision of the input resource *)

Lemma op_bind_Ret {S A B} (m : op S A) (f : A -> op S B) (s s' : S) (b : B) :
  (m ≫= f) s = Ret (b, s') ->
  exists a s1, m s = Ret (a, s1) /\ f a s1 = Ret (b, s').
Proof.
  unfold mbind, op_bind. destruct (m s) as [[a s1]|p]; [|discriminate].
  intros H. exists a, s1. split; [reflexivity | exact H].
Qed.

Lemma lift_Ret {S A} (m : go A) (s s' : S) (a : A) :
  lift m s = Ret (a, s') -> m = Ret a /\ s' = s.
Proof.
  unfold lift. destruct m; [|discriminate]. intros [= -> ->]. auto.
Qed.

Lemma on_world_Ret {World A} (f : op World A) (s s' : @St World) (a : A) :
  on_world f s = Ret (a, s') -> fst s' = fst s.
Proof.
  unfold on_world. destruct (f (snd s)) as [[a' w]|p]; [|discriminate].
  intros [= _ <-]. reflexivity.
Qed.

(** The request of the second revision carries the configured security
    groups, in their order, whenever the attribute is a non-empty list of
    strings. *)
Lemma resourceAwsMediaLiveInputCreate_input_security_groups
  {World : Type} MedialiveTags (uuid_NewRandom : op World string)
  (d : schema.ResourceData) (w : World)
  (input : medialive.CreateInputInput.t) (s' : @St World)
  (groups : list string) :
  groups <> [] ->
  schema.attrs d !! "input_security_groups" = Some (VList (VString <$> groups)) ->
  schema.fields d !! "input_security_groups" = Some schema.TypeList ->
  input_rev2.resourceAwsMediaLiveInputCreate_input MedialiveTags
    uuid_NewRandom (d, w)
  = Ret (input, s') ->
  medialive.CreateInputInput.InputSecurityGroups input = Some <$> groups.
Proof.
  intros Hne Hattr Hfield H.
  unfold input_rev2.resourceAwsMediaLiveInputCreate_input in H.
  apply op_bind_Ret in H. destruct H as (? & s1 & E1 & H).
  injection E1 as <- <-.
  apply op_bind_Ret in H. destruct H as (? & s2 & E2 & H).
  apply lift_Ret in E2. destruct E2 as [_ ->].
  apply op_bind_Ret in H. destruct H as (? & s3 & E3 & H).
  injection E3 as <- <-.
  apply op_bind_Ret in H. destruct H as (? & s4 & E4 & H).
  apply lift_Ret in E4. destruct E4 as [_ ->].
  apply op_bind_Ret in H. destruct H as (? & s5 & E5 & H).
  apply on_world_Ret in E5. simpl in E5.
  destruct s5 as [d5 w5]. simpl in E5. subst d5.
  apply op_bind_Ret in H. destruct H as ([v ok] & s6 & E6 & H).
  injection E6 as _ <-.
  apply op_bind_Ret in H. destruct H as (dests & s7 & E7 & H).
  assert (Hs7 : s7 = (d, w5)).
  { destruct ok.
    - apply op_bind_Ret in E7. destruct E7 as (l & s8 & E8 & E7).
      apply lift_Ret in E8. destruct E8 as [_ ->].
      destruct (0 <? length l)%nat.
      + apply op_bind_Ret in E7. destruct E7 as (l' & s9 & E9 & E7).
        apply lift_Ret in E9. destruct E9 as [_ ->].
        apply lift_Ret in E7. tauto.
      + injection E7 as _ <-. reflexivity.
    - injection E7 as _ <-. reflexivity. }
  subst s7.
  apply op_bind_Ret in H. destruct H as ([raw ok'] & s8 & E8 & H).
  unfold d_GetOk, schema.GetOk in E8. simpl in E8.
  rewrite Hfield, Hattr in E8. injection E8 as <- <- <-.
  assert (Hok : (length (VString <$> groups) =? 0)%nat = false).
  { destruct groups; [congruence | reflexivity]. }
  simpl in H. rewrite Hok in H. simpl in H.
  apply op_bind_Ret in H. destruct H as (sgs & s9 & E9 & H).
  apply lift_Ret in E9. destruct E9 as [E9 ->].
  assert (Hsgs : sgs = Some <$> groups).
  { unfold input_rev2.convertInputSecurityGroups in E9. simpl in E9.
    rewrite (for_range_Forall2 _ Some (VString <$> groups) groups) in E9.
    - injection E9 as <-. reflexivity.
    - clear. induction groups; constructor; auto. }
  subst sgs.
  apply op_bind_Ret in H. destruct H as (? & s10 & E10 & H).
  apply op_bind_Ret in H. destruct H as (? & s11 & E11 & H).
  apply op_bind_Ret in H. destruct H as (? & s12 & E12 & H).
  injection H as <- _. reflexivity.
Qed.

(** The request of the second revision for the configuration with two
    security groups. *)
Example resourceAwsMediaLiveInputCreate_input_rev2 :
  forall MedialiveTags,
  exists input,
    input_rev2.resourceAwsMediaLiveInputCreate_input MedialiveTags
      examples.uuid_NewRandom
      (examples.input_config_rev2, ([] : list medialive.CreateInputInput.t))
    = Ret (input, (examples.input_config_rev2, []))
    /\ medialive.CreateInputInput.InputSecurityGroups input
       = [Some "1111111"; Some "2222222"].
Proof.
  intros MedialiveTags. eexists. split; [vm_compute; reflexivity|].
  reflexivity.
Qed.

Section waits.
Context {World : Type}.
Variable isAWSErr : option error -> string -> string -> bool.
Variable WaitForState :
  resource.StateChangeConf World -> op World (option error).
Variable MedialiveTags : gmap string value -> go (gmap string (option string)).
Variable TagsMap : gmap string (option string) -> gmap string string.
Variable url_Parse : string -> url.URL + error.
Variable uuid_NewRandom : op World string.
Variable conn : client.MediaLive World.

(** The second revision of [Create] returns without an error only after
    its waiter has returned without an error. *)
Lemma resourceAwsMediaLiveInputCreate_waits (s s' : @St World) :
  input_rev2.resourceAwsMediaLiveInputCreate isAWSErr WaitForState
    MedialiveTags TagsMap url_Parse uuid_NewRandom conn s
  = Ret (None, s') ->
  exists inputId timeout w1 w2,
    WaitForState
      (input_rev2.resourceAwsMediaLiveInputCreate_createStateConf conn
         inputId timeout) w1
    = Ret (None, w2).
Proof.
  intros H. unfold input_rev2.resourceAwsMediaLiveInputCreate in H.
  apply op_bind_Ret in H. destruct H as (input & s1 & _ & H).
  apply op_bind_Ret in H. destruct H as ([resp err] & s2 & _ & H).
  destruct err as [e|]; [discriminate|].
  apply op_bind_Ret in H. destruct H as (resp' & s3 & _ & H).
  apply op_bind_Ret in H. destruct H as (created & s4 & _ & H).
  apply op_bind_Ret in H. destruct H as ([] & s5 & _ & H).
  apply op_bind_Ret in H. destruct H as (inputId & s6 & _ & H).
  apply op_bind_Ret in H. destruct H as (timeout & s7 & _ & H).
  apply op_bind_Ret in H. destruct H as (err & s8 & Hwait & H).
  destruct err as [e|].
  { apply op_bind_Ret in H. destruct H as (? & ? & _ & H). discriminate. }
  unfold on_world in Hwait.
  destruct (WaitForState _ (snd s7)) as [[err w2]|p] eqn:HW; [|discriminate].
  injection Hwait as -> _.
  exists inputId, timeout, (snd s7), w2. exact HW.
Qed.



End waits.

(** * More properties *)

(** ** Splitting and joining strings *)

Lemma append_cons (c : ascii) (s t : string) :
  String c s ++ t = String c (s ++ t).
Proof. reflexivity. Qed.

Lemma append_nil (t : string) : "" ++ t = t.
Proof. reflexivity. Qed.

Lemma Cut_app (s t : string) (sep : ascii) (b a : string) :
  strings.Cut s sep = Some (b, a) ->
  strings.Cut (s ++ t) sep = Some (b, a ++ t).
Proof.
  revert b a. induction s as [|c s IH]; intros b a H; [discriminate|].
  rewrite append_cons. cbn [strings.Cut] in *.
  destruct (Ascii.eqb c sep).
  - injection H as <- <-. reflexivity.
  - destruct (strings.Cut s sep) as [[b' a']|]; [|discriminate].
    injection H as <- <-. rewrite (IH _ _ eq_refl). reflexivity.
Qed.

Lemma Cut_before (s : string) (sep : ascii) (b a : string) :
  strings.Cut s sep = Some (b, a) -> strings.Cut b sep = None.
Proof.
  revert b a. induction s as [|c s IH]; intros b a H; [discriminate|].
  cbn [strings.Cut] in H.
  destruct (Ascii.eqb c sep) eqn:E.
  - injection H as <- <-. reflexivity.
  - destruct (strings.Cut s sep) as [[b' a']|]; [|discriminate].
    injection H as <- <-. cbn [strings.Cut]. rewrite E.
    rewrite (IH _ _ eq_refl). reflexivity.
Qed.

Lemma Cut_None_app (b a : string) (sep : ascii) :
  strings.Cut b sep = None ->
  strings.Cut (b ++ String sep a) sep = Some (b, a).
Proof.
  induction b as [|c b IH]; intros H.
  - rewrite append_nil. cbn. rewrite Ascii.eqb_refl. reflexivity.
  - rewrite append_cons. cbn [strings.Cut] in *.
    destruct (Ascii.eqb c sep); [discriminate|].
    destruct (strings.Cut b sep) as [[? ?]|]; [discriminate|].
    rewrite (IH eq_refl). reflexivity.
Qed.

Lemma Split_nonempty (s : string) (sep : ascii) :
  exists h t, strings.Split s sep = h :: t.
Proof.
  induction s as [|c s (h & t & IH)]; cbn [strings.Split].
  - eauto.
  - destruct (Ascii.eqb c sep); [eauto|]. rewrite IH. eauto.
Qed.

Lemma Split_None (s : string) (sep : ascii) :
  strings.Cut s sep = None -> strings.Split s sep = [s].
Proof.
  induction s as [|c s IH]; intros H; [reflexivity|].
  cbn [strings.Cut strings.Split] in *.
  destruct (Ascii.eqb c sep); [discriminate|].
  destruct (strings.Cut s sep) as [[? ?]|]; [discriminate|].
  rewrite (IH eq_refl). reflexivity.
Qed.

(** A last segment without separator is the last element of the split. *)
Lemma Split_app (s t : string) (sep : ascii) :
  strings.Cut t sep = None ->
  strings.Split (s ++ String sep t) sep = (strings.Split s sep ++ [t])%list.
Proof.
  intros Ht. induction s as [|c s IH].
  - rewrite append_nil. cbn. rewrite Ascii.eqb_refl.
    rewrite (Split_None _ _ Ht). reflexivity.
  - rewrite append_cons. cbn [strings.Split].
    destruct (Ascii.eqb c sep).
    + rewrite IH. reflexivity.
    + rewrite IH.
      destruct (Split_nonempty s sep) as (h & tl & E). rewrite E. reflexivity.
Qed.

(** Joining what [Split] returns gives the string back. *)
Lemma Join_Split (s : string) (sep : ascii) :
  strings.Join (strings.Split s sep) (String sep EmptyString) = s.
Proof.
  induction s as [|c s IH]; [reflexivity|].
  cbn [strings.Split].
  destruct (Split_nonempty s sep) as (h & tl & E). rewrite E in *.
  destruct (Ascii.eqb_spec c sep) as [->|Hne].
  - change (strings.Join ("" :: h :: tl) (String sep ""))
      with ("" ++ String sep "" ++ strings.Join (h :: tl) (String sep "")).
    rewrite IH. reflexivity.
  - destruct tl as [|h' tl].
    + cbn [strings.Join] in *. rewrite IH. reflexivity.
    + change (strings.Join (String c h :: h' :: tl) (String sep ""))
        with (String c h ++ String sep ""
                ++ strings.Join (h' :: tl) (String sep "")).
      change (strings.Join (h :: h' :: tl) (String sep ""))
        with (h ++ String sep "" ++ strings.Join (h' :: tl) (String sep ""))
        in IH.
      rewrite append_cons, IH. reflexivity.
Qed.

(** The sections that [arn.Parse] cuts at the colons hold no colon. *)
Lemma Parse_sections (arn : string) (a : token.ARN) :
  token.Parse arn = inl a ->
  strings.Cut (token.Partition a) ":" = None
  /\ strings.Cut (token.Service a) ":" = None
  /\ strings.Cut (token.Region a) ":" = None
  /\ strings.Cut (token.AccountID a) ":" = None.
Proof.
  unfold token.Parse. destruct (negb _); [discriminate|].
  cbn [strings.SplitN].
  destruct (strings.Cut arn ":") as [[s0 r0]|] eqn:E0; [|discriminate].
  destruct (strings.Cut r0 ":") as [[s1 r1]|] eqn:E1; [|discriminate].
  destruct (strings.Cut r1 ":") as [[s2 r2]|] eqn:E2; [|discriminate].
  destruct (strings.Cut r2 ":") as [[s3 r3]|] eqn:E3; [|discriminate].
  destruct (strings.Cut r3 ":") as [[s4 r4]|] eqn:E4; [|discriminate].
  intros [= <-]. cbn.
  repeat split; eapply Cut_before; eassumption.
Qed.

Lemma HasPrefix_arn (x : string) : strings.HasPrefix ("arn:" ++ x) "arn:" = true.
Proof. destruct x; reflexivity. Qed.

Lemma Cut_arn (x : string) : strings.Cut ("arn:" ++ x) ":" = Some ("arn", x).
Proof. reflexivity. Qed.

(** An ARN put together from sections without colon parses into them. *)
Lemma Parse_build (partition service region account resource : string) :
  strings.Cut partition ":" = None ->
  strings.Cut service ":" = None ->
  strings.Cut region ":" = None ->
  strings.Cut account ":" = None ->
  token.Parse ("arn:" ++ partition ++ ":" ++ service ++ ":" ++ region ++ ":"
                 ++ account ++ ":" ++ resource)
  = inl (token.mkARN partition service region account resource).
Proof.
  intros Hp Hs Hr Ha. unfold token.Parse.
  rewrite HasPrefix_arn. cbn [negb]. cbn [strings.SplitN].
  rewrite Cut_arn. rewrite !append_cons, !append_nil.
  rewrite (Cut_None_app partition _ ":" Hp).
  rewrite (Cut_None_app service _ ":" Hs).
  rewrite (Cut_None_app region _ ":" Hr).
  rewrite (Cut_None_app account _ ":" Ha).
  reflexivity.
Qed.

(** ** The ARN canonicaliser: what the results look like *)

Lemma recognized_partition_no_colon (p : string) :
  token.recognized_partition p -> strings.Cut p ":" = None.
Proof. intros [->|[->| ->]]; reflexivity. Qed.

(** An IAM role ARN of a recognized partition is returned as it is. *)
Lemma Canonicalize_role (partition account role : string) :
  token.checkPartition partition = None ->
  strings.Cut account ":" = None ->
  token.Canonicalize
    ("arn:" ++ partition ++ ":iam::" ++ account ++ ":role/" ++ role)
  = token.Ok ("arn:" ++ partition ++ ":iam::" ++ account ++ ":role/" ++ role).
Proof.
  intros Hc Ha.
  assert (Hp : strings.Cut partition ":" = None).
  { apply recognized_partition_no_colon, checkPartition_recognized, Hc. }
  assert (HP : token.Parse
                 ("arn:" ++ partition ++ ":iam::" ++ account ++ ":role/" ++ role)
               = inl (token.mkARN partition "iam" "" account ("role/" ++ role))).
  { exact (Parse_build partition "iam" "" account ("role/" ++ role)
             Hp eq_refl eq_refl Ha). }
  unfold token.Canonicalize. rewrite HP.
  cbn [token.Partition token.Service token.Resource token.AccountID].
  rewrite Hc.
  change (strings.Split ("role/" ++ role) "/")
    with ("role" :: strings.Split role "/").
  reflexivity.
Qed.

(** X1. [Canonicalize] is idempotent: what it returns is an ARN that it
    returns unchanged. *)
Theorem Canonicalize_idempotent (arn out : string) :
  token.Canonicalize arn = token.Ok out ->
  token.Canonicalize out = token.Ok out.
Proof.
  intros H. pose proof H as H0. unfold token.Canonicalize in H.
  destruct (token.Parse arn) as [a|e] eqn:HP; [|discriminate].
  destruct (token.checkPartition (token.Partition a)) eqn:HC; [discriminate|].
  destruct (String.eqb (token.Service a) "sts").
  - destruct (String.eqb _ "federated-user"); [congruence|].
    destruct (String.eqb _ "assumed-role"); [|discriminate].
    destruct (_ <? 3)%nat; [discriminate|].
    injection H as <-.
    apply Canonicalize_role; [exact HC|].
    apply (Parse_sections _ _ HP).
  - destruct (String.eqb (token.Service a) "iam"); [|discriminate].
    destruct (_ || _); [congruence | discriminate].
Qed.

Lemma Canonicalize_idempotent_witness :
  token.Canonicalize "arn:aws:iam::123456789012:role/Accounting-Role"
  = token.Ok "arn:aws:iam::123456789012:role/Accounting-Role".
Proof.
  exact (Canonicalize_idempotent
           "arn:aws:sts::123456789012:assumed-role/Accounting-Role/Mary" _
           eq_refl).
Defined.

(** X2. An STS assumed-role ARN of a recognized partition, whatever its
    region, its account, its role path (which may hold slashes) and its
    session name (which holds none), becomes the ARN of the IAM role: the
    region and the session name are dropped and the role path is kept as it
    is written. *)
Theorem Canonicalize_assumed_role
  (partition region account rolepath session : string) :
  token.recognized_partition partition ->
  strings.Cut region ":" = None ->
  strings.Cut account ":" = None ->
  strings.Cut session "/" = None ->
  token.Canonicalize
    ("arn:" ++ partition ++ ":sts:" ++ region ++ ":" ++ account
       ++ ":assumed-role/" ++ rolepath ++ "/" ++ session)
  = token.Ok
      ("arn:" ++ partition ++ ":iam::" ++ account ++ ":role/" ++ rolepath).
Proof.
  intros Hrec Hr Ha Hs.
  pose proof (recognized_partition_no_colon _ Hrec) as Hp.
  apply checkPartition_recognized in Hrec.
  assert (HP : token.Parse
                 ("arn:" ++ partition ++ ":sts:" ++ region ++ ":" ++ account
                    ++ ":assumed-role/" ++ rolepath ++ "/" ++ session)
               = inl (token.mkARN partition "sts" region account
                        ("assumed-role/" ++ rolepath ++ "/" ++ session))).
  { exact (Parse_build partition "sts" region account
             ("assumed-role/" ++ rolepath ++ "/" ++ session)
             Hp eq_refl Hr Ha). }
  unfold token.Canonicalize. rewrite HP.
  cbn [token.Partition token.Service token.Resource token.AccountID].
  rewrite Hrec.
  change (strings.Split ("assumed-role/" ++ rolepath ++ "/" ++ session) "/")
    with ("assumed-role"
            :: strings.Split (rolepath ++ String "/" session) "/").
  rewrite (Split_app rolepath session "/" Hs).
  destruct (Split_nonempty rolepath "/") as (h & t & E).
  pose proof (Join_Split rolepath "/") as HJ. rewrite E in HJ |- *.
  cbn [hd].
  change (String.eqb "sts" "sts") with true. cbv iota.
  change (String.eqb "assumed-role" "federated-user") with false.
  change (String.eqb "assumed-role" "assumed-role") with true. cbv iota.
  destruct (Nat.ltb_spec (length ("assumed-role" :: (h :: t) ++ [session])) 3)
    as [Hlt|Hge].
  { simpl in Hlt. rewrite length_app in Hlt. simpl in Hlt. lia. }
  rewrite slice_middle. rewrite HJ. reflexivity.
Qed.

Lemma Canonicalize_assumed_role_witness :
  token.Canonicalize
    "arn:aws-us-gov:sts:us-gov-west-1:123456789012:assumed-role/teams/ops/Deploy/session-42"
  = token.Ok "arn:aws-us-gov:iam::123456789012:role/teams/ops/Deploy".
Proof.
  apply (Canonicalize_assumed_role "aws-us-gov" "us-gov-west-1"
           "123456789012" "teams/ops/Deploy" "session-42").
  - right. right. reflexivity.
  - reflexivity.
  - reflexivity.
  - reflexivity.
Defined.

(** ** More on Go computations *)

Lemma for_range_Forall2_inv {A B} (f : A -> go B) (l : list A) (r : list B) :
  for_range f l = Ret r -> Forall2 (fun a b => f a = Ret b) l r.
Proof.
  revert r. induction l as [|a l IH]; simpl; intros r H.
  - injection H as <-. constructor.
  - go_inv H. injection H as <-. constructor; auto.
Qed.

Lemma bind_Panic {A B} (m : go A) (f : A -> go B) (p : panic) :
  m ≫= f = Panic p ->
  m = Panic p \/ exists a, m = Ret a /\ f a = Panic p.
Proof.
  destruct m as [a|q]; simpl; intros H.
  - right. exists a. auto.
  - left. injection H as ->. reflexivity.
Qed.

(** ** The input destinations and the security groups *)

Lemma substring_all (s : string) : substring 0 (String.length s) s = s.
Proof. induction s as [|c s IH]; simpl; [reflexivity | rewrite IH; reflexivity]. Qed.

(** X3. [obtainStreamName] in closed form: it panics on a nil pointer
    and on an URL whose parsed path is empty; an URL that does not parse
    gives the empty name; otherwise the name is the path without its first
    byte, whichever byte that is. *)
Theorem obtainStreamName_closed_form
  (url_Parse : string -> url.URL + error) (streamUrl : option string) :
  input_rev2.obtainStreamName url_Parse streamUrl
  = match streamUrl with
    | None => Panic NilDereference
    | Some s =>
        match url_Parse s with
        | inr _ => Ret ""
        | inl u =>
            match url.Path u with
            | "" => Panic SliceBounds
            | String _ rest => Ret rest
            end
        end
    end.
Proof.
  unfold input_rev2.obtainStreamName.
  destruct streamUrl as [s|]; [|reflexivity]. simpl.
  destruct (url_Parse s) as [u|e]; [|reflexivity].
  destruct (url.Path u) as [|c rest]; [reflexivity|].
  unfold string_slice.
  change (String.length (String c rest)) with (S (String.length rest)).
  replace ((1 <=? S (String.length rest))%nat
           && (S (String.length rest) <=? S (String.length rest))%nat)
    with true.
  - replace (S (String.length rest) - 1) with (String.length rest) by lia.
    simpl. rewrite substring_all. reflexivity.
  - symmetry. apply andb_true_iff. split; apply Nat.leb_le; lia.
Qed.

(** X4. What [flattenInputDestinations] returns can be handed back to
    [expandInputDestinations]: the maps expand without a panic to one
    request per destination, each with the stream name that
    [obtainStreamName] reads off the URL of the destination. *)
Theorem expandInputDestinations_flattenInputDestinations
  (url_Parse : string -> url.URL + error)
  (inputDestinations : list (option medialive.InputDestination.t))
  (flattened : list (gmap string value)) :
  input_rev2.flattenInputDestinations url_Parse inputDestinations
  = Ret flattened ->
  exists requests,
    input_rev2.expandInputDestinations (VMap <$> flattened) = Ret requests
    /\ Forall2
         (fun destination request =>
            exists d name,
              destination = Some d
              /\ input_rev2.obtainStreamName url_Parse
                   (medialive.InputDestination.Url d) = Ret name
              /\ medialive.InputDestinationRequest.StreamName request
                 = Some name)
         inputDestinations requests.
Proof.
  intros H. apply flattenInputDestinations_entries in H.
  assert (Hloop : exists requests,
             for_range
               (fun destination =>
                  r ← assert_map (Some destination);
                  stream_name ← get_string r "stream_name";
                  Ret {| medialive.InputDestinationRequest.StreamName :=
                           aws.String stream_name |})
               (VMap <$> flattened) = Ret requests
             /\ Forall2
                  (fun destination request =>
                     exists d name,
                       destination = Some d
                       /\ input_rev2.obtainStreamName url_Parse
                            (medialive.InputDestination.Url d) = Ret name
                       /\ medialive.InputDestinationRequest.StreamName request
                          = Some name)
                  inputDestinations requests).
  { induction H as [|x m l ms Hxm _ (requests & Hreq & Hall)].
    - exists []. split; [reflexivity | constructor].
    - destruct Hxm as (d & -> & _ & _ & _ & name & Hname & Hm).
      eexists (_ :: requests). split.
      + rewrite fmap_cons. cbn [for_range]. rewrite Hreq.
        cbn [assert_map mbind go_bind]. unfold get_string. rewrite Hm.
        reflexivity.
      + constructor; [|exact Hall]. exists d, name. auto. }
  destruct Hloop as (requests & Hreq & Hall).
  unfold input_rev2.expandInputDestinations.
  destruct (length (VMap <$> flattened) =? 0)%nat eqn:Hlen.
  - apply Nat.eqb_eq in Hlen. rewrite length_fmap in Hlen.
    destruct flattened; [|discriminate].
    exists []. split; [reflexivity|].
    injection Hreq as <-. exact Hall.
  - exists requests. auto.
Qed.

Lemma expandInputDestinations_flattenInputDestinations_witness :
  exists requests,
    input_rev2.expandInputDestinations
      [VMap {[ "url" := VString "rtmp://10.0.0.1:1935/live";
               "port" := VString "10.0.0.1";
               "ip" := VString "1935";
               "stream_name" := VString "live" ]}]
    = Ret requests
    /\ Forall2
         (fun destination request =>
            exists d name,
              destination = Some d
              /\ input_rev2.obtainStreamName examples.url_Parse
                   (medialive.InputDestination.Url d) = Ret name
              /\ medialive.InputDestinationRequest.StreamName request
                 = Some name)
         [Some examples.rtmp_destination] requests.
Proof.
  refine (expandInputDestinations_flattenInputDestinations examples.url_Parse
            [Some examples.rtmp_destination]
            [{[ "url" := VString "rtmp://10.0.0.1:1935/live";
                "port" := VString "10.0.0.1";
                "ip" := VString "1935";
                "stream_name" := VString "live" ]}] _).
  vm_compute. reflexivity.
Defined.

(** X5. [convertInputSecurityGroups] returns exactly on a list of
    strings, with one pointer per string in the order of the list; on
    every other value it panics at a type assertion. *)
Theorem convertInputSecurityGroups_spec (raw : option value) :
  (forall groups,
     input_rev2.convertInputSecurityGroups raw = Ret groups
     <-> exists ids,
           raw = Some (VList (VString <$> ids)) /\ groups = Some <$> ids)
  /\ (forall p,
        input_rev2.convertInputSecurityGroups raw = Panic p ->
        p = TypeAssertion).
Proof.
  split.
  - intros groups. split.
    + unfold input_rev2.convertInputSecurityGroups. intros H.
      apply bind_Ret in H. destruct H as (l & Hl & H).
      destruct raw as [[| | | |l'| |]|]; try discriminate.
      injection Hl as ->.
      apply for_range_Forall2_inv in H.
      induction H as [|x g l gs Hxg _ (ids & Hids & Hgs)].
      * exists []. auto.
      * destruct x; try discriminate. injection Hxg as <-.
        injection Hids as ->. subst gs.
        exists (s :: ids). auto.
    + intros (ids & -> & ->).
      unfold input_rev2.convertInputSecurityGroups. simpl.
      apply (for_range_Forall2 _ Some).
      induction ids; constructor; auto.
  - intros p H. unfold input_rev2.convertInputSecurityGroups in H.
    apply bind_Panic in H. destruct H as [H|(l & _ & H)].
    + destruct raw as [[]|]; simpl in H; congruence.
    + induction l as [|x l IH]; [discriminate|].
      cbn [for_range] in H.
      apply bind_Panic in H. destruct H as [H|(g & _ & H)].
      * destruct x; simpl in H; congruence.
      * apply bind_Panic in H. destruct H as [H|(gs & _ & H)];
          [auto | discriminate].
Qed.

(** ** Stateful operations *)

Lemma op_bind_eq {S A B} (m : op S A) (f : A -> op S B) (s s1 : S) (a : A) :
  m s = Ret (a, s1) -> (m ≫= f) s = f a s1.
Proof. unfold mbind, op_bind. intros ->. reflexivity. Qed.

Lemma op_bind_Panic {S A B} (m : op S A) (f : A -> op S B) (s : S) (p : panic) :
  (m ≫= f) s = Panic p ->
  m s = Panic p \/ exists a s1, m s = Ret (a, s1) /\ f a s1 = Panic p.
Proof.
  unfold mbind, op_bind. destruct (m s) as [[a s1]|q]; intros H.
  - right. exists a, s1. auto.
  - left. injection H as ->. reflexivity.
Qed.

Lemma op_bind_ext_l {S A B} (m m' : op S A) (f : A -> op S B) (s : S) :
  m s = m' s -> (m ≫= f) s = (m' ≫= f) s.
Proof. unfold mbind, op_bind. intros ->. reflexivity. Qed.

Lemma op_bind_ext_r {S A B} (m : op S A) (f f' : A -> op S B) (s : S) :
  (forall a s1, m s = Ret (a, s1) -> f a s1 = f' a s1) ->
  (m ≫= f) s = (m ≫= f') s.
Proof.
  unfold mbind, op_bind. intros H.
  destruct (m s) as [[a s1]|p]; [apply H|]; reflexivity.
Qed.

Lemma Set_frame (d d' : schema.ResourceData) (key : string) (v : value)
  (e : option error) :
  schema.Set_ d key v = (e, d') ->
  schema.fields d' = schema.fields d
  /\ schema.id d' = schema.id d
  /\ forall k, k <> key -> schema.attrs d' !! k = schema.attrs d !! k.
Proof.
  unfold schema.Set_. destruct (schema.fields d !! key) as [t|].
  - destruct (schema.accepts t v); intros [= <- <-]; simpl.
    + split; [reflexivity|]. split; [reflexivity|].
      intros k Hk. apply lookup_insert_ne. congruence.
    + auto.
  - intros [= <- <-]. auto.
Qed.

Lemma Set_rejected (d d' : schema.ResourceData) (key : string) (v : value)
  (e : option error) :
  match schema.fields d !! key with
  | Some t => schema.accepts t v = false
  | None => True
  end ->
  schema.Set_ d key v = (e, d') -> d' = d.
Proof.
  unfold schema.Set_. destruct (schema.fields d !! key) as [t|].
  - intros ->. intros [= _ <-]. reflexivity.
  - intros _ [= _ <-]. reflexivity.
Qed.

Lemma Set_ptr_frame (d d' : schema.ResourceData) (key : string)
  (p : option string) (e : option error) :
  schema_pointer.Set_ptr d key p = (e, d') ->
  schema.fields d' = schema.fields d
  /\ schema.id d' = schema.id d
  /\ forall k, k <> key -> schema.attrs d' !! k = schema.attrs d !! k.
Proof.
  unfold schema_pointer.Set_ptr. destruct p as [s|].
  - apply Set_frame.
  - destruct (schema.fields d !! key) as [t|]; intros [= <- <-]; simpl.
    + split; [reflexivity|]. split; [reflexivity|].
      intros k Hk. apply lookup_delete_ne. congruence.
    + auto.
Qed.

Section changes.
Context {World : Type}.
Variable F : gmap string schema.ValueType.
Variable keys : list string.

Lemma changes_only_bind {A B} (m : op (@St World) A) (f : A -> op (@St World) B) :
  changes_only F keys m ->
  (forall a, changes_only F keys (f a)) ->
  changes_only F keys (m ≫= f).
Proof.
  intros Hm Hf s b s' HF H.
  apply op_bind_Ret in H. destruct H as (a & s1 & E1 & E2).
  destruct (Hm _ _ _ HF E1) as [HF1 H1].
  destruct (Hf a _ _ _ HF1 E2) as [HF2 H2].
  split; [exact HF2|]. intros k Hk. rewrite (H2 k Hk). apply (H1 k Hk).
Qed.

Lemma changes_only_ret {A} (a : A) :
  changes_only F keys (mret a : op (@St World) A).
Proof. intros s a' s' HF [= _ <-]. auto. Qed.

Lemma changes_only_lift {A} (m : go A) :
  changes_only F keys (lift m : op (@St World) A).
Proof.
  intros s a s' HF H. apply lift_Ret in H. destruct H as [_ ->]. auto.
Qed.

Lemma changes_only_Id : changes_only F keys (d_Id : op (@St World) string).
Proof. intros s a s' HF [= _ <-]. auto. Qed.

Lemma changes_only_SetId (v : string) :
  changes_only F keys (d_SetId v : op (@St World) unit).
Proof. intros s a s' HF [= _ <-]. simpl. auto. Qed.

Lemma changes_only_api {A} (f : World -> A * World) :
  changes_only F keys (api f).
Proof.
  intros s a s' HF H. unfold api in H.
  destruct (f (snd s)) as [a' w]. injection H as _ <-. auto.
Qed.

Lemma changes_only_Set (key : string) (v : value) :
  key ∈ keys -> changes_only F keys (d_Set (World := World) key v).
Proof.
  intros Hin s a s' HF H. unfold d_Set in H.
  destruct (schema.Set_ (fst s) key v) as [e d'] eqn:E.
  injection H as _ <-. simpl.
  destruct (Set_frame _ _ _ _ _ E) as (Hf & _ & Ha).
  split; [congruence|]. intros k Hk. apply Ha. intros ->. auto.
Qed.

Lemma changes_only_Set_rejected (key : string) (v : value) :
  match F !! key with
  | Some t => schema.accepts t v = false
  | None => True
  end ->
  changes_only F keys (d_Set (World := World) key v).
Proof.
  intros Hrej s a s' HF H. unfold d_Set in H.
  destruct (schema.Set_ (fst s) key v) as [e d'] eqn:E.
  injection H as _ <-. simpl.
  rewrite <- HF in Hrej. rewrite (Set_rejected _ _ _ _ _ Hrej E). auto.
Qed.

Lemma changes_only_Set_ptr (key : string) (p : option string) :
  key ∈ keys -> changes_only F keys (channel_ops.d_Set_ptr (World := World) key p).
Proof.
  intros Hin s a s' HF H. unfold channel_ops.d_Set_ptr in H.
  destruct (schema_pointer.Set_ptr (fst s) key p) as [e d'] eqn:E.
  injection H as _ <-. simpl.
  destruct (Set_ptr_frame _ _ _ _ _ E) as (Hf & _ & Ha).
  split; [congruence|]. intros k Hk. apply Ha. intros ->. auto.
Qed.

End changes.

Ltac changes_step :=
  match goal with
  | |- changes_only _ _ (_ ≫= _) => apply changes_only_bind; [|intros ?]
  | |- changes_only _ _ (mret _) => apply changes_only_ret
  | |- changes_only _ _ (lift _) => apply changes_only_lift
  | |- changes_only _ _ d_Id => apply changes_only_Id
  | |- changes_only _ _ (d_SetId _) => apply changes_only_SetId
  | |- changes_only _ _ (api _) => apply changes_only_api
  | |- changes_only _ _ (let '(_, _) := ?x in _) => destruct x
  | |- changes_only _ _ (match ?x with _ => _ end) => destruct x
  end.

Ltac in_keys := solve [rewrite !elem_of_cons; auto 10].

(** ** Reading a resource *)

Section reads.
Context {World : Type}.
Variable isAWSErr : option error -> string -> string -> bool.
Variable TagsMap : gmap string (option string) -> gmap string string.
Variable url_Parse : string -> url.URL + error.
Variable conn : client.MediaLive World.

(** X6. When the describe call of the service reports
    [NotFoundException], [Read] of the input, in both revisions, and [Read]
    of the channel empty the id of the resource, which removes it from the
    Terraform state, and return nil; the attributes stay as they were. *)
Theorem read_absent_clears_id (d : schema.ResourceData) (w w1 : World)
  (e : error) :
  isAWSErr (Some e) medialive.ErrCodeNotFoundException "" = true ->
  (forall out,
     client.DescribeInput conn
       {| medialive.DescribeInputInput.InputId := Some (schema.Id d) |} w
     = ((out, Some e), w1) ->
     input_rev1.resourceAwsMediaLiveInputRead isAWSErr TagsMap conn (d, w)
     = Ret (None, (schema.SetId d "", w1))
     /\ input_rev2.resourceAwsMediaLiveInputRead isAWSErr TagsMap url_Parse
          conn (d, w)
        = Ret (None, (schema.SetId d "", w1)))
  /\ (forall out,
        client.DescribeChannel conn
          {| medialive.DescribeChannelInput.ChannelId := Some (schema.Id d) |}
          w
        = ((out, Some e), w1) ->
        channel_ops.resourceAwsMediaLiveChannelRead isAWSErr TagsMap conn
          (d, w)
        = Ret (None, (schema.SetId d "", w1))).
Proof.
  intros Herr. split.
  - intros out Hcall. split.
    + unfold input_rev1.resourceAwsMediaLiveInputRead, mbind, op_bind, d_Id,
        api, aws.String. simpl. rewrite Hcall. simpl. rewrite Herr.
      reflexivity.
    + unfold input_rev2.resourceAwsMediaLiveInputRead, mbind, op_bind, d_Id,
        api, aws.String. simpl. rewrite Hcall. simpl. rewrite Herr.
      reflexivity.
  - intros out Hcall.
    unfold channel_ops.resourceAwsMediaLiveChannelRead, mbind, op_bind, d_Id,
      api, aws.String. simpl. rewrite Hcall. simpl. rewrite Herr.
    reflexivity.
Qed.

Lemma resourceAwsMediaLiveInputRead_changes_only :
  changes_only input_rev2.Schema ["destinations"; "arn"; "name"; "tags"]
    (input_rev2.resourceAwsMediaLiveInputRead isAWSErr TagsMap url_Parse conn).
Proof.
  unfold input_rev2.resourceAwsMediaLiveInputRead.
  repeat changes_step;
    try (apply changes_only_Set; in_keys);
    try (destruct (isAWSErr _ _ _); repeat changes_step);
    apply changes_only_Set_rejected; vm_compute; auto.
Qed.

(** X7. [Read] of the second revision of the input writes the
    destinations, the ARN, the name and the tags, and nothing else: the
    input type, which it writes to ["type"], an attribute that the schema
    does not have, and the input class, which it writes as a string to an
    attribute of type int, never reach the resource data. *)
Theorem resourceAwsMediaLiveInputRead_frame (s s' : @St World)
  (e : option error) (k : string) :
  schema.fields (fst s) = input_rev2.Schema ->
  input_rev2.resourceAwsMediaLiveInputRead isAWSErr TagsMap url_Parse conn s
  = Ret (e, s') ->
  k ∉ ["destinations"; "arn"; "name"; "tags"] ->
  schema.attrs (fst s') !! k = schema.attrs (fst s) !! k.
Proof.
  intros HF H Hk.
  exact (proj2 (resourceAwsMediaLiveInputRead_changes_only s e s' HF H) k Hk).
Qed.

Lemma resourceAwsMediaLiveChannelRead_changes_only
  (F : gmap string schema.ValueType) :
  changes_only F ["arn"; "name"; "role_arn"; "tags"]
    (channel_ops.resourceAwsMediaLiveChannelRead isAWSErr TagsMap conn).
Proof.
  unfold channel_ops.resourceAwsMediaLiveChannelRead.
  repeat changes_step;
    try (apply changes_only_Set; in_keys);
    try (apply changes_only_Set_ptr; in_keys);
    destruct (isAWSErr _ _ _); repeat changes_step.
Qed.

(** X8. [Read] of the channel writes the ARN, the name, the role ARN
    and the tags, and nothing else: the destinations, the encoder settings,
    the input attachments and the other attributes of the configuration
    are never read back from the service. *)
Theorem resourceAwsMediaLiveChannelRead_frame (s s' : @St World)
  (e : option error) (k : string) :
  channel_ops.resourceAwsMediaLiveChannelRead isAWSErr TagsMap conn s
  = Ret (e, s') ->
  k ∉ ["arn"; "name"; "role_arn"; "tags"] ->
  schema.fields (fst s') = schema.fields (fst s)
  /\ schema.attrs (fst s') !! k = schema.attrs (fst s) !! k.
Proof.
  intros H Hk.
  destruct (resourceAwsMediaLiveChannelRead_changes_only _ s e s' eq_refl H)
    as [HF Ha].
  split; [exact HF | exact (Ha k Hk)].
Qed.

End reads.

Ltac not_in_keys :=
  rewrite !not_elem_of_cons; repeat split; try discriminate;
  apply not_elem_of_nil.

(** An input and a channel that are gone when [Read] looks. *)
Lemma read_absent_clears_id_witness :
  input_rev2.resourceAwsMediaLiveInputRead examples.isAWSErr
    scenarios.TagsMap examples.url_Parse examples.gone (examples.existing, 0)
  = Ret (None, (schema.SetId examples.existing "", 1))
  /\ channel_ops.resourceAwsMediaLiveChannelRead examples.isAWSErr
       scenarios.TagsMap examples.gone (scenarios.channel_existing, 0)
     = Ret (None, (schema.SetId scenarios.channel_existing "", 1)).
Proof.
  split.
  - refine (proj2 (proj1 (read_absent_clears_id examples.isAWSErr
                            scenarios.TagsMap examples.url_Parse examples.gone
                            examples.existing 0 1
                            (AwsError "NotFoundException" "resource not found")
                            _) None _)); reflexivity.
  - refine (proj2 (read_absent_clears_id examples.isAWSErr
                     scenarios.TagsMap examples.url_Parse examples.gone
                     scenarios.channel_existing 0 1
                     (AwsError "NotFoundException" "resource not found")
                     _) None _); reflexivity.
Defined.

(** The service reports the class [STANDARD] and the type [RTMP_PUSH];
    after [Read] the resource data holds neither. *)
Lemma resourceAwsMediaLiveInputRead_frame_witness :
  input_rev2.resourceAwsMediaLiveInputRead examples.isAWSErr
    scenarios.TagsMap examples.url_Parse examples.creating
    (examples.existing, [])
  = Ret (None, (scenarios.described, []))
  /\ schema.attrs scenarios.described !! "input_class" = None
  /\ schema.attrs scenarios.described !! "input_type" = None.
Proof.
  assert (H : input_rev2.resourceAwsMediaLiveInputRead examples.isAWSErr
                scenarios.TagsMap examples.url_Parse examples.creating
                (examples.existing, [])
              = Ret (None, (scenarios.described, [])))
    by (vm_compute; reflexivity).
  split; [exact H|]. split.
  - refine (eq_trans
              (resourceAwsMediaLiveInputRead_frame examples.isAWSErr
                 scenarios.TagsMap examples.url_Parse examples.creating
                 (examples.existing, []) (scenarios.described, []) None
                 "input_class" eq_refl H _) _);
      [not_in_keys | reflexivity].
  - refine (eq_trans
              (resourceAwsMediaLiveInputRead_frame examples.isAWSErr
                 scenarios.TagsMap examples.url_Parse examples.creating
                 (examples.existing, []) (scenarios.described, []) None
                 "input_type" eq_refl H _) _);
      [not_in_keys | reflexivity].
Defined.

(** The encoder settings of a channel are the configured ones after
    [Read]. *)
Lemma resourceAwsMediaLiveChannelRead_frame_witness :
  channel_ops.resourceAwsMediaLiveChannelRead examples.isAWSErr
    scenarios.TagsMap scenarios.channel_idle (scenarios.channel_existing, 0)
  = Ret (None, (scenarios.channel_described, 1))
  /\ schema.attrs scenarios.channel_described !! "encoder_settings"
     = schema.attrs scenarios.channel_existing !! "encoder_settings".
Proof.
  assert (H : channel_ops.resourceAwsMediaLiveChannelRead examples.isAWSErr
                scenarios.TagsMap scenarios.channel_idle
                (scenarios.channel_existing, 0)
              = Ret (None, (scenarios.channel_described, 1)))
    by (vm_compute; reflexivity).
  split; [exact H|].
  refine (proj2 (resourceAwsMediaLiveChannelRead_frame examples.isAWSErr
                   scenarios.TagsMap scenarios.channel_idle
                   (scenarios.channel_existing, 0)
                   (scenarios.channel_described, 1) None "encoder_settings"
                   H _)).
  not_in_keys.
Defined.

(** ** Building a request leaves the resource data alone *)

Section keeps.
Context {World : Type}.

Lemma keeps_data_bind {A B} (m : op (@St World) A) (f : A -> op (@St World) B) :
  keeps_data m -> (forall a, keeps_data (f a)) -> keeps_data (m ≫= f).
Proof.
  intros Hm Hf s b s' H.
  apply op_bind_Ret in H. destruct H as (a & s1 & E1 & E2).
  rewrite (Hf _ _ _ _ E2). apply (Hm _ _ _ E1).
Qed.

Lemma keeps_data_ret {A} (a : A) : keeps_data (mret a : op (@St World) A).
Proof. intros s a' s' [= _ <-]. reflexivity. Qed.

Lemma keeps_data_lift {A} (m : go A) : keeps_data (lift m : op (@St World) A).
Proof. intros s a s' H. apply lift_Ret in H. destruct H as [_ ->]. reflexivity. Qed.

Lemma keeps_data_Get (key : string) : keeps_data (d_Get (World := World) key).
Proof. intros s a s' [= _ <-]. reflexivity. Qed.

Lemma keeps_data_GetOk (key : string) :
  keeps_data (d_GetOk (World := World) key).
Proof. intros s a s' [= _ <-]. reflexivity. Qed.

Lemma keeps_data_Id : keeps_data (d_Id (World := World)).
Proof. intros s a s' [= _ <-]. reflexivity. Qed.

Lemma keeps_data_on_world {A} (f : op World A) : keeps_data (on_world f).
Proof. intros s a s' H. apply on_world_Ret in H. exact H. Qed.

Lemma keeps_data_HasChange (HasChange : schema.ResourceData -> string -> bool)
  (key : string) :
  keeps_data (input_update.d_HasChange (World := World) HasChange key).
Proof. intros s a s' [= _ <-]. reflexivity. Qed.

End keeps.

Lemma keeps_data_intro {World A} (m : op (@St World) A) :
  keeps_data m -> forall s a s', m s = Ret (a, s') -> fst s' = fst s.
Proof. intros H. exact H. Qed.

Ltac keeps_step :=
  match goal with
  | |- keeps_data (_ ≫= _) => apply keeps_data_bind; [|intros ?]
  | |- keeps_data (mret _) => apply keeps_data_ret
  | |- keeps_data (lift _) => apply keeps_data_lift
  | |- keeps_data (d_Get _) => apply keeps_data_Get
  | |- keeps_data (d_GetOk _) => apply keeps_data_GetOk
  | |- keeps_data d_Id => apply keeps_data_Id
  | |- keeps_data (on_world _) => apply keeps_data_on_world
  | |- keeps_data (input_update.d_HasChange _ _) => apply keeps_data_HasChange
  | |- keeps_data (let '(_, _) := ?x in _) => destruct x
  | |- keeps_data (match ?x with _ => _ end) => destruct x
  end.

Lemma resourceAwsMediaLiveInputCreate_input_keeps_data {World : Type}
  MedialiveTags (uuid_NewRandom : op World string) :
  keeps_data
    (input_rev2.resourceAwsMediaLiveInputCreate_input MedialiveTags
       uuid_NewRandom).
Proof.
  unfold input_rev2.resourceAwsMediaLiveInputCreate_input.
  repeat keeps_step.
Qed.

Lemma resourceAwsMediaLiveInputUpdate_input_keeps_data {World : Type}
  HasChange :
  keeps_data
    (input_update.resourceAwsMediaLiveInputUpdate_input (World := World)
       HasChange).
Proof.
  unfold input_update.resourceAwsMediaLiveInputUpdate_input.
  repeat keeps_step.
Qed.

Lemma expand_channel_keeps_data {World : Type} expandStringList :
  keeps_data (channel_ops.expand_channel (World := World) expandStringList).
Proof. unfold channel_ops.expand_channel. repeat keeps_step. Qed.

Lemma resourceAwsMediaLiveChannelCreate_input_keeps_data {World : Type}
  MedialiveTags expandStringList :
  keeps_data
    (channel_ops.resourceAwsMediaLiveChannelCreate_input (World := World)
       MedialiveTags expandStringList).
Proof.
  unfold channel_ops.resourceAwsMediaLiveChannelCreate_input.
  repeat keeps_step; apply expand_channel_keeps_data.
Qed.

Lemma resourceAwsMediaLiveChannelUpdate_input_keeps_data {World : Type}
  expandStringList :
  keeps_data
    (channel_ops.resourceAwsMediaLiveChannelUpdate_input (World := World)
       expandStringList).
Proof.
  unfold channel_ops.resourceAwsMediaLiveChannelUpdate_input.
  repeat keeps_step; apply expand_channel_keeps_data.
Qed.

(** ** Creating and updating a resource *)

Lemma api_Ret {World A} (f : World -> A * World) (s s' : @St World) (a : A) :
  api f s = Ret (a, s') -> f (snd s) = (a, snd s') /\ fst s' = fst s.
Proof.
  unfold api. destruct (f (snd s)) as [a' w]. intros [= -> <-]. auto.
Qed.

Lemma on_world_inv {World A} (f : op World A) (s s' : @St World) (a : A) :
  on_world f s = Ret (a, s') -> f (snd s) = Ret (a, snd s') /\ fst s' = fst s.
Proof.
  unfold on_world. destruct (f (snd s)) as [[a' w]|p]; [|discriminate].
  intros [= -> <-]. auto.
Qed.

Section creates.
Context {World : Type}.
Variable isAWSErr : option error -> string -> string -> bool.
Variable WaitForState :
  resource.StateChangeConf World -> op World (option error).
Variable MedialiveTags : gmap string value -> go (gmap string (option string)).
Variable TagsMap : gmap string (option string) -> gmap string string.
Variable url_Parse : string -> url.URL + error.
Variable uuid_NewRandom : op World string.
Variable expandStringList : list value -> list (option string).
Variable CreateChannel :
  client.call World medialive_requests.CreateChannelInput.t
    medialive_requests.CreateChannelOutput.t.
Variable UpdateChannel :
  client.call World medialive_requests.UpdateChannelInput.t unit.
Variable conn : client.MediaLive World.

(** X9. A [Create] of the input (second revision) that returns nil
    has built the request from the resource data, sent it, taken the id of
    the input from the answer, waited on that id, on the state of the
    service that the call left, until the waiter returned nil, and read the
    input back under that id. *)
Theorem resourceAwsMediaLiveInputCreate_steps (s s' : @St World) :
  input_rev2.resourceAwsMediaLiveInputCreate isAWSErr WaitForState
    MedialiveTags TagsMap url_Parse uuid_NewRandom conn s
  = Ret (None, s') ->
  exists input w1 resp created w2 w3,
    input_rev2.resourceAwsMediaLiveInputCreate_input MedialiveTags
      uuid_NewRandom s
    = Ret (input, (fst s, w1))
    /\ client.CreateInput conn input w1 = ((Some resp, None), w2)
    /\ medialive.CreateInputOutput.Input resp = Some created
    /\ WaitForState
         (input_rev2.resourceAwsMediaLiveInputCreate_createStateConf conn
            (aws.StringValue (medialive.Input.Id created))
            (schema.Timeout (fst s))) w2
       = Ret (None, w3)
    /\ input_rev2.resourceAwsMediaLiveInputRead isAWSErr TagsMap url_Parse
         conn
         (schema.SetId (fst s) (aws.StringValue (medialive.Input.Id created)),
          w3)
       = Ret (None, s').
Proof.
  intros H. unfold input_rev2.resourceAwsMediaLiveInputCreate in H.
  apply op_bind_Ret in H. destruct H as (input & [d1 w1] & Hin & H).
  pose proof (resourceAwsMediaLiveInputCreate_input_keeps_data _ _ _ _ _ Hin)
    as Hd. simpl in Hd. subst d1.
  apply op_bind_Ret in H. destruct H as ([resp err] & [d2 w2] & Hcall & H).
  apply api_Ret in Hcall. simpl in Hcall. destruct Hcall as [Hcall ->].
  destruct err as [e|]; [discriminate|].
  apply op_bind_Ret in H. destruct H as (resp' & s3 & E & H).
  apply lift_Ret in E. destruct E as [E ->].
  destruct resp as [resp|]; [|discriminate]. injection E as <-.
  apply op_bind_Ret in H. destruct H as (created & s4 & E & H).
  apply lift_Ret in E. destruct E as [E ->].
  destruct (medialive.CreateInputOutput.Input resp) as [created'|] eqn:Hcr;
    [|discriminate].
  injection E as ->.
  apply op_bind_Ret in H. destruct H as ([] & s5 & E & H).
  injection E as <-.
  apply op_bind_Ret in H. destruct H as (id & s6 & E & H).
  injection E as <- <-.
  apply op_bind_Ret in H. destruct H as (timeout & s7 & E & H).
  injection E as <- <-.
  apply op_bind_Ret in H. destruct H as (err & [d8 w3] & Hwait & H).
  apply on_world_inv in Hwait. simpl in Hwait. destruct Hwait as [Hwait ->].
  destruct err as [e|].
  { apply op_bind_Ret in H. destruct H as (? & ? & _ & H). discriminate. }
  exists input, w1, resp, created, w2, w3.
  split; [exact Hin|]. split; [exact Hcall|]. split; [exact Hcr|].
  split; [exact Hwait | exact H].
Qed.

(** X10. When the service rejects the create or the update call,
    [Create] of the input, [Create] of the channel and [Update] of the
    channel return the error of the call under their own heading; the
    resource data, and with it the id, is as it was, and the service is in
    the state that the rejected call left: there is no waiting and no
    reading back. *)
Theorem rejected_call_is_returned (s : @St World) (w1 w2 : World) (e : error) :
  (forall input out,
     input_rev2.resourceAwsMediaLiveInputCreate_input MedialiveTags
       uuid_NewRandom s
     = Ret (input, (fst s, w1)) ->
     client.CreateInput conn input w1 = ((out, Some e), w2) ->
     input_rev2.resourceAwsMediaLiveInputCreate isAWSErr WaitForState
       MedialiveTags TagsMap url_Parse uuid_NewRandom conn s
     = Ret (Some (Errorf ("Error creating MediaLive Input: " ++ error_text e)),
            (fst s, w2)))
  /\ (forall input out,
        channel_ops.resourceAwsMediaLiveChannelCreate_input MedialiveTags
          expandStringList s
        = Ret (input, (fst s, w1)) ->
        CreateChannel input w1 = ((out, Some e), w2) ->
        channel_ops.resourceAwsMediaLiveChannelCreate isAWSErr WaitForState
          MedialiveTags TagsMap expandStringList CreateChannel conn s
        = Ret (Some (Errorf ("Error creating MediaLive Channel: "
                               ++ error_text e)),
               (fst s, w2)))
  /\ (forall input out,
        channel_ops.resourceAwsMediaLiveChannelUpdate_input expandStringList s
        = Ret (input, (fst s, w1)) ->
        UpdateChannel input w1 = ((out, Some e), w2) ->
        channel_ops.resourceAwsMediaLiveChannelUpdate isAWSErr WaitForState
          TagsMap expandStringList UpdateChannel conn s
        = Ret (Some (Errorf ("Error updating MediaLive Channel: "
                               ++ error_text e)),
               (fst s, w2))).
Proof.
  split; [|split]; intros input out Hin Hcall.
  - unfold input_rev2.resourceAwsMediaLiveInputCreate.
    rewrite (op_bind_eq _ _ _ _ _ Hin).
    unfold mbind, op_bind, api. simpl. rewrite Hcall. reflexivity.
  - unfold channel_ops.resourceAwsMediaLiveChannelCreate.
    rewrite (op_bind_eq _ _ _ _ _ Hin).
    unfold mbind, op_bind, api. simpl. rewrite Hcall. reflexivity.
  - unfold channel_ops.resourceAwsMediaLiveChannelUpdate.
    rewrite (op_bind_eq _ _ _ _ _ Hin).
    unfold mbind, op_bind, api. simpl. rewrite Hcall. reflexivity.
Qed.

(** X11. A [Create] of the channel that returns nil has sent the
    request built from the resource data, taken the id of the channel from
    the answer, waited on that id for the channel to leave [CREATING] for
    [IDLE] until the waiter returned nil, and read the channel back. *)
Theorem resourceAwsMediaLiveChannelCreate_steps (s s' : @St World) :
  channel_ops.resourceAwsMediaLiveChannelCreate isAWSErr WaitForState
    MedialiveTags TagsMap expandStringList CreateChannel conn s
  = Ret (None, s') ->
  exists input w1 resp created w2 w3,
    channel_ops.resourceAwsMediaLiveChannelCreate_input MedialiveTags
      expandStringList s
    = Ret (input, (fst s, w1))
    /\ CreateChannel input w1 = ((Some resp, None), w2)
    /\ medialive_requests.CreateChannelOutput.Channel resp = Some created
    /\ WaitForState
         (channel.resourceAwsMediaLiveChannelCreate_createStateConf conn
            (aws.StringValue (medialive_requests.Channel.Id created))
            (schema.Timeout (fst s))) w2
       = Ret (None, w3)
    /\ channel_ops.resourceAwsMediaLiveChannelRead isAWSErr TagsMap conn
         (schema.SetId (fst s)
            (aws.StringValue (medialive_requests.Channel.Id created)),
          w3)
       = Ret (None, s').
Proof.
  intros H. unfold channel_ops.resourceAwsMediaLiveChannelCreate in H.
  apply op_bind_Ret in H. destruct H as (input & [d1 w1] & Hin & H).
  pose proof (resourceAwsMediaLiveChannelCreate_input_keeps_data _ _ _ _ _ Hin)
    as Hd. simpl in Hd. subst d1.
  apply op_bind_Ret in H. destruct H as ([resp err] & [d2 w2] & Hcall & H).
  apply api_Ret in Hcall. simpl in Hcall. destruct Hcall as [Hcall ->].
  destruct err as [e|]; [discriminate|].
  apply op_bind_Ret in H. destruct H as (resp' & s3 & E & H).
  apply lift_Ret in E. destruct E as [E ->].
  destruct resp as [resp|]; [|discriminate]. injection E as <-.
  apply op_bind_Ret in H. destruct H as (created & s4 & E & H).
  apply lift_Ret in E. destruct E as [E ->].
  destruct (medialive_requests.CreateChannelOutput.Channel resp)
    as [created'|] eqn:Hcr; [|discriminate].
  injection E as ->.
  apply op_bind_Ret in H. destruct H as ([] & s5 & E & H).
  injection E as <-.
  apply op_bind_Ret in H. destruct H as (id & s6 & E & H).
  injection E as <- <-.
  apply op_bind_Ret in H. destruct H as (timeout & s7 & E & H).
  injection E as <- <-.
  apply op_bind_Ret in H. destruct H as (err & [d8 w3] & Hwait & H).
  apply on_world_inv in Hwait. simpl in Hwait. destruct Hwait as [Hwait ->].
  destruct err as [e|].
  { apply op_bind_Ret in H. destruct H as (? & ? & _ & H). discriminate. }
  exists input, w1, resp, created, w2, w3.
  split; [exact Hin|]. split; [exact Hcall|]. split; [exact Hcr|].
  split; [exact Hwait | exact H].
Qed.

(** X12. An [Update] of the channel that returns nil has sent the
    request built from the resource data, waited on the id of the channel
    for it to leave [UPDATING] for [IDLE] until the waiter returned nil,
    and read the channel back; the id is the one it had. *)
Theorem resourceAwsMediaLiveChannelUpdate_steps (s s' : @St World) :
  channel_ops.resourceAwsMediaLiveChannelUpdate isAWSErr WaitForState TagsMap
    expandStringList UpdateChannel conn s
  = Ret (None, s') ->
  exists input w1 out w2 w3,
    channel_ops.resourceAwsMediaLiveChannelUpdate_input expandStringList s
    = Ret (input, (fst s, w1))
    /\ medialive_requests.UpdateChannelInput.ChannelId input
       = Some (schema.Id (fst s))
    /\ UpdateChannel input w1 = ((out, None), w2)
    /\ WaitForState
         (channel.resourceAwsMediaLiveChannelUpdate_updateStateConf conn
            (schema.Id (fst s)) (schema.Timeout (fst s))) w2
       = Ret (None, w3)
    /\ channel_ops.resourceAwsMediaLiveChannelRead isAWSErr TagsMap conn
         (fst s, w3)
       = Ret (None, s').
Proof.
  intros H. unfold channel_ops.resourceAwsMediaLiveChannelUpdate in H.
  apply op_bind_Ret in H. destruct H as (input & [d1 w1] & Hin & H).
  pose proof (resourceAwsMediaLiveChannelUpdate_input_keeps_data _ _ _ _ Hin)
    as Hd. simpl in Hd. subst d1.
  assert (Hid : medialive_requests.UpdateChannelInput.ChannelId input
                = Some (schema.Id (fst s))).
  { clear H. unfold channel_ops.resourceAwsMediaLiveChannelUpdate_input in Hin.
    apply op_bind_Ret in Hin. destruct Hin as (id & s1 & E & Hin).
    injection E as <- <-.
    do 6 (apply op_bind_Ret in Hin; destruct Hin as (? & ? & _ & Hin)).
    apply op_bind_Ret in Hin. destruct Hin as ([[[? ?] ?] ?] & ? & _ & Hin).
    injection Hin as <- _. reflexivity. }
  apply op_bind_Ret in H. destruct H as ([out err] & [d2 w2] & Hcall & H).
  apply api_Ret in Hcall. simpl in Hcall. destruct Hcall as [Hcall ->].
  destruct err as [e|]; [discriminate|].
  apply op_bind_Ret in H. destruct H as (id & s6 & E & H).
  injection E as <- <-.
  apply op_bind_Ret in H. destruct H as (timeout & s7 & E & H).
  injection E as <- <-.
  apply op_bind_Ret in H. destruct H as (err & [d8 w3] & Hwait & H).
  apply on_world_inv in Hwait. simpl in Hwait. destruct Hwait as [Hwait ->].
  destruct err as [e|].
  { apply op_bind_Ret in H. destruct H as (? & ? & _ & H). discriminate. }
  exists input, w1, out, w2, w3.
  split; [exact Hin|]. split; [exact Hid|]. split; [exact Hcall|].
  split; [exact Hwait | exact H].
Qed.

End creates.

(** [Create] of the configured input on a service that creates it. *)
Lemma resourceAwsMediaLiveInputCreate_steps_witness :
  exists input w1 resp created w2 w3,
    input_rev2.resourceAwsMediaLiveInputCreate_input scenarios.MedialiveTags
      examples.uuid_NewRandom
      (examples.input_config_rev2, ([] : list medialive.CreateInputInput.t))
    = Ret (input, (examples.input_config_rev2, w1))
    /\ client.CreateInput examples.creating input w1 = ((Some resp, None), w2)
    /\ medialive.CreateInputOutput.Input resp = Some created
    /\ scenarios.waiter_ok
         (input_rev2.resourceAwsMediaLiveInputCreate_createStateConf
            examples.creating
            (aws.StringValue (medialive.Input.Id created))
            (schema.Timeout examples.input_config_rev2)) w2
       = Ret (None, w3)
    /\ input_rev2.resourceAwsMediaLiveInputRead examples.isAWSErr
         scenarios.TagsMap examples.url_Parse examples.creating
         (schema.SetId examples.input_config_rev2
            (aws.StringValue (medialive.Input.Id created)), w3)
       = Ret (None, (scenarios.input_created, [scenarios.request_rev2])).
Proof.
  apply (resourceAwsMediaLiveInputCreate_steps examples.isAWSErr
           scenarios.waiter_ok scenarios.MedialiveTags scenarios.TagsMap
           examples.url_Parse examples.uuid_NewRandom examples.creating
           (examples.input_config_rev2, [])
           (scenarios.input_created, [scenarios.request_rev2])).
  vm_compute. reflexivity.
Defined.

(** [Create] of the configured input on a service that rejects the call. *)
Lemma rejected_call_is_returned_witness :
  input_rev2.resourceAwsMediaLiveInputCreate examples.isAWSErr
    scenarios.waiter_ok scenarios.MedialiveTags scenarios.TagsMap
    examples.url_Parse examples.uuid_NewRandom examples.gone
    (examples.input_config_rev2, 0)
  = Ret (Some (Errorf
           "Error creating MediaLive Input: NotFoundException: resource not found"),
         (examples.input_config_rev2, 1)).
Proof.
  refine (proj1 (rejected_call_is_returned examples.isAWSErr
                   scenarios.waiter_ok scenarios.MedialiveTags
                   scenarios.TagsMap examples.url_Parse
                   examples.uuid_NewRandom scenarios.expandStringList
                   scenarios.CreateChannel scenarios.UpdateChannel
                   examples.gone (examples.input_config_rev2, 0) 0 1
                   (AwsError "NotFoundException" "resource not found"))
            scenarios.request_rev2 None _ _).
  - vm_compute. reflexivity.
  - reflexivity.
Defined.

(** [Create] and [Update] of the configured channel. *)
Lemma resourceAwsMediaLiveChannelCreate_steps_witness :
  exists input w1 resp created w2 w3,
    channel_ops.resourceAwsMediaLiveChannelCreate_input scenarios.MedialiveTags
      scenarios.expandStringList (scenarios.channel_config, 0)
    = Ret (input, (scenarios.channel_config, w1))
    /\ scenarios.CreateChannel input w1 = ((Some resp, None), w2)
    /\ medialive_requests.CreateChannelOutput.Channel resp = Some created
    /\ scenarios.waiter_ok
         (channel.resourceAwsMediaLiveChannelCreate_createStateConf
            scenarios.channel_idle
            (aws.StringValue (medialive_requests.Channel.Id created))
            (schema.Timeout scenarios.channel_config)) w2
       = Ret (None, w3)
    /\ channel_ops.resourceAwsMediaLiveChannelRead examples.isAWSErr
         scenarios.TagsMap scenarios.channel_idle
         (schema.SetId scenarios.channel_config
            (aws.StringValue (medialive_requests.Channel.Id created)), w3)
       = Ret (None, (scenarios.channel_described, 2)).
Proof.
  apply (resourceAwsMediaLiveChannelCreate_steps examples.isAWSErr
           scenarios.waiter_ok scenarios.MedialiveTags scenarios.TagsMap
           scenarios.expandStringList scenarios.CreateChannel
           scenarios.channel_idle (scenarios.channel_config, 0)
           (scenarios.channel_described, 2)).
  vm_compute. reflexivity.
Defined.

Lemma resourceAwsMediaLiveChannelUpdate_steps_witness :
  exists input w1 out w2 w3,
    channel_ops.resourceAwsMediaLiveChannelUpdate_input
      scenarios.expandStringList (scenarios.channel_existing, 0)
    = Ret (input, (scenarios.channel_existing, w1))
    /\ medialive_requests.UpdateChannelInput.ChannelId input
       = Some (schema.Id scenarios.channel_existing)
    /\ scenarios.UpdateChannel input w1 = ((out, None), w2)
    /\ scenarios.waiter_ok
         (channel.resourceAwsMediaLiveChannelUpdate_updateStateConf
            scenarios.channel_idle (schema.Id scenarios.channel_existing)
            (schema.Timeout scenarios.channel_existing)) w2
       = Ret (None, w3)
    /\ channel_ops.resourceAwsMediaLiveChannelRead examples.isAWSErr
         scenarios.TagsMap scenarios.channel_idle
         (scenarios.channel_existing, w3)
       = Ret (None, (scenarios.channel_described, 2)).
Proof.
  apply (resourceAwsMediaLiveChannelUpdate_steps examples.isAWSErr
           scenarios.waiter_ok scenarios.TagsMap scenarios.expandStringList
           scenarios.UpdateChannel scenarios.channel_idle
           (scenarios.channel_existing, 0) (scenarios.channel_described, 2)).
  vm_compute. reflexivity.
Defined.

(** ** Updating an input *)

Section updates.
Context {World : Type}.
Variable isAWSErr : option error -> string -> string -> bool.
Variable TagsMap : gmap string (option string) -> gmap string string.
Variable url_Parse : string -> url.URL + error.
Variable HasChange : schema.ResourceData -> string -> bool.
Variable GetChange :
  schema.ResourceData -> string -> option value * option value.
Variable MedialiveUpdateTags :
  string -> option value -> option value -> op World (option error).
Variable conn : client.MediaLive World.

(** X13. The request of [Update] of the second revision names the
    input by the id of the resource, and carries the name, the destinations
    and the security groups only if the plan has a change for ["name"],
    ["stream_name"] and ["input_security_groups"]. *)
Theorem resourceAwsMediaLiveInputUpdate_input_changes (s s1 : @St World)
  (input : medialive_requests.UpdateInputInput.t) :
  input_update.resourceAwsMediaLiveInputUpdate_input HasChange s
  = Ret (input, s1) ->
  medialive_requests.UpdateInputInput.InputId input
  = Some (schema.Id (fst s))
  /\ (HasChange (fst s) "name" = false ->
      medialive_requests.UpdateInputInput.Name input = None)
  /\ (HasChange (fst s) "stream_name" = false ->
      medialive_requests.UpdateInputInput.Destinations input = [])
  /\ (HasChange (fst s) "input_security_groups" = false ->
      medialive_requests.UpdateInputInput.InputSecurityGroups input = []).
Proof.
  intros H. unfold input_update.resourceAwsMediaLiveInputUpdate_input in H.
  apply op_bind_Ret in H. destruct H as (id & s2 & E & H).
  injection E as <- <-.
  apply op_bind_Ret in H. destruct H as (c1 & s3 & E & H).
  injection E as <- <-.
  apply op_bind_Ret in H. destruct H as (name & s4 & E1 & H).
  assert (Hs4 : fst s4 = fst s).
  { revert E1. apply keeps_data_intro. destruct (HasChange _ _);
      repeat keeps_step. }
  apply op_bind_Ret in H. destruct H as (c2 & s5 & E & H).
  injection E as <- <-.
  apply op_bind_Ret in H. destruct H as (dests & s6 & E2 & H).
  assert (Hs6 : fst s6 = fst s).
  { rewrite <- Hs4. revert E2. apply keeps_data_intro.
    destruct (HasChange _ _); repeat keeps_step. }
  apply op_bind_Ret in H. destruct H as (c3 & s7 & E & H).
  injection E as <- <-.
  apply op_bind_Ret in H. destruct H as (groups & s8 & E3 & H).
  injection H as <- _.
  cbn [medialive_requests.UpdateInputInput.InputId
         medialive_requests.UpdateInputInput.Name
         medialive_requests.UpdateInputInput.Destinations
         medialive_requests.UpdateInputInput.InputSecurityGroups].
  split; [reflexivity|]. split; [|split].
  - intros Hc. rewrite Hc in E1. injection E1 as <- _. reflexivity.
  - intros Hc. rewrite Hs4, Hc in E2. injection E2 as <- _. reflexivity.
  - intros Hc. rewrite Hs6, Hc in E3. injection E3 as <- _. reflexivity.
Qed.

Section with_call.
Variable UpdateInput :
  client.call World medialive_requests.UpdateInputInput.t unit.

(** X14. When [UpdateInput] reports [NotFoundException], [Update] of
    the second revision empties the id of the resource and returns nil:
    the tags are not updated and the input is not read back. *)
Theorem resourceAwsMediaLiveInputUpdate_absent (s : @St World)
  (input : medialive_requests.UpdateInputInput.t) (w1 w2 : World)
  (out : option unit) (e : error) :
  input_update.resourceAwsMediaLiveInputUpdate_input HasChange s
  = Ret (input, (fst s, w1)) ->
  UpdateInput input w1 = ((out, Some e), w2) ->
  isAWSErr (Some e) medialive.ErrCodeNotFoundException "" = true ->
  input_update.resourceAwsMediaLiveInputUpdate isAWSErr TagsMap url_Parse
    HasChange GetChange MedialiveUpdateTags UpdateInput conn s
  = Ret (None, (schema.SetId (fst s) "", w2)).
Proof.
  intros Hin Hcall Herr.
  unfold input_update.resourceAwsMediaLiveInputUpdate.
  rewrite (op_bind_eq _ _ _ _ _ Hin).
  unfold mbind, op_bind, api. simpl. rewrite Hcall. simpl. rewrite Herr.
  reflexivity.
Qed.

End with_call.

(** X15. [Update] of the first revision calls [UpdateInput] only when
    the plan has a change for ["input_type"], and then with a request that
    holds the name and no input id: the operation is the same for two
    services that agree on these requests. *)
Theorem resourceAwsMediaLiveInputUpdate_rev1_request
  (UpdateInput UpdateInput' :
     client.call World medialive_requests.UpdateInputInput.t unit)
  (s : @St World) :
  (HasChange (fst s) "input_type" = true ->
   forall name w,
     UpdateInput
       {| medialive_requests.UpdateInputInput.Destinations := [];
          medialive_requests.UpdateInputInput.InputId := None;
          medialive_requests.UpdateInputInput.InputSecurityGroups := [];
          medialive_requests.UpdateInputInput.Name := Some name |} w
     = UpdateInput'
         {| medialive_requests.UpdateInputInput.Destinations := [];
            medialive_requests.UpdateInputInput.InputId := None;
            medialive_requests.UpdateInputInput.InputSecurityGroups := [];
            medialive_requests.UpdateInputInput.Name := Some name |} w) ->
  input_update.resourceAwsMediaLiveInputUpdate_rev1 isAWSErr TagsMap HasChange
    GetChange MedialiveUpdateTags UpdateInput conn s
  = input_update.resourceAwsMediaLiveInputUpdate_rev1 isAWSErr TagsMap
      HasChange GetChange MedialiveUpdateTags UpdateInput' conn s.
Proof.
  intros Hagree.
  unfold input_update.resourceAwsMediaLiveInputUpdate_rev1.
  apply op_bind_ext_r. intros changed s1 E.
  injection E as <- <-. apply op_bind_ext_l.
  destruct (HasChange (fst s) "input_type"); [|reflexivity].
  specialize (Hagree eq_refl).
  apply op_bind_ext_r. intros name0 s2 _.
  apply op_bind_ext_r. intros name s3 _.
  apply op_bind_ext_l. unfold api, aws.String. rewrite Hagree. reflexivity.
Qed.

End updates.

(** An update of the name: the request holds the id and the name. *)
Lemma resourceAwsMediaLiveInputUpdate_input_changes_witness :
  input_update.resourceAwsMediaLiveInputUpdate_input
    (scenarios.HasChange "name") (examples.existing, 0)
  = Ret (scenarios.update_request, (examples.existing, 0))
  /\ medialive_requests.UpdateInputInput.InputId scenarios.update_request
     = Some "1234567"
  /\ medialive_requests.UpdateInputInput.Destinations scenarios.update_request
     = []
  /\ medialive_requests.UpdateInputInput.InputSecurityGroups
       scenarios.update_request
     = [].
Proof.
  assert (H : input_update.resourceAwsMediaLiveInputUpdate_input
                (scenarios.HasChange "name") (examples.existing, 0)
              = Ret (scenarios.update_request, (examples.existing, 0)))
    by (vm_compute; reflexivity).
  destruct (resourceAwsMediaLiveInputUpdate_input_changes
              (scenarios.HasChange "name") _ _ _ H) as (H1 & _ & H3 & H4).
  split; [exact H|]. split; [exact H1|].
  split; [exact (H3 eq_refl) | exact (H4 eq_refl)].
Defined.

(** An update of the name of an input that is gone. *)
Lemma resourceAwsMediaLiveInputUpdate_absent_witness :
  input_update.resourceAwsMediaLiveInputUpdate examples.isAWSErr
    scenarios.TagsMap examples.url_Parse (scenarios.HasChange "name")
    scenarios.GetChange scenarios.MedialiveUpdateTags
    scenarios.UpdateInput_gone examples.gone (examples.existing, 0)
  = Ret (None, (schema.SetId examples.existing "", 1)).
Proof.
  refine (resourceAwsMediaLiveInputUpdate_absent examples.isAWSErr
            scenarios.TagsMap examples.url_Parse (scenarios.HasChange "name")
            scenarios.GetChange scenarios.MedialiveUpdateTags examples.gone
            scenarios.UpdateInput_gone (examples.existing, 0)
            scenarios.update_request 0 1 None
            (AwsError "NotFoundException" "input not found") _ _ _).
  - vm_compute. reflexivity.
  - reflexivity.
  - reflexivity.
Defined.

(** A service that asks for the id of the input and one that accepts no
    request: the first revision gets the same answer from both. *)
Lemma resourceAwsMediaLiveInputUpdate_rev1_request_witness :
  input_update.resourceAwsMediaLiveInputUpdate_rev1 examples.isAWSErr
    scenarios.TagsMap (scenarios.HasChange "input_type") scenarios.GetChange
    scenarios.MedialiveUpdateTags scenarios.UpdateInput_by_id examples.gone
    (examples.existing, 0)
  = input_update.resourceAwsMediaLiveInputUpdate_rev1 examples.isAWSErr
      scenarios.TagsMap (scenarios.HasChange "input_type")
      scenarios.GetChange scenarios.MedialiveUpdateTags
      scenarios.UpdateInput_rejected examples.gone (examples.existing, 0).
Proof.
  apply (resourceAwsMediaLiveInputUpdate_rev1_request examples.isAWSErr
           scenarios.TagsMap (scenarios.HasChange "input_type")
           scenarios.GetChange scenarios.MedialiveUpdateTags examples.gone
           scenarios.UpdateInput_by_id scenarios.UpdateInput_rejected
           (examples.existing, 0)).
  intros _ name w. reflexivity.
Defined.

(** ** The refresh functions of the deletion waiters *)


(** ** Concrete inputs for the properties of the second revision *)



(** The configuration with two security groups. *)
Lemma resourceAwsMediaLiveInputCreate_input_security_groups_witness :
  medialive.CreateInputInput.InputSecurityGroups scenarios.request_rev2
  = Some <$> ["1111111"; "2222222"].
Proof.
  refine (resourceAwsMediaLiveInputCreate_input_security_groups
            scenarios.MedialiveTags examples.uuid_NewRandom
            examples.input_config_rev2 0 scenarios.request_rev2
            (examples.input_config_rev2, 0) ["1111111"; "2222222"] _ _ _ _).
  - discriminate.
  - vm_compute. reflexivity.
  - vm_compute. reflexivity.
  - vm_compute. reflexivity.
Defined.

(** A block with the frame rate 30000/1001. *)
Lemma expandH264Settings_framerate_witness :
  exists h raw fc,
    channel_structure.expandH264Settings [VMap examples.h264_specified]
    = Ret (Some h)
    /\ first_map [VMap examples.h264_specified] = Ret raw
    /\ get_string raw "framerate_control" = Ret fc
    /\ medialive.H264Settings.FramerateControl h = Some fc
    /\ (fc = "SPECIFIED" ->
        (exists n, get_int raw "framerate_numerator" = Ret n
           /\ medialive.H264Settings.FramerateNumerator h = Some n)
        /\ (exists n, get_int raw "framerate_denominator" = Ret n
              /\ medialive.H264Settings.FramerateDenominator h = Some n))
    /\ (fc <> "SPECIFIED" ->
        medialive.H264Settings.FramerateNumerator h = None
        /\ medialive.H264Settings.FramerateDenominator h = None).
Proof.
  destruct (channel_structure.expandH264Settings
              [VMap examples.h264_specified]) as [r|p] eqn:E;
    [|vm_compute in E; discriminate].
  destruct (expandH264Settings_framerate [VMap examples.h264_specified] r)
    as (h & raw & fc & -> & H); [discriminate | exact E |].
  exists h, raw, fc. split; [reflexivity | exact H].
Defined.

(** An output group with an HLS group. *)
Lemma expandOutputGroupSettings_attaches_witness :
  exists ogs h,
    channel_structure.expandOutputGroupSettings examples.output_group_settings
    = Ret (Some ogs)
    /\ medialive.OutputGroupSettings.HlsGroupSettings ogs = Some h
    /\ channel_structure.expandHlsGroupSettings [VMap examples.hls_group]
       = Ret (Some h).
Proof.
  destruct (channel_structure.expandOutputGroupSettings
              examples.output_group_settings) as [r|p] eqn:E;
    [|vm_compute in E; discriminate].
  destruct (expandOutputGroupSettings_attaches
              examples.output_group_settings r
              {[ "hls_group_settings" := VSet [VMap examples.hls_group];
                 "rtmp_group_settings" := VSet [] ]}
              [VMap examples.hls_group])
    as (ogs & h & -> & H); [reflexivity | reflexivity | discriminate
                           | exact E |].
  exists ogs, h. split; [reflexivity | exact H].
Defined.

(** ** The panics of the structure helpers *)

Lemma asserts_only_Ret {A} (a : A) : asserts_only (Ret a).
Proof. intros p H. discriminate. Qed.

Lemma asserts_only_bind {A B} (m : go A) (f : A -> go B) :
  asserts_only m ->
  (forall a, m = Ret a -> asserts_only (f a)) ->
  asserts_only (m ≫= f).
Proof.
  intros Hm Hf p H. apply bind_Panic in H.
  destruct H as [H|(a & E & H)]; [apply Hm, H | apply (Hf a E), H].
Qed.

Lemma asserts_only_for_range {A B} (f : A -> go B) (l : list A) :
  (forall x, asserts_only (f x)) -> asserts_only (for_range f l).
Proof.
  intros Hf. induction l as [|x l IH]; [apply asserts_only_Ret|].
  cbn [for_range]. apply asserts_only_bind; [apply Hf|].
  intros y _. apply asserts_only_bind; [exact IH|].
  intros ys _. apply asserts_only_Ret.
Qed.

Lemma asserts_only_assert_string (x : option value) :
  asserts_only (assert_string x).
Proof. intros p H. destruct x as [[]|]; simpl in H; congruence. Qed.

Lemma asserts_only_assert_int (x : option value) : asserts_only (assert_int x).
Proof. intros p H. destruct x as [[]|]; simpl in H; congruence. Qed.

Lemma asserts_only_assert_float64 (x : option value) :
  asserts_only (assert_float64 x).
Proof. intros p H. destruct x as [[]|]; simpl in H; congruence. Qed.

Lemma asserts_only_assert_list (x : option value) :
  asserts_only (assert_list x).
Proof. intros p H. destruct x as [[]|]; simpl in H; congruence. Qed.

Lemma asserts_only_assert_set (x : option value) : asserts_only (assert_set x).
Proof. intros p H. destruct x as [[]|]; simpl in H; congruence. Qed.

Lemma asserts_only_assert_map (x : option value) : asserts_only (assert_map x).
Proof. intros p H. destruct x as [[]|]; simpl in H; congruence. Qed.

(** The first element of a set that is not empty is there. *)
Lemma asserts_only_first_map (s : list value) :
  (0 <? length s)%nat = true -> asserts_only (first_map s).
Proof.
  intros Hlen. destruct s as [|x s]; [discriminate|].
  change (first_map (x :: s)) with (assert_map (Some x)).
  apply asserts_only_assert_map.
Qed.

Lemma asserts_only_deref_Some {A} (a : A) : asserts_only (deref (Some a)).
Proof. apply asserts_only_Ret. Qed.

(** The helpers that [expandOutputGroupSettings] and [expandOutputSettings]
    dereference the result of never return nil. *)
Lemma expandHlsGroupSettings_Some (s : list value)
  (r : option medialive.HlsGroupSettings.t) :
  channel_structure.expandHlsGroupSettings s = Ret r -> exists h, r = Some h.
Proof.
  unfold channel_structure.expandHlsGroupSettings.
  destruct (0 <? length s)%nat; intros H; [go_inv H|];
    injection H as <-; eauto.
Qed.

Lemma expandRtmpGroupSettings_Some (s : list value)
  (r : option medialive.RtmpGroupSettings.t) :
  channel_structure.expandRtmpGroupSettings s = Ret r -> exists h, r = Some h.
Proof.
  unfold channel_structure.expandRtmpGroupSettings.
  destruct (0 <? length s)%nat; intros H; [go_inv H|];
    injection H as <-; eauto.
Qed.

Lemma expandHlsOutputSettings_Some (s : list value)
  (r : option medialive.HlsOutputSettings.t) :
  channel_structure.expandHlsOutputSettings s = Ret r -> exists h, r = Some h.
Proof.
  unfold channel_structure.expandHlsOutputSettings.
  destruct (0 <? length s)%nat; intros H; [go_inv H|];
    injection H as <-; eauto.
Qed.

Lemma expandRtmpOutputSettings_Some (s : list value)
  (r : option medialive.RtmpOutputSettings.t) :
  channel_structure.expandRtmpOutputSettings s = Ret r -> exists h, r = Some h.
Proof.
  unfold channel_structure.expandRtmpOutputSettings.
  destruct (0 <? length s)%nat; intros H; [go_inv H|];
    injection H as <-; eauto.
Qed.

Create HintDb asserts.

Ltac deref_Some x :=
  match goal with
  | H : _ = Ret x |- _ =>
      first [ apply expandHlsGroupSettings_Some in H
            | apply expandRtmpGroupSettings_Some in H
            | apply expandHlsOutputSettings_Some in H
            | apply expandRtmpOutputSettings_Some in H ];
      destruct H as [? ->]; apply asserts_only_deref_Some
  end.

Ltac asserts_step :=
  match goal with
  | |- asserts_only (Ret _) => apply asserts_only_Ret
  | |- asserts_only (_ ≫= _) => apply asserts_only_bind; [|intros ? ?]
  | |- asserts_only (for_range _ _) => apply asserts_only_for_range; intros ?
  | |- asserts_only (get_string _ _) => apply asserts_only_assert_string
  | |- asserts_only (get_int _ _) => apply asserts_only_assert_int
  | |- asserts_only (get_float64 _ _) => apply asserts_only_assert_float64
  | |- asserts_only (get_list _ _) => apply asserts_only_assert_list
  | |- asserts_only (get_set _ _) => apply asserts_only_assert_set
  | |- asserts_only (assert_map _) => apply asserts_only_assert_map
  | |- asserts_only (first_map _) => apply asserts_only_first_map; assumption
  | |- asserts_only (deref ?x) => deref_Some x
  | |- asserts_only (if ?b then _ else _) => destruct b eqn:?
  | |- asserts_only (let _ := _ in _) => cbv zeta
  | |- asserts_only _ => solve [auto with asserts]
  end.

Lemma expandOutputDestinationSettings_asserts_only (s : list value) :
  asserts_only (channel_structure.expandOutputDestinationSettings s).
Proof. unfold channel_structure.expandOutputDestinationSettings. repeat asserts_step. Qed.
#[export] Hint Resolve expandOutputDestinationSettings_asserts_only : asserts.

Lemma expandDestinations_asserts_only (s : list value) :
  asserts_only (channel_structure.expandDestinations s).
Proof. unfold channel_structure.expandDestinations. repeat asserts_step. Qed.
#[export] Hint Resolve expandDestinations_asserts_only : asserts.

Lemma expandCaptionLanguageMapping_asserts_only (s : list value) :
  asserts_only (channel_structure.expandCaptionLanguageMapping s).
Proof. unfold channel_structure.expandCaptionLanguageMapping. repeat asserts_step. Qed.
#[export] Hint Resolve expandCaptionLanguageMapping_asserts_only : asserts.

Lemma expandHlsBasicPutSettings_asserts_only (s : list value) :
  asserts_only (channel_structure.expandHlsBasicPutSettings s).
Proof. unfold channel_structure.expandHlsBasicPutSettings. repeat asserts_step. Qed.
#[export] Hint Resolve expandHlsBasicPutSettings_asserts_only : asserts.

Lemma expandHlsCdnSettings_asserts_only (s : list value) :
  asserts_only (channel_structure.expandHlsCdnSettings s).
Proof. unfold channel_structure.expandHlsCdnSettings. repeat asserts_step. Qed.
#[export] Hint Resolve expandHlsCdnSettings_asserts_only : asserts.

Lemma expandHlsDestinationRef_asserts_only (s : list value) :
  asserts_only (channel_structure.expandHlsDestinationRef s).
Proof. unfold channel_structure.expandHlsDestinationRef. repeat asserts_step. Qed.
#[export] Hint Resolve expandHlsDestinationRef_asserts_only : asserts.

Lemma expandHlsGroupSettings_asserts_only (s : list value) :
  asserts_only (channel_structure.expandHlsGroupSettings s).
Proof. unfold channel_structure.expandHlsGroupSettings. repeat asserts_step. Qed.
#[export] Hint Resolve expandHlsGroupSettings_asserts_only : asserts.

Lemma expandRtmpGroupSettings_asserts_only (s : list value) :
  asserts_only (channel_structure.expandRtmpGroupSettings s).
Proof. unfold channel_structure.expandRtmpGroupSettings. repeat asserts_step. Qed.
#[export] Hint Resolve expandRtmpGroupSettings_asserts_only : asserts.

Lemma expandOutputGroupSettings_asserts_only (s : list value) :
  asserts_only (channel_structure.expandOutputGroupSettings s).
Proof. unfold channel_structure.expandOutputGroupSettings. repeat asserts_step. Qed.
#[export] Hint Resolve expandOutputGroupSettings_asserts_only : asserts.

Lemma expandM3u8settings_asserts_only (s : list value) :
  asserts_only (channel_structure.expandM3u8settings s).
Proof. unfold channel_structure.expandM3u8settings. repeat asserts_step. Qed.
#[export] Hint Resolve expandM3u8settings_asserts_only : asserts.

Lemma expandStandardHlsSettings_asserts_only (s : list value) :
  asserts_only (channel_structure.expandStandardHlsSettings s).
Proof. unfold channel_structure.expandStandardHlsSettings. repeat asserts_step. Qed.
#[export] Hint Resolve expandStandardHlsSettings_asserts_only : asserts.

Lemma expandAudioOnlyHlsSettings_asserts_only (s : list value) :
  asserts_only (channel_structure.expandAudioOnlyHlsSettings s).
Proof. unfold channel_structure.expandAudioOnlyHlsSettings. repeat asserts_step. Qed.
#[export] Hint Resolve expandAudioOnlyHlsSettings_asserts_only : asserts.

Lemma expandHlsSettings_asserts_only (s : list value) :
  asserts_only (channel_structure.expandHlsSettings s).
Proof. unfold channel_structure.expandHlsSettings. repeat asserts_step. Qed.
#[export] Hint Resolve expandHlsSettings_asserts_only : asserts.

Lemma expandHlsOutputSettings_asserts_only (s : list value) :
  asserts_only (channel_structure.expandHlsOutputSettings s).
Proof. unfold channel_structure.expandHlsOutputSettings. repeat asserts_step. Qed.
#[export] Hint Resolve expandHlsOutputSettings_asserts_only : asserts.

Lemma expandRtmpOutputDestination_asserts_only (s : list value) :
  asserts_only (channel_structure.expandRtmpOutputDestination s).
Proof. unfold channel_structure.expandRtmpOutputDestination. repeat asserts_step. Qed.
#[export] Hint Resolve expandRtmpOutputDestination_asserts_only : asserts.

Lemma expandRtmpOutputSettings_asserts_only (s : list value) :
  asserts_only (channel_structure.expandRtmpOutputSettings s).
Proof. unfold channel_structure.expandRtmpOutputSettings. repeat asserts_step. Qed.
#[export] Hint Resolve expandRtmpOutputSettings_asserts_only : asserts.

Lemma expandOutputSettings_asserts_only (s : list value) :
  asserts_only (channel_structure.expandOutputSettings s).
Proof. unfold channel_structure.expandOutputSettings. repeat asserts_step. Qed.
#[export] Hint Resolve expandOutputSettings_asserts_only : asserts.

Lemma expandH264Settings_asserts_only (s : list value) :
  asserts_only (channel_structure.expandH264Settings s).
Proof. unfold channel_structure.expandH264Settings. repeat asserts_step. Qed.
#[export] Hint Resolve expandH264Settings_asserts_only : asserts.

Lemma expandInputSpecification_asserts_only (s : list value) :
  asserts_only (channel_encoder.expandInputSpecification s).
Proof. unfold channel_encoder.expandInputSpecification. repeat asserts_step. Qed.
#[export] Hint Resolve expandInputSpecification_asserts_only : asserts.

Lemma expandFeatureActivations_asserts_only (s : list value) :
  asserts_only (channel_encoder.expandFeatureActivations s).
Proof. unfold channel_encoder.expandFeatureActivations. repeat asserts_step. Qed.
#[export] Hint Resolve expandFeatureActivations_asserts_only : asserts.

Lemma expandAacCodecSettings_asserts_only (s : list value) :
  asserts_only (channel_encoder.expandAacCodecSettings s).
Proof. unfold channel_encoder.expandAacCodecSettings. repeat asserts_step. Qed.
#[export] Hint Resolve expandAacCodecSettings_asserts_only : asserts.

Lemma expandAudioCodecSettings_asserts_only (s : list value) :
  asserts_only (channel_encoder.expandAudioCodecSettings s).
Proof. unfold channel_encoder.expandAudioCodecSettings. repeat asserts_step. Qed.
#[export] Hint Resolve expandAudioCodecSettings_asserts_only : asserts.

Lemma expandAudioDescriptions_asserts_only (s : list value) :
  asserts_only (channel_encoder.expandAudioDescriptions s).
Proof. unfold channel_encoder.expandAudioDescriptions. repeat asserts_step. Qed.
#[export] Hint Resolve expandAudioDescriptions_asserts_only : asserts.

Lemma expandEmbeddedSourceSettings_asserts_only (s : list value) :
  asserts_only (channel_encoder.expandEmbeddedSourceSettings s).
Proof. unfold channel_encoder.expandEmbeddedSourceSettings. repeat asserts_step. Qed.
#[export] Hint Resolve expandEmbeddedSourceSettings_asserts_only : asserts.

Lemma expandCaptionSelectorSettings_asserts_only (s : list value) :
  asserts_only (channel_encoder.expandCaptionSelectorSettings s).
Proof. unfold channel_encoder.expandCaptionSelectorSettings. repeat asserts_step. Qed.
#[export] Hint Resolve expandCaptionSelectorSettings_asserts_only : asserts.

Lemma expandCaptionSelectors_asserts_only (s : list value) :
  asserts_only (channel_encoder.expandCaptionSelectors s).
Proof. unfold channel_encoder.expandCaptionSelectors. repeat asserts_step. Qed.
#[export] Hint Resolve expandCaptionSelectors_asserts_only : asserts.

Lemma expandInputAttachmentSettings_asserts_only (s : list value) :
  asserts_only (channel_encoder.expandInputAttachmentSettings s).
Proof. unfold channel_encoder.expandInputAttachmentSettings. repeat asserts_step. Qed.
#[export] Hint Resolve expandInputAttachmentSettings_asserts_only : asserts.

Lemma expandInputAttachments_asserts_only (s : list value) :
  asserts_only (channel_encoder.expandInputAttachments s).
Proof. unfold channel_encoder.expandInputAttachments. repeat asserts_step. Qed.
#[export] Hint Resolve expandInputAttachments_asserts_only : asserts.

Lemma expandWebvttDestinationSettings_asserts_only (s : list value) :
  asserts_only (channel_encoder.expandWebvttDestinationSettings s).
Proof. unfold channel_encoder.expandWebvttDestinationSettings. repeat asserts_step. Qed.
#[export] Hint Resolve expandWebvttDestinationSettings_asserts_only : asserts.

Lemma expandEmbeddedDestinationSettings_asserts_only (s : list value) :
  asserts_only (channel_encoder.expandEmbeddedDestinationSettings s).
Proof. unfold channel_encoder.expandEmbeddedDestinationSettings. repeat asserts_step. Qed.
#[export] Hint Resolve expandEmbeddedDestinationSettings_asserts_only : asserts.

Lemma expandCaptionDestinationSettings_asserts_only (s : list value) :
  asserts_only (channel_encoder.expandCaptionDestinationSettings s).
Proof. unfold channel_encoder.expandCaptionDestinationSettings. repeat asserts_step. Qed.
#[export] Hint Resolve expandCaptionDestinationSettings_asserts_only : asserts.

Lemma expandCaptionDescriptions_asserts_only (s : list value) :
  asserts_only (channel_encoder.expandCaptionDescriptions s).
Proof. unfold channel_encoder.expandCaptionDescriptions. repeat asserts_step. Qed.
#[export] Hint Resolve expandCaptionDescriptions_asserts_only : asserts.

Lemma expandTimecodeConfigs_asserts_only (s : list value) :
  asserts_only (channel_encoder.expandTimecodeConfigs s).
Proof. unfold channel_encoder.expandTimecodeConfigs. repeat asserts_step. Qed.
#[export] Hint Resolve expandTimecodeConfigs_asserts_only : asserts.

Lemma expandVideoCodecSettings_asserts_only (s : list value) :
  asserts_only (channel_encoder.expandVideoCodecSettings s).
Proof. unfold channel_encoder.expandVideoCodecSettings. repeat asserts_step. Qed.
#[export] Hint Resolve expandVideoCodecSettings_asserts_only : asserts.

Lemma expandVideoDescriptions_asserts_only (s : list value) :
  asserts_only (channel_encoder.expandVideoDescriptions s).
Proof. unfold channel_encoder.expandVideoDescriptions. repeat asserts_step. Qed.
#[export] Hint Resolve expandVideoDescriptions_asserts_only : asserts.

Lemma expandOutputs_asserts_only (expandStringList : list value -> list (option string))
  (s : list value) :
  asserts_only (channel_encoder.expandOutputs expandStringList s).
Proof. unfold channel_encoder.expandOutputs. repeat asserts_step. Qed.
#[export] Hint Resolve expandOutputs_asserts_only : asserts.

Lemma expandOutputGroups_asserts_only (expandStringList : list value -> list (option string))
  (s : list value) :
  asserts_only (channel_encoder.expandOutputGroups expandStringList s).
Proof. unfold channel_encoder.expandOutputGroups. repeat asserts_step. Qed.
#[export] Hint Resolve expandOutputGroups_asserts_only : asserts.

Lemma expandEncoderSettings_asserts_only (expandStringList : list value -> list (option string))
  (s : list value) :
  asserts_only (channel_encoder.expandEncoderSettings expandStringList s).
Proof. unfold channel_encoder.expandEncoderSettings. repeat asserts_step. Qed.
#[export] Hint Resolve expandEncoderSettings_asserts_only : asserts.

(** ** The panics of the channel requests *)

#[export] Hint Resolve asserts_only_assert_string asserts_only_assert_int
  asserts_only_assert_float64 asserts_only_assert_list
  asserts_only_assert_set asserts_only_assert_map : asserts.

Section op_asserts.
Context {S : Type}.

Lemma op_asserts_only_bind {A B} (m : op S A) (f : A -> op S B) :
  op_asserts_only m ->
  (forall a, op_asserts_only (f a)) ->
  op_asserts_only (m ≫= f).
Proof.
  intros Hm Hf s p H. apply op_bind_Panic in H.
  destruct H as [H|(a & s1 & _ & H)]; [apply (Hm _ _ H) | apply (Hf _ _ _ H)].
Qed.

Lemma op_asserts_only_ret {A} (a : A) : op_asserts_only (mret a : op S A).
Proof. intros s p H. discriminate. Qed.

Lemma op_asserts_only_lift {A} (m : go A) :
  asserts_only m -> op_asserts_only (lift m : op S A).
Proof.
  intros Hm s p H. unfold lift in H. destruct m as [a|q]; [discriminate|].
  injection H as <-. apply Hm. reflexivity.
Qed.

End op_asserts.

Ltac op_asserts_step :=
  match goal with
  | |- op_asserts_only (_ ≫= _) => apply op_asserts_only_bind; [|intros ?]
  | |- op_asserts_only (mret _) => apply op_asserts_only_ret
  | |- op_asserts_only (lift _) =>
      apply op_asserts_only_lift; repeat asserts_step
  | |- op_asserts_only (d_Get _) => intros ? ? ?; discriminate
  | |- op_asserts_only (d_GetOk _) => intros ? ? ?; discriminate
  | |- op_asserts_only d_Id => intros ? ? ?; discriminate
  | |- op_asserts_only (if ?b then _ else _) => destruct b
  | |- op_asserts_only (let '(_, _) := ?x in _) => destruct x
  | |- op_asserts_only (match ?x with _ => _ end) => destruct x
  end.

Lemma expand_channel_asserts_only {World : Type}
  (expandStringList : list value -> list (option string)) :
  op_asserts_only
    (channel_ops.expand_channel (World := World) expandStringList).
Proof. unfold channel_ops.expand_channel. repeat op_asserts_step. Qed.

(** X17. Building the request of [Create] or of [Update] of the
    channel panics, if at all, at a type assertion of one of the structure
    helpers: the helpers dereference no nil pointer and read no list out of
    range, whatever values the attribute tree holds (a set of the tree is a
    set, never a nil pointer). For [Create] this is so when the tag
    conversion, which is not part of these sources, does not panic
    otherwise. *)
Theorem channel_request_asserts_only {World : Type}
  (MedialiveTags : gmap string value -> go (gmap string (option string)))
  (expandStringList : list value -> list (option string))
  (s : @St World) (p : panic) :
  (forall v, asserts_only (MedialiveTags v)) ->
  channel_ops.resourceAwsMediaLiveChannelCreate_input MedialiveTags
    expandStringList s = Panic p
  \/ channel_ops.resourceAwsMediaLiveChannelUpdate_input expandStringList s
     = Panic p ->
  p = TypeAssertion.
Proof.
  intros Htags [H|H]; revert s p H.
  - change (op_asserts_only
              (channel_ops.resourceAwsMediaLiveChannelCreate_input
                 (World := World) MedialiveTags expandStringList)).
    unfold channel_ops.resourceAwsMediaLiveChannelCreate_input.
    repeat op_asserts_step;
      first [ apply expand_channel_asserts_only | apply Htags ].
  - change (op_asserts_only
              (channel_ops.resourceAwsMediaLiveChannelUpdate_input
                 (World := World) expandStringList)).
    unfold channel_ops.resourceAwsMediaLiveChannelUpdate_input.
    repeat op_asserts_step; apply expand_channel_asserts_only.
Qed.

(** Encoder settings without the ["feature_activations"] block. *)
Lemma channel_request_asserts_only_witness :
  channel_ops.resourceAwsMediaLiveChannelUpdate_input
    scenarios.expandStringList (scenarios.channel_malformed, 0)
  = Panic TypeAssertion.
Proof.
  destruct (channel_ops.resourceAwsMediaLiveChannelUpdate_input
              scenarios.expandStringList (scenarios.channel_malformed, 0))
    as [r|p] eqn:E; [vm_compute in E; discriminate|].
  f_equal.
  apply (channel_request_asserts_only scenarios.MedialiveTags
           scenarios.expandStringList (scenarios.channel_malformed, 0) p).
  - intros v q H. discriminate.
  - right. exact E.
Defined.

(** ** The output groups of the encoder settings *)

Lemma for_range_Forall {A B} (f : A -> go B) (P : B -> Prop)
  (l : list A) (r : list B) :
  (forall a b, f a = Ret b -> P b) -> for_range f l = Ret r -> Forall P r.
Proof.
  intros Hf H. apply for_range_Forall2_inv in H.
  induction H as [|a b l r Hab _ IH]; constructor; eauto.
Qed.

Lemma expandOutputGroupSettings_wellformed (s : list value)
  (r : option medialive.OutputGroupSettings.t) :
  channel_structure.expandOutputGroupSettings s = Ret r ->
  exists ogs, r = Some ogs /\ wellformed.group_settings ogs.
Proof.
  intros H. unfold channel_structure.expandOutputGroupSettings in H.
  destruct (0 <? length s)%nat.
  2:{ injection H as <-. eexists. split; [reflexivity|].
      split; intros h Hh; discriminate. }
  apply bind_Ret in H. destruct H as (settings & _ & H).
  apply bind_Ret in H. destruct H as (hs & _ & H).
  apply bind_Ret in H. destruct H as (hlsp & _ & H).
  apply bind_Ret in H. destruct H as (rs & _ & H).
  apply bind_Ret in H. destruct H as (rtmpp & _ & H).
  apply bind_Ret in H. destruct H as (hls & Hdh & H).
  apply bind_Ret in H. destruct H as (rtmp & Hdr & H).
  injection H as <-.
  destruct hlsp as [hls'|]; [|discriminate]. injection Hdh as ->.
  destruct rtmpp as [rtmp'|]; [|discriminate]. injection Hdr as ->.
  eexists. split; [reflexivity|].
  split; intros h Hh; simpl in Hh.
  - destruct (medialive.HlsGroupSettings.Mode hls) as [m|] eqn:Hm;
      [|discriminate].
    injection Hh as <-. rewrite Hm. eexists. reflexivity.
  - destruct (medialive.RtmpGroupSettings.AuthenticationScheme rtmp)
      as [m|] eqn:Hm; [|discriminate].
    injection Hh as <-. rewrite Hm. eexists. reflexivity.
Qed.

Lemma expandOutputSettings_wellformed (s : list value)
  (r : option medialive.OutputSettings.t) :
  channel_structure.expandOutputSettings s = Ret r ->
  exists os, r = Some os /\ wellformed.output_settings os.
Proof.
  intros H. unfold channel_structure.expandOutputSettings in H.
  destruct (0 <? length s)%nat.
  2:{ injection H as <-. eexists. split; [reflexivity|].
      split; intros h Hh; discriminate. }
  apply bind_Ret in H. destruct H as (settings & _ & H).
  apply bind_Ret in H. destruct H as (hs & _ & H).
  apply bind_Ret in H. destruct H as (hlsp & _ & H).
  apply bind_Ret in H. destruct H as (rs & _ & H).
  apply bind_Ret in H. destruct H as (rtmpp & _ & H).
  apply bind_Ret in H. destruct H as (hls & Hdh & H).
  apply bind_Ret in H. destruct H as (rtmp & Hdr & H).
  injection H as <-.
  destruct hlsp as [hls'|]; [|discriminate]. injection Hdh as ->.
  destruct rtmpp as [rtmp'|]; [|discriminate]. injection Hdr as ->.
  eexists. split; [reflexivity|].
  split; intros h Hh; simpl in Hh.
  - destruct (medialive.HlsOutputSettings.is_zero hls) eqn:Hz;
      [discriminate|].
    injection Hh as <-. intros ->. discriminate.
  - destruct (medialive.RtmpOutputSettings.is_zero rtmp) eqn:Hz;
      [discriminate|].
    injection Hh as <-. intros ->. discriminate.
Qed.

Lemma expandOutputs_wellformed
  (expandStringList : list value -> list (option string))
  (outputs : list value) (r : list medialive_channel.Output.t) :
  channel_encoder.expandOutputs expandStringList outputs = Ret r ->
  Forall wellformed.output r.
Proof.
  unfold channel_encoder.expandOutputs.
  destruct (length outputs =? 0)%nat.
  { intros [= <-]. constructor. }
  apply for_range_Forall. intros v o H.
  apply bind_Ret in H. destruct H as (m & _ & H).
  apply bind_Ret in H. destruct H as (videoDescName & _ & H).
  cbv zeta in H.
  apply bind_Ret in H. destruct H as (output_name & _ & H).
  apply bind_Ret in H. destruct H as (audio & _ & H).
  apply bind_Ret in H. destruct H as (caption & _ & H).
  apply bind_Ret in H. destruct H as (oss & _ & H).
  apply bind_Ret in H. destruct H as (os & Hos & H).
  injection H as <-.
  apply expandOutputSettings_wellformed in Hos.
  destruct Hos as (os' & -> & Hos). split.
  - cbn [medialive_channel.Output.VideoDescriptionName].
    destruct videoDescName; [discriminate|]. simpl. discriminate.
  - exists os'. split; [reflexivity | exact Hos].
Qed.

Lemma expandOutputGroups_wellformed
  (expandStringList : list value -> list (option string))
  (outputGroups : list value) (r : list medialive_channel.OutputGroup.t) :
  channel_encoder.expandOutputGroups expandStringList outputGroups = Ret r ->
  Forall wellformed.output_group r.
Proof.
  unfold channel_encoder.expandOutputGroups.
  destruct (length outputGroups =? 0)%nat.
  { intros [= <-]. constructor. }
  apply for_range_Forall. intros v g H.
  apply bind_Ret in H. destruct H as (m & _ & H).
  apply bind_Ret in H. destruct H as (name & _ & H).
  apply bind_Ret in H. destruct H as (ogss & _ & H).
  apply bind_Ret in H. destruct H as (ogs & Hogs & H).
  apply bind_Ret in H. destruct H as (outputs_list & _ & H).
  apply bind_Ret in H. destruct H as (outputs & Houts & H).
  injection H as <-.
  apply expandOutputGroupSettings_wellformed in Hogs.
  destruct Hogs as (ogs' & -> & Hogs). split.
  - exists ogs'. split; [reflexivity | exact Hogs].
  - exact (expandOutputs_wellformed _ _ _ Houts).
Qed.

(** X18. Every output group of the encoder settings that
    [expandEncoderSettings] returns is well formed: its settings hold no
    HLS struct without a mode and no RTMP struct without an authentication
    scheme, and each of its outputs has settings without an empty HLS or
    RTMP struct and a video description name that is nil or not empty. *)
Theorem expandEncoderSettings_wellformed
  (expandStringList : list value -> list (option string))
  (s : list value) (r : option medialive_channel.EncoderSettings.t) :
  channel_encoder.expandEncoderSettings expandStringList s = Ret r ->
  exists es,
    r = Some es
    /\ Forall wellformed.output_group
         (medialive_channel.EncoderSettings.OutputGroups es).
Proof.
  intros H. unfold channel_encoder.expandEncoderSettings in H.
  destruct (0 <? length s)%nat.
  2:{ injection H as <-. eexists. split; [reflexivity | constructor]. }
  apply bind_Ret in H. destruct H as (raw & _ & H).
  apply bind_Ret in H. destruct H as (? & _ & H).
  apply bind_Ret in H. destruct H as (? & _ & H).
  apply bind_Ret in H. destruct H as (? & _ & H).
  apply bind_Ret in H. destruct H as (? & _ & H).
  apply bind_Ret in H. destruct H as (ogl & _ & H).
  apply bind_Ret in H. destruct H as (groups & Hgroups & H).
  do 6 (apply bind_Ret in H; destruct H as (? & _ & H)).
  injection H as <-.
  eexists. split; [reflexivity|].
  exact (expandOutputGroups_wellformed _ _ _ Hgroups).
Qed.

(** Encoder settings with one HLS output group that has one output. *)
Lemma expandEncoderSettings_wellformed_witness :
  exists es,
    channel_encoder.expandEncoderSettings scenarios.expandStringList
      [VMap scenarios.encoder_settings]
    = Ret (Some es)
    /\ Forall wellformed.output_group
         (medialive_channel.EncoderSettings.OutputGroups es).
Proof.
  destruct (channel_encoder.expandEncoderSettings scenarios.expandStringList
              [VMap scenarios.encoder_settings]) as [r|p] eqn:E;
    [|vm_compute in E; discriminate].
  destruct (expandEncoderSettings_wellformed _ _ _ E) as (es & -> & H).
  exists es. split; [reflexivity | exact H].
Defined.

(** ** The maintenance window *)

Lemma maintenance_field_spec (m : gmap string value) (key v : string) :
  channel_encoder.maintenance_field m key = Some v
  <-> m !! key = Some (VString v) /\ v <> "".
Proof.
  unfold channel_encoder.maintenance_field, channel_encoder.string_ok,
    aws.String.
  destruct (m !! key) as [x|]; [|split; [discriminate | intros [? _]; discriminate]].
  destruct x as [s| | | | | |];
    try (split; [discriminate | intros [? _]; discriminate]).
  cbn [andb]. destruct (String.eqb_spec s "") as [->|Hne]; cbn [negb].
  - split; [discriminate|]. intros [[= <-] Hv]. congruence.
  - split.
    + intros [= <-]. auto.
    + intros [[= <-] _]. reflexivity.
Qed.

(** X19. On a list whose first element is a map,
    [expandChannelMaintenanceCreate] and [expandChannelMaintenanceUpdate]
    return settings, whatever the map holds: the day and the start time are
    set exactly when the map has a non-empty string under
    ["maintenance_day"] and ["maintenance_start_time"], and are that
    string; a missing key, a value of another type and the empty string
    leave the field nil. The two functions agree on both fields, and the
    update settings never have a scheduled date. *)
Theorem expandChannelMaintenance_spec (m : gmap string value)
  (rest : list value) :
  exists c u,
    channel_encoder.expandChannelMaintenanceCreate (Some (VMap m :: rest))
    = Ret (Some c)
    /\ channel_encoder.expandChannelMaintenanceUpdate (Some (VMap m :: rest))
       = Ret (Some u)
    /\ (forall v,
          medialive_channel.MaintenanceCreateSettings.MaintenanceDay c = Some v
          <-> m !! "maintenance_day" = Some (VString v) /\ v <> "")
    /\ (forall v,
          medialive_channel.MaintenanceCreateSettings.MaintenanceStartTime c
          = Some v
          <-> m !! "maintenance_start_time" = Some (VString v) /\ v <> "")
    /\ medialive_channel.MaintenanceUpdateSettings.MaintenanceDay u
       = medialive_channel.MaintenanceCreateSettings.MaintenanceDay c
    /\ medialive_channel.MaintenanceUpdateSettings.MaintenanceStartTime u
       = medialive_channel.MaintenanceCreateSettings.MaintenanceStartTime c
    /\ medialive_channel.MaintenanceUpdateSettings.MaintenanceScheduledDate u
       = None.
Proof.
  eexists _, _. split; [reflexivity|]. split; [reflexivity|].
  cbn [medialive_channel.MaintenanceCreateSettings.MaintenanceDay
         medialive_channel.MaintenanceCreateSettings.MaintenanceStartTime
         medialive_channel.MaintenanceUpdateSettings.MaintenanceDay
         medialive_channel.MaintenanceUpdateSettings.MaintenanceStartTime
         medialive_channel.MaintenanceUpdateSettings.MaintenanceScheduledDate].
  split; [intros v; apply maintenance_field_spec|].
  split; [intros v; apply maintenance_field_spec|].
  auto.
Qed.

(** X20. [expandChannelMaintenanceCreate] and
    [expandChannelMaintenanceUpdate] return nil exactly for the nil slice,
    and panic in two cases only: on a list that is empty without being nil,
    whose first element they read, and on a first element that is not a
    map. *)
Theorem expandChannelMaintenance_panics (tfList : option (list value)) :
  (channel_encoder.expandChannelMaintenanceCreate tfList = Ret None
   <-> tfList = None)
  /\ (channel_encoder.expandChannelMaintenanceUpdate tfList = Ret None
      <-> tfList = None)
  /\ (forall p,
        channel_encoder.expandChannelMaintenanceCreate tfList = Panic p
        <-> (tfList = Some [] /\ p = IndexOutOfRange)
            \/ (exists x rest,
                  tfList = Some (x :: rest)
                  /\ (forall m, x <> VMap m) /\ p = TypeAssertion))
  /\ (forall p,
        channel_encoder.expandChannelMaintenanceUpdate tfList = Panic p
        <-> (tfList = Some [] /\ p = IndexOutOfRange)
            \/ (exists x rest,
                  tfList = Some (x :: rest)
                  /\ (forall m, x <> VMap m) /\ p = TypeAssertion)).
Proof.
  unfold channel_encoder.expandChannelMaintenanceCreate,
    channel_encoder.expandChannelMaintenanceUpdate.
  destruct tfList as [[|x rest]|].
  - split; [split; discriminate|]. split; [split; discriminate|].
    split; intros p; (split; [intros [= <-]; left; auto|]);
      intros [[_ ->]|(? & ? & [=] & _)]; reflexivity.
  - assert (Hx : (exists m, x = VMap m) \/ forall m, x <> VMap m).
    { destruct x; try (right; discriminate). left. eauto. }
    split; [split; [destruct x; discriminate | discriminate]|].
    split; [split; [destruct x; discriminate | discriminate]|].
    split; intros p.
    + destruct Hx as [[m ->]|Hx].
      * split; [discriminate|].
        intros [[[=] _]|(x & r & [= <- _] & Hm & _)]. destruct (Hm m eq_refl).
      * split.
        -- intros H. right. exists x, rest. split; [reflexivity|].
           split; [exact Hx|].
           destruct x; simpl in H; congruence.
        -- intros [[[=] _]|(x' & r & [= <- _] & _ & ->)].
           destruct x; try reflexivity. destruct (Hx m eq_refl).
    + destruct Hx as [[m ->]|Hx].
      * split; [discriminate|].
        intros [[[=] _]|(x & r & [= <- _] & Hm & _)]. destruct (Hm m eq_refl).
      * split.
        -- intros H. right. exists x, rest. split; [reflexivity|].
           split; [exact Hx|].
           destruct x; simpl in H; congruence.
        -- intros [[[=] _]|(x' & r & [= <- _] & _ & ->)].
           destruct x; try reflexivity. destruct (Hx m eq_refl).
  - split; [tauto|]. split; [tauto|].
    split; intros p; (split; [discriminate|]);
      intros [[[=] _]|(? & ? & [=] & _)].
Qed.

(** ** The authorization of an origin endpoint *)

(** X21. [flattenAuthorization] dereferences its argument, and so
    panics on the nil pointer. On an authorization it returns a map that
    [expandAuthorization], given a set that holds the map, turns back into
    an authorization with the same secret and role, a nil pointer having
    become the empty string: the round trip gives the authorization back
    exactly when both of its fields are set. *)
Theorem expandAuthorization_flattenAuthorization
  (auth : option origin_endpoint_structure.Authorization.t) :
  match auth with
  | None =>
      origin_endpoint_structure.flattenAuthorization auth
      = Panic NilDereference
  | Some a =>
      exists m,
        origin_endpoint_structure.flattenAuthorization auth = Ret m
        /\ origin_endpoint_structure.expandAuthorization [VMap m]
           = Ret (Some
                {| origin_endpoint_structure.Authorization.CdnIdentifierSecret :=
                     Some (aws.StringValue
                             (origin_endpoint_structure.Authorization.CdnIdentifierSecret a));
                   origin_endpoint_structure.Authorization.SecretsRoleArn :=
                     Some (aws.StringValue
                             (origin_endpoint_structure.Authorization.SecretsRoleArn a)) |})
        /\ (origin_endpoint_structure.expandAuthorization [VMap m]
            = Ret (Some a)
            <-> is_Some
                  (origin_endpoint_structure.Authorization.CdnIdentifierSecret a)
                /\ is_Some
                     (origin_endpoint_structure.Authorization.SecretsRoleArn a))
  end.
Proof.
  destruct auth as [[cdn role]|]; [|reflexivity].
  eexists. split; [reflexivity|].
  assert (H : origin_endpoint_structure.expandAuthorization
                [VMap {[ "cdn_identifier_secret" :=
                           VString (aws.StringValue cdn);
                         "secrets_role_arn" :=
                           VString (aws.StringValue role) ]}]
              = Ret (Some
                   {| origin_endpoint_structure.Authorization.CdnIdentifierSecret :=
                        Some (aws.StringValue cdn);
                      origin_endpoint_structure.Authorization.SecretsRoleArn :=
                        Some (aws.StringValue role) |})).
  { vm_compute. reflexivity. }
  cbn [origin_endpoint_structure.Authorization.CdnIdentifierSecret
         origin_endpoint_structure.Authorization.SecretsRoleArn].
  split; [exact H|]. rewrite H. split.
  - intros [= <- <-]. split; eexists; reflexivity.
  - intros [[c ->] [r ->]]. reflexivity.
Qed.

(** ** The request of the second revision of the input *)

(** X22. The request that [Create] of the second revision builds
    never holds a role ARN, although the schema has the attribute
    ["role_arn"]; its request id is not taken from the configuration but
    drawn from the generator of random ids, on the state of the service
    that [Create] starts in. *)
Theorem resourceAwsMediaLiveInputCreate_input_role_arn {World : Type}
  (MedialiveTags : gmap string value -> go (gmap string (option string)))
  (uuid_NewRandom : op World string) (s s1 : @St World)
  (input : medialive.CreateInputInput.t) :
  input_rev2.resourceAwsMediaLiveInputCreate_input MedialiveTags
    uuid_NewRandom s
  = Ret (input, s1) ->
  medialive.CreateInputInput.RoleArn input = None
  /\ exists id w1,
       uuid_NewRandom (snd s) = Ret (id, w1)
       /\ medialive.CreateInputInput.RequestId input = Some id.
Proof.
  intros H. unfold input_rev2.resourceAwsMediaLiveInputCreate_input in H.
  apply op_bind_Ret in H. destruct H as (? & s2 & E & H).
  injection E as _ <-.
  apply op_bind_Ret in H. destruct H as (? & s3 & E & H).
  apply lift_Ret in E. destruct E as [_ ->].
  apply op_bind_Ret in H. destruct H as (? & s4 & E & H).
  injection E as _ <-.
  apply op_bind_Ret in H. destruct H as (? & s5 & E & H).
  apply lift_Ret in E. destruct E as [_ ->].
  apply op_bind_Ret in H. destruct H as (id & s6 & E & H).
  apply on_world_inv in E. destruct E as [Hid _].
  apply op_bind_Ret in H. destruct H as ([v ok] & ? & _ & H).
  apply op_bind_Ret in H. destruct H as (? & ? & _ & H).
  apply op_bind_Ret in H. destruct H as ([raw ok'] & ? & _ & H).
  do 4 (apply op_bind_Ret in H; destruct H as (? & ? & _ & H)).
  injection H as <- _.
  split; [reflexivity|]. exists id, (snd s6). auto.
Qed.

(** The configuration names a role, and the request has none. *)
Lemma resourceAwsMediaLiveInputCreate_input_role_arn_witness :
  schema.Get examples.input_config_rev2 "role_arn"
  = Some (VString "arn:aws:iam::123456789012:role/medialive")
  /\ medialive.CreateInputInput.RoleArn scenarios.request_rev2 = None
  /\ exists id w1,
       examples.uuid_NewRandom 0 = Ret (id, w1)
       /\ medialive.CreateInputInput.RequestId scenarios.request_rev2
          = Some id.
Proof.
  split; [vm_compute; reflexivity|].
  refine (resourceAwsMediaLiveInputCreate_input_role_arn
            scenarios.MedialiveTags examples.uuid_NewRandom
            (examples.input_config_rev2, 0) (examples.input_config_rev2, 0)
            scenarios.request_rev2 _).
  vm_compute. reflexivity.
Defined.

(** A block that leaves the frame rate to the source, in the second
    revision of the helper. *)
Lemma expandH264Settings_rev2_framerate_witness :
  exists h,
    channel_structure_rev2.expandH264Settings [VMap examples.h264_from_source]
    = Ret (Some h)
    /\ is_Some (medialive.H264Settings.FramerateNumerator h)
    /\ is_Some (medialive.H264Settings.FramerateDenominator h).
Proof.
  destruct (channel_structure_rev2.expandH264Settings
              [VMap examples.h264_from_source]) as [r|p] eqn:E;
    [|vm_compute in E; discriminate].
  destruct (expandH264Settings_rev2_framerate
              [VMap examples.h264_from_source] r)
    as (h & -> & H); [discriminate | exact E |].
  exists h. split; [reflexivity | exact H].
Defined.
